(** * E-commerce backend: cart, order, payment-callback and ticket rules

    A shallow embedding of the repositories and controllers of the
    backend (CartRepository, CartController, OrderRepository,
    OrderController, StripeWebhookController, TicketRepository,
    TicketController) together with the properties of their
    data-consistency rules.

    Modelling conventions.
    - A MongoDB collection is a [list] of documents in natural order;
      [findOne]/[findById] return the first matching document and
      [findByIdAndUpdate]/[findOneAndUpdate] rewrite that document in place.
    - JavaScript numbers are modelled by [Z]: quantities are counts and
      prices are amounts in the smallest currency unit.  Rounding of
      IEEE doubles is outside the model.
    - [async] methods are run to completion one after the other, so every
      method is a function from the collections it touches to its result
      and the new collections.
    - [save] and the update calls always succeed: exceptions raised by the
      database driver or by schema validation (such as the minimum of 1 on
      the quantity of a cart line), which the controllers forward to
      [next(error)], are outside the model.  The payment gateway is an
      explicit oracle whose [None] answer stands for a thrown error. *)

From Stdlib Require Import ZArith.
From stdpp Require Import base decidable option list strings numbers pretty.

Local Open Scope Z_scope.

(** ** JavaScript helpers *)

Module Js.

(** An optional string read in a boolean position: [undefined] and the
    empty string are falsy, so only a non-empty string survives. *)
Definition nonempty (s : option string) : option string :=
  match s with
  | Some v => if decide (v = EmptyString) then None else Some v
  | None => None
  end.

Definition truthy (s : option string) : bool :=
  bool_decide (is_Some (nonempty s)).

(** [a || b] on optional strings. *)
Definition or_else (a b : option string) : option string :=
  match nonempty a with
  | Some v => Some v
  | None => b
  end.

(** Sum of a list of numbers, the mathematical reading of "the sum over
    the line items". *)
Definition sumZ (l : list Z) : Z := foldr Z.add 0 l.

(** [parseInt(s) || d] on a query parameter: [None] stands for NaN. *)
Definition or_default (n : option Z) (d : Z) : Z :=
  match n with
  | Some v => if decide (v = 0) then d else v
  | None => d
  end.

(** [Array.prototype.slice(start, end)] for integer arguments: a negative
    index counts from the end, every index is clamped to the array. *)
Definition slice {A} (l : list A) (start stop : Z) : list A :=
  let len := Z.of_nat (length l) in
  let rel k := if decide (k < 0) then Z.max (len + k) 0 else Z.min k len in
  take (Z.to_nat (rel stop - rel start)) (drop (Z.to_nat (rel start)) l).

(** [Math.ceil(a / b)] for integers [a] and [b], [b] not zero. *)
Definition ceil_div (a b : Z) : Z := - ((- a) / b).

End Js.

(** ** Collections *)

Module Collection.
Section Collection.
Context {D : Type}.

(** [Model.findOne(query)]: the first document satisfying the query. *)
Definition findOne (P : D → Prop) `{∀ d, Decision (P d)} (s : list D) : option D :=
  snd <$> list_find P s.

(** [Model.findOneAndUpdate(query, update, { new: true })]: rewrites the
    first matching document and returns its new state, or returns
    [null] and changes nothing. *)
Definition findOneAndUpdate (P : D → Prop) `{∀ d, Decision (P d)}
    (upd : D → D) (s : list D) : option D * list D :=
  match list_find P s with
  | Some (i, d) => (Some (upd d), <[i := upd d]> s)
  | None => (None, s)
  end.

(** [Model.find(query).sort({ createdAt: -1 }).limit(n).skip(k)]: the
    documents of the collection are kept in creation order, so the newest
    come first after the sort; [skip] applies before [limit], and a limit
    of 0 means no limit. *)
Definition findNewestFirst (P : D → Prop) `{∀ d, Decision (P d)}
    (limit skip : nat) (s : list D) : list D :=
  let sorted := reverse (filter P s) in
  let skipped := drop skip sorted in
  match limit with
  | O => skipped
  | _ => take limit skipped
  end.

End Collection.
End Collection.

(** ** Cart model (models/Cart) *)

Module CartModel.

Record CartItem := mkCartItem {
  productId : string;
  title : string;
  price : Z;
  quantity : Z;
  thumbnail : string;
  addedAt : Z
}.

Record Cart := mkCart {
  _id : string;
  userId : option string;
  items : list CartItem;
  totalAmount : Z;
  totalItems : Z;
  isActive : bool
}.

Definition set_quantity (it : CartItem) (q : Z) : CartItem :=
  mkCartItem (productId it) (title it) (price it) q (thumbnail it) (addedAt it).

Definition set_items (c : Cart) (its : list CartItem) : Cart :=
  mkCart (_id c) (userId c) its (totalAmount c) (totalItems c) (isActive c).

Definition set_userId (c : Cart) (u : option string) : Cart :=
  mkCart (_id c) u (items c) (totalAmount c) (totalItems c) (isActive c).

Definition set_isActive (c : Cart) (b : bool) : Cart :=
  mkCart (_id c) (userId c) (items c) (totalAmount c) (totalItems c) b.

Definition set_totals (c : Cart) (n amount : Z) : Cart :=
  mkCart (_id c) (userId c) (items c) amount n (isActive c).

(** The cached totals agree with the line items. *)
Definition totals_ok (c : Cart) : Prop :=
  totalItems c = Js.sumZ (quantity <$> items c) ∧
  totalAmount c = Js.sumZ ((λ it, price it * quantity it) <$> items c).

(** Total quantity held for one product id, over all its lines. *)
Definition qty_of (pid : string) (its : list CartItem) : Z :=
  Js.sumZ (quantity <$> filter (λ it, productId it = pid) its).

Definition has_product (pid : string) (its : list CartItem) : Prop :=
  pid ∈ (productId <$> its).

#[global] Instance has_product_dec (pid : string) (its : list CartItem) :
  Decision (has_product pid its).
Proof. unfold has_product. apply _. Defined.

End CartModel.

(** ** CartRepository *)

Module CartRepository.
Import CartModel.

(** [Array.prototype.findIndex]: [None] stands for the index -1. *)
Definition findIndex {A} (P : A → Prop) `{∀ x, Decision (P x)} (l : list A) : option nat :=
  fst <$> list_find P l.

(** [CartModel.findOne({ userId, isActive: true })]. *)
Definition findByUserId (carts : list Cart) (uid : string) : option Cart :=
  Collection.findOne (λ c, userId c = Some uid ∧ isActive c = true) carts.

(** [CartModel.findById(id)]: no filter on [isActive] or on the owner. *)
Definition findById (carts : list Cart) (id : string) : option Cart :=
  Collection.findOne (λ c, _id c = id) carts.

(** [cart.save()] for a document that was loaded from the collection. *)
Definition save (cart : Cart) (carts : list Cart) : list Cart :=
  snd (Collection.findOneAndUpdate (λ c, _id c = _id cart) (λ _, cart) carts).

(** [new CartModel(cartData).save()]; [newId] is the identifier the
    database assigns to the new document. *)
Definition create (newId : string) (uid : option string) (carts : list Cart)
    : Cart * list Cart :=
  let cart := mkCart newId uid [] 0 0 true in
  (cart, carts ++ [cart]).

(** The two [reduce] calls that follow every change of [cart.items]. *)
Definition recalculate (cart : Cart) : Cart :=
  set_totals cart
    (fold_left (λ total item, total + quantity item) (items cart) 0)
    (fold_left (λ total item, total + price item * quantity item) (items cart) 0).

(** The findIndex / [+=] / [push] step, written once in [addItem] and once
    in the loop of [mergeGuestCart]. *)
Definition addLine (its : list CartItem) (item : CartItem) : list CartItem :=
  match findIndex (λ cartItem, productId cartItem = productId item) its with
  | Some existingItemIndex =>
      alter (λ it, set_quantity it (quantity it + quantity item)) existingItemIndex its
  | None => its ++ [item]
  end.

Definition addItem (carts : list Cart) (cartId : string) (item : CartItem)
    : option Cart * list Cart :=
  match findById carts cartId with
  | None => (None, carts)
  | Some cart =>
      let cart' := recalculate (set_items cart (addLine (items cart) item)) in
      (Some cart', save cart' carts)
  end.

Definition updateItemQuantity (carts : list Cart) (cartId pid : string) (q : Z)
    : option Cart * list Cart :=
  match findById carts cartId with
  | None => (None, carts)
  | Some cart =>
      match findIndex (λ item, productId item = pid) (items cart) with
      | None => (None, carts)
      | Some itemIndex =>
          let its :=
            if decide (q ≤ 0) then delete itemIndex (items cart)
            else alter (λ it, set_quantity it q) itemIndex (items cart) in
          let cart' := recalculate (set_items cart its) in
          (Some cart', save cart' carts)
      end
  end.

Definition removeItem (carts : list Cart) (cartId pid : string)
    : option Cart * list Cart :=
  match findById carts cartId with
  | None => (None, carts)
  | Some cart =>
      let cart' :=
        recalculate (set_items cart (filter (λ item, productId item ≠ pid) (items cart))) in
      (Some cart', save cart' carts)
  end.

Definition clearCart (carts : list Cart) (cartId : string) : option Cart * list Cart :=
  match findById carts cartId with
  | None => (None, carts)
  | Some cart =>
      let cart' := set_totals (set_items cart []) 0 0 in
      (Some cart', save cart' carts)
  end.

Definition deactivateCart (carts : list Cart) (cartId : string)
    : option Cart * list Cart :=
  Collection.findOneAndUpdate (λ c, _id c = cartId) (λ c, set_isActive c false) carts.

Definition getOrCreateCart (newId : string) (carts : list Cart)
    (uid guestId : option string) : Cart * list Cart :=
  let found :=
    match Js.nonempty uid, Js.nonempty guestId with
    | Some u, _ => findByUserId carts u
    | None, Some g => findById carts g
    | None, None => None
    end in
  match found with
  | Some cart => (cart, carts)
  | None => create newId (Js.nonempty uid) carts
  end.

Definition mergeGuestCart (carts : list Cart) (guestCartId uid : string)
    : option Cart * list Cart :=
  match findById carts guestCartId with
  | None => (None, carts)
  | Some guestCart =>
      match findByUserId carts uid with
      | None =>
          Collection.findOneAndUpdate (λ c, _id c = guestCartId)
            (λ c, set_userId c (Some uid)) carts
      | Some userCart =>
          let userCart' :=
            recalculate
              (set_items userCart (fold_left addLine (items guestCart) (items userCart))) in
          let carts1 := save userCart' carts in
          (Some userCart', snd (deactivateCart carts1 guestCartId))
      end
  end.

(** The four mutations of a cart. *)
Inductive mutation :=
  | AddItem (item : CartItem)
  | UpdateItemQuantity (pid : string) (q : Z)
  | RemoveItem (pid : string)
  | ClearCart.

Definition mutate (m : mutation) (carts : list Cart) (cartId : string)
    : option Cart * list Cart :=
  match m with
  | AddItem item => addItem carts cartId item
  | UpdateItemQuantity pid q => updateItemQuantity carts cartId pid q
  | RemoveItem pid => removeItem carts cartId pid
  | ClearCart => clearCart carts cartId
  end.

End CartRepository.

(** ** Product catalog (models/Product, ProductRepository)

    Only the fields the cart and order code reads are kept. *)

Module ProductModel.

Record Product := mkProduct {
  _id : string;
  title : string;
  price : Z;
  stock : Z;
  thumbnail : string
}.

End ProductModel.

Module ProductRepository.
Import ProductModel.

Definition findById (products : list Product) (id : string) : option Product :=
  Collection.findOne (λ p, _id p = id) products.

End ProductRepository.

(** ** The uniform response envelope *)

Module Http.

Record Response (A : Type) := mkResponse {
  status : Z;
  success : bool;
  data : option A;
  message : string
}.
Arguments mkResponse {A} _ _ _ _.
Arguments status {A} _.
Arguments success {A} _.
Arguments data {A} _.
Arguments message {A} _.

Definition fail {A} (code : Z) (msg : string) : Response A :=
  mkResponse code false None msg.

Definition ok {A} (code : Z) (d : option A) (msg : string) : Response A :=
  mkResponse code true d msg.

End Http.

(** ** CartController *)

Module CartController.
Import CartModel.

Record Request := mkRequest {
  user : option string;          (* req.user?._id?.toString() *)
  guest_id : option string;      (* req.cookies?.guest_id *)
  productId : string;            (* req.params.productId or req.body.productId *)
  quantity : option Z            (* req.body.quantity *)
}.

Definition getOrCreateCart (newId : string) (carts : list Cart) (req : Request)
    : Cart * list Cart :=
  CartRepository.getOrCreateCart newId carts (user req) (guest_id req).

(** [!quantity || quantity <= 0]. *)
Definition bad_quantity (q : option Z) : bool :=
  match q with
  | None => true
  | Some v => bool_decide (v = 0) || bool_decide (v ≤ 0)
  end.

Definition addToCart (newId : string) (now : Z) (carts : list Cart)
    (products : list ProductModel.Product) (req : Request)
    : Http.Response Cart * list Cart :=
  let q := default 1 (quantity req) in
  if negb (Js.truthy (Some (productId req))) || bool_decide (q ≤ 0) then
    (Http.fail 400 "Valid product ID and quantity are required", carts)
  else
    match ProductRepository.findById products (productId req) with
    | None => (Http.fail 404 "Product not found", carts)
    | Some product =>
        let '(cart, carts1) := getOrCreateCart newId carts req in
        let cartItem :=
          mkCartItem (ProductModel._id product) (ProductModel.title product)
            (ProductModel.price product) q (ProductModel.thumbnail product) now in
        let '(updatedCart, carts2) := CartRepository.addItem carts1 (_id cart) cartItem in
        (Http.ok 200 updatedCart "Item added to cart successfully", carts2)
    end.

Definition updateCartItem (newId : string) (carts : list Cart)
    (products : list ProductModel.Product) (req : Request)
    : Http.Response Cart * list Cart :=
  if negb (Js.truthy (Some (productId req))) || bad_quantity (quantity req) then
    (Http.fail 400 "Valid product ID and quantity are required", carts)
  else
    let q := default 0 (quantity req) in
    let '(cart, carts1) := getOrCreateCart newId carts req in
    match ProductRepository.findById products (productId req) with
    | None => (Http.fail 404 "Product not found", carts1)
    | Some product =>
        if decide (ProductModel.stock product < q) then
          (Http.fail 400
             ("Only " +:+ pretty (ProductModel.stock product) +:+ " items available in stock"),
           carts1)
        else
          match CartRepository.updateItemQuantity carts1 (_id cart) (productId req) q with
          | (None, carts2) => (Http.fail 404 "Cart item not found", carts2)
          | (Some updatedCart, carts2) =>
              (Http.ok 200 (Some updatedCart) "Cart item updated successfully", carts2)
          end
    end.

Definition removeFromCart (newId : string) (carts : list Cart) (req : Request)
    : Http.Response Cart * list Cart :=
  if negb (Js.truthy (Some (productId req))) then
    (Http.fail 400 "Valid product ID is required", carts)
  else
    let '(cart, carts1) := getOrCreateCart newId carts req in
    match CartRepository.removeItem carts1 (_id cart) (productId req) with
    | (None, carts2) => (Http.fail 404 "Item not found in cart", carts2)
    | (Some updatedCart, carts2) =>
        (Http.ok 200 (Some updatedCart) "Item removed from cart successfully", carts2)
    end.

Definition clearCart (newId : string) (carts : list Cart) (req : Request)
    : Http.Response Cart * list Cart :=
  let '(cart, carts1) := getOrCreateCart newId carts req in
  let '(clearedCart, carts2) := CartRepository.clearCart carts1 (_id cart) in
  (Http.ok 200 clearedCart "Cart cleared successfully", carts2).

Definition mergeGuestCart (carts : list Cart) (req : Request)
    : Http.Response Cart * list Cart :=
  match Js.nonempty (guest_id req), Js.nonempty (user req) with
  | Some guestId, Some userId =>
      match CartRepository.mergeGuestCart carts guestId userId with
      | (None, carts1) => (Http.fail 404 "Guest cart not found", carts1)
      | (Some mergedCart, carts1) =>
          (Http.ok 200 (Some mergedCart) "Guest cart merged successfully", carts1)
      end
  | _, _ =>
      (Http.fail 400 "Guest ID (from cookie) and user authentication are required", carts)
  end.

(** [getCart]: the third component is the value of the [guest_id] cookie
    set on the response, if any. *)
Definition getCart (newId : string) (carts : list Cart) (req : Request)
    : Http.Response Cart * list Cart * option string :=
  match Js.nonempty (user req) with
  | Some userId =>
      let '(cart, carts1) :=
        match CartRepository.findByUserId carts userId with
        | Some cart => (cart, carts)
        | None => CartRepository.create newId (Some userId) carts
        end in
      (Http.ok 200 (Some cart) "Cart retrieved successfully", carts1, None)
  | None =>
      match Js.nonempty (guest_id req) with
      | None =>
          let '(cart, carts1) := CartRepository.create newId None carts in
          (Http.ok 200 (Some cart) "Cart retrieved successfully", carts1, Some (_id cart))
      | Some guestId =>
          let '(cart, carts1) :=
            match CartRepository.findById carts guestId with
            | Some cart => (cart, carts)
            | None => CartRepository.create newId None carts
            end in
          (Http.ok 200 (Some cart) "Cart retrieved successfully", carts1, None)
      end
  end.

(** One entry of [validationResults]. *)
Record ValidationResult := mkValidationResult {
  result_productId : string;
  result_title : string;
  available : bool;
  reason : option string;
  availableStock : option Z;
  requestedQuantity : option Z;
  currentPrice : option Z;
  result_stock : option Z
}.

(** The body of the loop of [validateCart]. *)
Definition validateLine (products : list ProductModel.Product) (item : CartItem)
    : ValidationResult :=
  match ProductRepository.findById products (CartModel.productId item) with
  | None =>
      mkValidationResult (CartModel.productId item) (title item) false
        (Some "Product not found"%string) None None None None
  | Some product =>
      if decide (ProductModel.stock product < CartModel.quantity item) then
        mkValidationResult (CartModel.productId item) (title item) false
          (Some "Insufficient stock"%string) (Some (ProductModel.stock product))
          (Some (CartModel.quantity item)) None None
      else
        mkValidationResult (CartModel.productId item) (title item) true
          None None None (Some (ProductModel.price product))
          (Some (ProductModel.stock product))
  end.

Record ValidateCartResponse := mkValidateCartResponse {
  validate_status : Z;
  validate_success : bool;
  allItemsAvailable : bool;
  validationResults : list ValidationResult;
  cartTotal : Z
}.

Definition validateCart (newId : string) (carts : list Cart)
    (products : list ProductModel.Product) (req : Request)
    : ValidateCartResponse * list Cart :=
  let '(cart, carts1) := getOrCreateCart newId carts req in
  let validationResults := validateLine products <$> items cart in
  let allItemsAvailable := forallb available validationResults in
  (mkValidateCartResponse 200 true allItemsAvailable validationResults (totalAmount cart),
   carts1).

End CartController.

(** ** Order model (models/Order) *)

Module PaymentMethod.
Inductive t := ONLINE | COD.

Definition parse (s : string) : option t :=
  if decide (s = "ONLINE"%string) then Some ONLINE
  else if decide (s = "COD"%string) then Some COD
  else None.
End PaymentMethod.

Module PaymentStatus.
Inductive t := PENDING | PAID.
End PaymentStatus.

Module OrderStatus.
Inductive t := PENDING | CONFIRMED | SHIPPED | DELIVERED | CANCELLED.

#[global] Instance eq_dec : EqDecision t.
Proof. solve_decision. Defined.

(** [validStatuses.includes(status)], with the value it denotes. *)
Definition parse (s : string) : option t :=
  if decide (s = "PENDING"%string) then Some PENDING
  else if decide (s = "CONFIRMED"%string) then Some CONFIRMED
  else if decide (s = "SHIPPED"%string) then Some SHIPPED
  else if decide (s = "DELIVERED"%string) then Some DELIVERED
  else if decide (s = "CANCELLED"%string) then Some CANCELLED
  else None.

Definition to_string (s : t) : string :=
  match s with
  | PENDING => "PENDING"
  | CONFIRMED => "CONFIRMED"
  | SHIPPED => "SHIPPED"
  | DELIVERED => "DELIVERED"
  | CANCELLED => "CANCELLED"
  end.
End OrderStatus.

Module OrderModel.

Record OrderItem := mkOrderItem {
  productId : string;
  title : string;
  price : Z;
  quantity : Z;
  thumbnail : string
}.

Record ShippingAddress := mkShippingAddress {
  street : string;
  city : string;
  state : string;
  postalCode : string;
  country : string;
  isDefault : bool
}.

Record Order := mkOrder {
  _id : string;
  userId : string;
  items : list OrderItem;
  totalAmount : Z;
  totalItems : Z;
  shippingAddress : ShippingAddress;
  paymentMethod : PaymentMethod.t;
  paymentStatus : PaymentStatus.t;
  orderStatus : OrderStatus.t;
  sessionId : option string;
  transactionId : option string;
  orderNumber : string;
  isActive : bool
}.

Definition set_orderStatus (o : Order) (s : OrderStatus.t) : Order :=
  mkOrder (_id o) (userId o) (items o) (totalAmount o) (totalItems o)
    (shippingAddress o) (paymentMethod o) (paymentStatus o) s
    (sessionId o) (transactionId o) (orderNumber o) (isActive o).

Definition set_paymentStatus (o : Order) (s : PaymentStatus.t) : Order :=
  mkOrder (_id o) (userId o) (items o) (totalAmount o) (totalItems o)
    (shippingAddress o) (paymentMethod o) s (orderStatus o)
    (sessionId o) (transactionId o) (orderNumber o) (isActive o).

Definition set_sessionId (o : Order) (s : option string) : Order :=
  mkOrder (_id o) (userId o) (items o) (totalAmount o) (totalItems o)
    (shippingAddress o) (paymentMethod o) (paymentStatus o) (orderStatus o)
    s (transactionId o) (orderNumber o) (isActive o).

Definition set_transactionId (o : Order) (s : option string) : Order :=
  mkOrder (_id o) (userId o) (items o) (totalAmount o) (totalItems o)
    (shippingAddress o) (paymentMethod o) (paymentStatus o) (orderStatus o)
    (sessionId o) s (orderNumber o) (isActive o).

Definition set_isActive (o : Order) (b : bool) : Order :=
  mkOrder (_id o) (userId o) (items o) (totalAmount o) (totalItems o)
    (shippingAddress o) (paymentMethod o) (paymentStatus o) (orderStatus o)
    (sessionId o) (transactionId o) (orderNumber o) b.

End OrderModel.

(** ** OrderRepository *)

Module OrderRepository.
Import OrderModel.

(** [new OrderModel(orderData).save()]: the database assigns [newId] and
    the pre-validate hook assigns the generated [newNumber]. *)
Definition create (newId newNumber : string) (uid : string) (its : list OrderItem)
    (amount n : Z) (addr : ShippingAddress) (pm : PaymentMethod.t)
    (orders : list Order) : Order * list Order :=
  let order :=
    mkOrder newId uid its amount n addr pm PaymentStatus.PENDING OrderStatus.PENDING
      None None newNumber true in
  (order, orders ++ [order]).

Definition findById (orders : list Order) (id : string) : option Order :=
  Collection.findOne (λ o, _id o = id) orders.

Definition findByOrderNumber (orders : list Order) (num : string) : option Order :=
  Collection.findOne (λ o, orderNumber o = num ∧ isActive o = true) orders.

Definition updateOrderStatus (orders : list Order) (orderId : string)
    (status : OrderStatus.t) : option Order * list Order :=
  Collection.findOneAndUpdate (λ o, _id o = orderId)
    (λ o, set_orderStatus o status) orders.

Definition updatePaymentStatus (orders : list Order) (orderId : string)
    (status : PaymentStatus.t) (transactionId : option string)
    : option Order * list Order :=
  Collection.findOneAndUpdate (λ o, _id o = orderId)
    (λ o,
       let o' := set_paymentStatus o status in
       match Js.nonempty transactionId with
       | Some tid => set_transactionId o' (Some tid)
       | None => o'
       end)
    orders.

Definition updateSessionId (orders : list Order) (orderId sessionId : string)
    : option Order * list Order :=
  Collection.findOneAndUpdate (λ o, _id o = orderId)
    (λ o, set_sessionId o (Some sessionId)) orders.

Definition cancelOrder (orders : list Order) (orderId : string)
    : option Order * list Order :=
  Collection.findOneAndUpdate (λ o, _id o = orderId)
    (λ o, set_orderStatus o OrderStatus.CANCELLED) orders.

Definition deactivateOrder (orders : list Order) (orderId : string)
    : bool * list Order :=
  let '(result, orders') :=
    Collection.findOneAndUpdate (λ o, _id o = orderId)
      (λ o, set_isActive o false) orders in
  (bool_decide (is_Some result), orders').

(** [findByUserId(userId, limit = 10, offset = 0)]. *)
Definition findByUserId (orders : list Order) (uid : string) (limit offset : nat)
    : list Order :=
  Collection.findNewestFirst (λ o, userId o = uid ∧ isActive o = true) limit offset orders.

Record OrderStats := mkOrderStats {
  totalOrders : Z;
  pendingOrders : Z;
  confirmedOrders : Z;
  shippedOrders : Z;
  deliveredOrders : Z;
  cancelledOrders : Z;
  totalSpent : Z
}.

(** [$sum] of a [$cond] that gives 1 for one order status. *)
Definition countStatus (st : OrderStatus.t) (matched : list Order) : Z :=
  Js.sumZ ((λ o, if decide (orderStatus o = st) then 1 else 0) <$> matched).

(** The [$match] / [$group] aggregation; an empty match gives no group
    and the zero record is returned instead. *)
Definition getOrderStats (orders : list Order) (uid : string) : OrderStats :=
  let matched := filter (λ o, userId o = uid ∧ isActive o = true) orders in
  match matched with
  | [] => mkOrderStats 0 0 0 0 0 0 0
  | _ =>
      mkOrderStats (Js.sumZ ((λ _, 1) <$> matched))
        (countStatus OrderStatus.PENDING matched)
        (countStatus OrderStatus.CONFIRMED matched)
        (countStatus OrderStatus.SHIPPED matched)
        (countStatus OrderStatus.DELIVERED matched)
        (countStatus OrderStatus.CANCELLED matched)
        (Js.sumZ (totalAmount <$> matched))
  end.

End OrderRepository.

(** ** The payment gateway (StripeService), as seen by its callers *)

Module Stripe.

Record Session := mkSession {
  id : string;
  url : string;
  payment_status : string
}.

(** What the gateway answers; [None] stands for a thrown error. *)
Record Gateway := mkGateway {
  createCheckoutSession :
    list OrderModel.OrderItem → option string → option string
    → string → string → string → option Session;
  retrieveCheckoutSession : string → option Session
}.

End Stripe.

(** ** OrderController *)

Module OrderController.
Import OrderModel.

Record CreateOrderRequest := mkCreateOrderRequest {
  user : option string;                       (* req.user?._id?.toString() *)
  body_shippingAddress : option ShippingAddress;
  body_paymentMethod : option string;
  successUrl : option string;
  cancelUrl : option string
}.

(** The response of the checkout; the [error] text that the 500 response
    copies from the gateway's exception is not kept. *)
Record CreateOrderResponse := mkCreateOrderResponse {
  status : Z;
  success : bool;
  data : option Order;
  message : string;
  checkoutSession : option (string * string)   (* id, url *)
}.

Definition reject (code : Z) (msg : string) : CreateOrderResponse :=
  mkCreateOrderResponse code false None msg None.

(** The loop over [cart.items]: either the message of the first line that
    fails, or the order lines with the two running totals. *)
Fixpoint validateItems (products : list ProductModel.Product)
    (cartItems : list CartModel.CartItem)
    (orderItems : list OrderItem) (totalAmount totalItems : Z)
    : string + (list OrderItem * Z * Z) :=
  match cartItems with
  | [] => inr (orderItems, totalAmount, totalItems)
  | cartItem :: rest =>
      match ProductRepository.findById products (CartModel.productId cartItem) with
      | None => inl ("Product " +:+ CartModel.productId cartItem +:+ " not found")
      | Some product =>
          if decide (ProductModel.stock product < CartModel.quantity cartItem) then
            inl ("Insufficient stock for product " +:+ ProductModel.title product
                 +:+ ". Available: " +:+ pretty (ProductModel.stock product))
          else
            validateItems products rest
              (orderItems ++
                 [mkOrderItem (ProductModel._id product) (ProductModel.title product)
                    (ProductModel.price product) (CartModel.quantity cartItem)
                    (ProductModel.thumbnail product)])
              (totalAmount + ProductModel.price product * CartModel.quantity cartItem)
              (totalItems + CartModel.quantity cartItem)
      end
  end.

(** A cart line passes the stock check: its product exists and has at
    least the requested quantity in stock. *)
Definition line_in_stock (products : list ProductModel.Product)
    (cartItem : CartModel.CartItem) : Prop :=
  ∃ product,
    ProductRepository.findById products (CartModel.productId cartItem) = Some product ∧
    CartModel.quantity cartItem ≤ ProductModel.stock product.

Definition createOrder (gw : Stripe.Gateway) (newId newNumber : string)
    (carts : list CartModel.Cart) (products : list ProductModel.Product)
    (orders : list Order) (req : CreateOrderRequest)
    : CreateOrderResponse * list CartModel.Cart * list Order :=
  match Js.nonempty (user req) with
  | None => (reject 401 "User authentication required", carts, orders)
  | Some userId =>
  match body_shippingAddress req, Js.nonempty (body_paymentMethod req) with
  | Some addr, Some pmStr =>
  match PaymentMethod.parse pmStr with
  | None => (reject 400 "Invalid payment method. Must be ONLINE or COD", carts, orders)
  | Some pm =>
  match pm, Js.nonempty (successUrl req), Js.nonempty (cancelUrl req) with
  | PaymentMethod.ONLINE, None, _ | PaymentMethod.ONLINE, _, None =>
      (reject 400 "Success URL and cancel URL are required for online payment",
       carts, orders)
  | _, _, _ =>
  match CartRepository.findByUserId carts userId with
  | None =>
      (reject 400 "Cart is empty. Add items to cart before placing order", carts, orders)
  | Some cart =>
  if bool_decide (length (CartModel.items cart) = 0%nat) then
    (reject 400 "Cart is empty. Add items to cart before placing order", carts, orders)
  else
  match validateItems products (CartModel.items cart) [] 0 0 with
  | inl msg => (reject 400 msg, carts, orders)
  | inr (orderItems, totalAmount, totalItems) =>
      let '(order, orders1) :=
        OrderRepository.create newId newNumber userId orderItems totalAmount totalItems
          addr pm orders in
      match pm with
      | PaymentMethod.ONLINE =>
          match Stripe.createCheckoutSession gw orderItems
                  (successUrl req) (cancelUrl req)
                  (_id order) (orderNumber order) userId with
          | None =>
              let '(_, orders2) := OrderRepository.deactivateOrder orders1 (_id order) in
              (reject 500 "Failed to create checkout session. Please try again.",
               carts, orders2)
          | Some session =>
              let '(updatedOrder, orders2) :=
                OrderRepository.updateSessionId orders1 (_id order) (Stripe.id session) in
              let order' := default order updatedOrder in
              let '(_, carts1) := CartRepository.clearCart carts (CartModel._id cart) in
              (mkCreateOrderResponse 201 true (Some order') "Order created successfully"
                 (Some (Stripe.id session, Stripe.url session)),
               carts1, orders2)
          end
      | PaymentMethod.COD =>
          let '(_, carts1) := CartRepository.clearCart carts (CartModel._id cart) in
          (mkCreateOrderResponse 201 true (Some order) "Order created successfully" None,
           carts1, orders1)
      end
  end
  end
  end
  end
  | _, _ =>
      (reject 400 "Shipping address and payment method are required", carts, orders)
  end
  end.

(** An order line is the snapshot of a cart line: the quantity of the
    cart line with the id, title, price and thumbnail its product has in
    the catalog. *)
Definition snapshot_of (products : list ProductModel.Product)
    (cartItem : CartModel.CartItem) (orderItem : OrderItem) : Prop :=
  ∃ product,
    ProductRepository.findById products (CartModel.productId cartItem) = Some product ∧
    orderItem
    = mkOrderItem (ProductModel._id product) (ProductModel.title product)
        (ProductModel.price product) (CartModel.quantity cartItem)
        (ProductModel.thumbnail product).

Record OrderRequest := mkOrderRequest {
  caller : option string;        (* req.user?._id?.toString() *)
  orderId : string;              (* req.params.orderId *)
  body_status : option string    (* req.body.status *)
}.

(** The user's cancellation.  The third component is the session for
    which [createRefund] is called, if any; the outcome of that call is
    caught and logged and does not influence the cancellation. *)
Definition cancelOrder (orders : list Order) (req : OrderRequest)
    : Http.Response Order * list Order * option string :=
  match Js.nonempty (caller req) with
  | None => (Http.fail 401 "User authentication required", orders, None)
  | Some uid =>
  match Js.nonempty (Some (orderId req)) with
  | None => (Http.fail 400 "Order ID is required", orders, None)
  | Some orderIdStr =>
  match OrderRepository.findById orders orderIdStr with
  | None => (Http.fail 404 "Order not found", orders, None)
  | Some order =>
      if decide (userId order ≠ uid) then
        (Http.fail 403 "Access denied", orders, None)
      else if decide (orderStatus order = OrderStatus.SHIPPED
                      ∨ orderStatus order = OrderStatus.DELIVERED) then
        (Http.fail 400
           ("Order cannot be cancelled. Current status: "
            +:+ OrderStatus.to_string (orderStatus order)),
         orders, None)
      else
        let refund :=
          match paymentStatus order, Js.nonempty (sessionId order) with
          | PaymentStatus.PAID, Some sid => Some sid
          | _, _ => None
          end in
        let '(cancelledOrder, orders1) := OrderRepository.cancelOrder orders orderIdStr in
        (Http.ok 200 cancelledOrder "Order cancelled successfully", orders1, refund)
  end
  end
  end.

(** The admin's status update. *)
Definition updateOrderStatus (orders : list Order) (req : OrderRequest)
    : Http.Response Order * list Order :=
  match Js.nonempty (Some (orderId req)) with
  | None => (Http.fail 400 "Order ID is required", orders)
  | Some orderIdStr =>
  match Js.nonempty (body_status req) with
  | None => (Http.fail 400 "Order status is required", orders)
  | Some statusStr =>
  match OrderStatus.parse statusStr with
  | None => (Http.fail 400 "Invalid order status", orders)
  | Some status =>
      match OrderRepository.updateOrderStatus orders orderIdStr status with
      | (None, orders1) => (Http.fail 404 "Order not found", orders1)
      | (Some updatedOrder, orders1) =>
          (Http.ok 200 (Some updatedOrder) "Order status updated successfully", orders1)
      end
  end
  end
  end.

(** [getOrderById]: [orderId req] is the route parameter. *)
Definition getOrderById (orders : list Order) (req : OrderRequest)
    : Http.Response Order :=
  match Js.nonempty (caller req) with
  | None => Http.fail 401 "User authentication required"
  | Some uid =>
  match Js.nonempty (Some (orderId req)) with
  | None => Http.fail 400 "Order ID is required"
  | Some orderIdStr =>
  match OrderRepository.findById orders orderIdStr with
  | None => Http.fail 404 "Order not found"
  | Some order =>
      if decide (userId order ≠ uid) then Http.fail 403 "Access denied"
      else Http.ok 200 (Some order) "Order retrieved successfully"
  end
  end
  end.

(** [getOrderByOrderNumber]: the route parameter is the order number. *)
Definition getOrderByOrderNumber (orders : list Order) (user : option string)
    (orderNumber : string) : Http.Response Order :=
  match Js.nonempty user with
  | None => Http.fail 401 "User authentication required"
  | Some uid =>
  match Js.nonempty (Some orderNumber) with
  | None => Http.fail 400 "Order number is required"
  | Some orderNumberStr =>
  match OrderRepository.findByOrderNumber orders orderNumberStr with
  | None => Http.fail 404 "Order not found"
  | Some order =>
      if decide (userId order ≠ uid) then Http.fail 403 "Access denied"
      else Http.ok 200 (Some order) "Order retrieved successfully"
  end
  end
  end.

Record Pagination := mkPagination {
  currentPage : Z;
  totalPages : Z;
  totalRecords : Z;
  recordsPerPage : Z;
  hasNextPage : bool;
  hasPrevPage : bool
}.

(** The slice and the pagination record, computed the same way in
    [getUserOrders], [getAllOrders] and [getPaymentHistory]. *)
Definition paginate {A} (all : list A) (page limit : Z) : list A * Pagination :=
  let skip := (page - 1) * limit in
  let totalRecords := Z.of_nat (length all) in
  let data := Js.slice all skip (skip + limit) in
  let totalPages := Js.ceil_div totalRecords limit in
  (data,
   mkPagination page totalPages totalRecords limit
     (bool_decide (page < totalPages)) (bool_decide (page > 1))).

Record PageResponse := mkPageResponse {
  page_status : Z;
  page_success : bool;
  page_data : list Order;
  pagination : option Pagination;
  page_message : string
}.

(** [getUserOrders]: [queryPage] and [queryLimit] are [parseInt] of the
    query parameters. *)
Definition getUserOrders (orders : list Order) (user : option string)
    (queryPage queryLimit : option Z) : PageResponse :=
  match Js.nonempty user with
  | None => mkPageResponse 401 false [] None "User authentication required"
  | Some uid =>
      let page := Js.or_default queryPage 1 in
      let limit := Js.or_default queryLimit 10 in
      let allOrders := OrderRepository.findByUserId orders uid 10 0 in
      let '(data, pagination) := paginate allOrders page limit in
      mkPageResponse 200 true data (Some pagination) "Orders retrieved successfully"
  end.

Definition getOrderStats (orders : list Order) (user : option string)
    : Z * option OrderRepository.OrderStats :=
  match Js.nonempty user with
  | None => (401, None)
  | Some uid => (200, Some (OrderRepository.getOrderStats orders uid))
  end.

End OrderController.

(** ** StripeWebhookController *)

Module StripeWebhookController.
Import OrderModel.

(** The fields of the webhook body that the handler can read, and the
    status the payload itself carries ([data.object.payment_status]). *)
Record Event := mkEvent {
  type : option string;
  id : option string;
  data_object_id : option string;
  orderNum : option string;
  metadata_orderNum : option string;
  data_object_payment_status : option string
}.

(** The same event with another status in its payload. *)
Definition with_payload_status (e : Event) (s : option string) : Event :=
  mkEvent (type e) (id e) (data_object_id e) (orderNum e) (metadata_orderNum e) s.

Record Request := mkRequest {
  stripe_signature : option string;   (* req.headers['stripe-signature'] *)
  body : option Event                 (* req.body *)
}.

Record Result := mkResult {
  processed : bool;
  result_message : string
}.

Record Response := mkResponse {
  status : Z;
  success : bool;
  message : string;
  received : bool
}.

Definition paymentStatus_to_string (s : PaymentStatus.t) : string :=
  match s with
  | PaymentStatus.PAID => "PAID"
  | PaymentStatus.PENDING => "PENDING"
  end.

Definition handleCheckoutSessionCompleted (gw : Stripe.Gateway) (orders : list Order)
    (session : Event) : Result * list Order :=
  match Js.nonempty (Js.or_else (id session) (data_object_id session)),
        Js.nonempty (Js.or_else (orderNum session) (metadata_orderNum session)) with
  | Some sessionId, Some orderNum =>
      match Stripe.retrieveCheckoutSession gw sessionId with
      | None => (mkResult false "Failed to retrieve session from Stripe", orders)
      | Some stripeSession =>
          match OrderRepository.findByOrderNumber orders orderNum with
          | None => (mkResult false ("Order not found: " +:+ orderNum), orders)
          | Some order =>
              let paymentStatus :=
                if decide (Stripe.payment_status stripeSession = "paid"%string)
                then PaymentStatus.PAID else PaymentStatus.PENDING in
              match OrderRepository.updatePaymentStatus orders (_id order)
                      paymentStatus (Some sessionId) with
              | (Some updatedOrder, orders1) =>
                  (mkResult true
                     ("Checkout processed for order " +:+ orderNumber order
                      +:+ " with status: " +:+ paymentStatus_to_string paymentStatus),
                   orders1)
              | (None, orders1) =>
                  (mkResult true ("Checkout session processed: " +:+ sessionId), orders1)
              end
          end
      end
  | _, _ => (mkResult false "Missing session ID or order ID", orders)
  end.

Definition processWebhookEvent (gw : Stripe.Gateway) (orders : list Order)
    (event : Event) : Result * list Order :=
  if decide (type event = Some "checkout.session.completed"%string) then
    handleCheckoutSessionCompleted gw orders event
  else
    (mkResult false ("Unhandled event type: " +:+ default "undefined"%string (type event)),
     orders).

(** The event the handler works on, or the message of the 400 response.
    [verify] stands for [StripeService.verifyWebhookSignature]; [None] is
    a thrown verification error. *)
Definition resolveEvent (verify : option Event → string → option Event)
    (req : Request) : string + Event :=
  let fromBody : string + Event :=
    match body req with
    | Some event =>
        if Js.truthy (type event) then inr event
        else inl "Invalid webhook event structure"%string
    | None => inl "Invalid webhook event structure"%string
    end in
  match Js.nonempty (stripe_signature req) with
  | Some sig =>
      if decide (sig ≠ "test-signature"%string) then
        match verify (body req) sig with
        | Some event => inr event
        | None => inl "Webhook signature verification failed"%string
        end
      else fromBody
  | None => fromBody
  end.

Definition handleWebhook (gw : Stripe.Gateway)
    (verify : option Event → string → option Event)
    (orders : list Order) (req : Request) : Response * list Order :=
  match resolveEvent verify req with
  | inl msg => (mkResponse 400 false msg false, orders)
  | inr event =>
      let '(result, orders1) := processWebhookEvent gw orders event in
      if processed result then
        (mkResponse 200 true (result_message result) true, orders1)
      else
        (mkResponse 200 true (result_message result) true, orders1)
  end.

End StripeWebhookController.

(** ** Ticket model (models/Ticket), TicketRepository, TicketController *)

Module UserRole.
Inductive t := USER | ADMIN | SUPER_ADMIN.
End UserRole.

Module TicketStatus.
Inductive t := OPEN | IN_PROGRESS | WAITING_CUSTOMER | RESOLVED | CLOSED.

#[global] Instance eq_dec : EqDecision t.
Proof. solve_decision. Defined.
End TicketStatus.

Module TicketPriority.
Inductive t := LOW | MEDIUM | HIGH | URGENT.

(** [Object.values(TicketPriority).includes(priority)], with the value
    it names. *)
Definition parse (s : string) : option t :=
  if decide (s = "low"%string) then Some LOW
  else if decide (s = "medium"%string) then Some MEDIUM
  else if decide (s = "high"%string) then Some HIGH
  else if decide (s = "urgent"%string) then Some URGENT
  else None.
End TicketPriority.

Module TicketCategory.
Inductive t := ORDER | PAYMENT | DELIVERY | REFUND | TECHNICAL | GENERAL.
End TicketCategory.

Module TicketModel.

Record ITicketMessage := mkMessage {
  sender : string;
  senderRole : UserRole.t;
  message : string;
  attachments : list string;
  createdAt : Z
}.

Record ITicket := mkTicket {
  ticketId : string;
  user : string;
  order : option string;
  subject : string;
  category : TicketCategory.t;
  priority : TicketPriority.t;
  status : TicketStatus.t;
  messages : list ITicketMessage;
  lastResponseAt : option Z;
  isEscalated : bool
}.

End TicketModel.

Module TicketRepository.
Import TicketModel.

Definition findByTicketId (tickets : list ITicket) (tid : string) : option ITicket :=
  Collection.findOne (λ t, ticketId t = tid) tickets.

(** [$push: { messages }] with [$set: { lastResponseAt }]. *)
Definition addMessage (tickets : list ITicket) (tid : string) (messageData : ITicketMessage)
    : option ITicket * list ITicket :=
  Collection.findOneAndUpdate (λ t, ticketId t = tid)
    (λ t, mkTicket (ticketId t) (user t) (order t) (subject t) (category t) (priority t)
            (status t) (messages t ++ [messageData]) (Some (createdAt messageData))
            (isEscalated t))
    tickets.

Definition updateStatus (tickets : list ITicket) (tid : string) (s : TicketStatus.t)
    : option ITicket * list ITicket :=
  Collection.findOneAndUpdate (λ t, ticketId t = tid)
    (λ t, mkTicket (ticketId t) (user t) (order t) (subject t) (category t) (priority t)
            s (messages t) (lastResponseAt t) (isEscalated t))
    tickets.

Definition updatePriority (tickets : list ITicket) (tid : string) (p : TicketPriority.t)
    : option ITicket * list ITicket :=
  Collection.findOneAndUpdate (λ t, ticketId t = tid)
    (λ t, mkTicket (ticketId t) (user t) (order t) (subject t) (category t) p
            (status t) (messages t) (lastResponseAt t) (isEscalated t))
    tickets.

Definition escalate (tickets : list ITicket) (tid : string)
    : option ITicket * list ITicket :=
  Collection.findOneAndUpdate (λ t, ticketId t = tid)
    (λ t, mkTicket (ticketId t) (user t) (order t) (subject t) (category t) (priority t)
            (status t) (messages t) (lastResponseAt t) true)
    tickets.

End TicketRepository.

Module TicketController.
Import TicketModel.

Record Request := mkRequest {
  req_user : option string;              (* req.user?._id *)
  param_ticketId : string;               (* req.params.ticketId *)
  body_message : option string;
  body_attachments : option (list string);
  now : Z                                (* new Date() *)
}.

(** The customer route: the sender role is always [USER]. *)
Definition addMessage (tickets : list ITicket) (req : Request)
    : Http.Response ITicket * list ITicket :=
  match req_user req with
  | None => (Http.fail 401 "User not authenticated", tickets)
  | Some userId =>
  match Js.nonempty (body_message req) with
  | None => (Http.fail 400 "Message is required", tickets)
  | Some msg =>
  match TicketRepository.findByTicketId tickets (param_ticketId req) with
  | None => (Http.fail 404 "Ticket not found", tickets)
  | Some ticket =>
      if decide (user ticket ≠ userId) then
        (Http.fail 403 "Access denied", tickets)
      else
        let messageData :=
          mkMessage userId UserRole.USER msg (default [] (body_attachments req)) (now req) in
        let '(updatedTicket, tickets1) :=
          TicketRepository.addMessage tickets (param_ticketId req) messageData in
        let newStatus :=
          if decide (status ticket = TicketStatus.WAITING_CUSTOMER)
          then TicketStatus.OPEN else status ticket in
        let '(_, tickets2) :=
          TicketRepository.updateStatus tickets1 (param_ticketId req) newStatus in
        (Http.ok 200 updatedTicket "Message added successfully", tickets2)
  end
  end
  end.

(** The admin route for the status. *)
Definition updateTicketStatus (tickets : list ITicket) (tid : string)
    (s : TicketStatus.t) : Http.Response ITicket * list ITicket :=
  match TicketRepository.findByTicketId tickets tid with
  | None => (Http.fail 404 "Ticket not found", tickets)
  | Some _ =>
      let '(updatedTicket, tickets1) := TicketRepository.updateStatus tickets tid s in
      (Http.ok 200 updatedTicket "Ticket status updated successfully", tickets1)
  end.

(** The admin route for the priority; [body_priority] is
    [req.body.priority] when it is a string. *)
Definition updateTicketPriority (tickets : list ITicket) (tid : string)
    (body_priority : option string) : Http.Response ITicket * list ITicket :=
  match body_priority ≫= TicketPriority.parse with
  | None => (Http.fail 400 "Invalid priority", tickets)
  | Some p =>
  match TicketRepository.findByTicketId tickets tid with
  | None => (Http.fail 404 "Ticket not found", tickets)
  | Some _ =>
      let '(updatedTicket, tickets1) := TicketRepository.updatePriority tickets tid p in
      (Http.ok 200 updatedTicket "Ticket priority updated successfully", tickets1)
  end
  end.

(** The admin route for escalation. *)
Definition escalateTicket (tickets : list ITicket) (tid : string)
    : Http.Response ITicket * list ITicket :=
  match TicketRepository.findByTicketId tickets tid with
  | None => (Http.fail 404 "Ticket not found", tickets)
  | Some _ =>
      let '(updatedTicket, tickets1) := TicketRepository.escalate tickets tid in
      (Http.ok 200 updatedTicket "Ticket escalated successfully", tickets1)
  end.

(** The customer route that closes a ticket. *)
Definition closeTicket (tickets : list ITicket) (req : Request)
    : Http.Response ITicket * list ITicket :=
  match req_user req with
  | None => (Http.fail 401 "User not authenticated", tickets)
  | Some userId =>
  match TicketRepository.findByTicketId tickets (param_ticketId req) with
  | None => (Http.fail 404 "Ticket not found", tickets)
  | Some ticket =>
      if decide (user ticket ≠ userId) then
        (Http.fail 403 "Access denied", tickets)
      else
        let '(updatedTicket, tickets1) :=
          TicketRepository.updateStatus tickets (param_ticketId req) TicketStatus.CLOSED in
        (Http.ok 200 updatedTicket "Ticket closed successfully", tickets1)
  end
  end.

(** The customer route that reads one ticket: the status code with the
    error message or, on success, the ticket (the success body has no
    message). *)
Definition getTicketById (tickets : list ITicket) (req : Request)
    : Z * (string + ITicket) :=
  match req_user req with
  | None => (401, inl "User not authenticated"%string)
  | Some userId =>
  match TicketRepository.findByTicketId tickets (param_ticketId req) with
  | None => (404, inl "Ticket not found"%string)
  | Some ticket =>
      if decide (user ticket ≠ userId) then (403, inl "Access denied"%string)
      else (200, inr ticket)
  end
  end.

End TicketController.

(** * Properties *)

Module JsFacts.
Import Js.

Lemma fold_left_add_acc {A} (f : A → Z) (l : list A) (acc : Z) :
  fold_left (λ total x, total + f x) l acc = acc + sumZ (f <$> l).
Proof.
  revert acc; induction l as [|x l IH]; intros acc.
  - cbn. lia.
  - cbn [fold_left]. rewrite IH, fmap_cons. cbn [sumZ foldr]. fold (sumZ (f <$> l)). lia.
Qed.

Lemma reduce_sum {A} (f : A → Z) (l : list A) :
  fold_left (λ total x, total + f x) l 0 = sumZ (f <$> l).
Proof. rewrite fold_left_add_acc. lia. Qed.

Lemma sumZ_app (l1 l2 : list Z) : sumZ (l1 ++ l2) = sumZ l1 + sumZ l2.
Proof. unfold sumZ. induction l1; simpl; lia. Qed.

Lemma sumZ_cons (x : Z) (l : list Z) : sumZ (x :: l) = x + sumZ l.
Proof. reflexivity. Qed.

End JsFacts.

Module CollectionFacts.
Import Collection.
Section CollectionFacts.
Context {D : Type}.

Lemma findOne_Some_elem (P : D → Prop) `{∀ d, Decision (P d)} s d :
  findOne P s = Some d → d ∈ s ∧ P d.
Proof.
  unfold findOne. destruct (list_find P s) as [[i x]|] eqn:E; [|done].
  intros [= <-]. apply list_find_Some in E as (Hl & HP & _).
  split; [by eapply list_elem_of_lookup_2|done].
Qed.

Lemma findOne_None (P : D → Prop) `{∀ d, Decision (P d)} s :
  findOne P s = None ↔ Forall (λ d, ¬ P d) s.
Proof.
  unfold findOne. rewrite <- (list_find_None P s).
  destruct (list_find P s) as [[i d]|]; simpl; split; congruence.
Qed.

(** After an in-place rewrite that keeps the query true, the query
    finds the rewritten document. *)
Lemma findOne_insert_same (P : D → Prop) `{∀ d, Decision (P d)} s i d d' :
  list_find P s = Some (i, d) → P d' →
  findOne P (<[i := d']> s) = Some d'.
Proof.
  intros Hf HP'. apply list_find_Some in Hf as (Hl & HP & Hleast).
  unfold findOne.
  assert (list_find P (<[i:=d']> s) = Some (i, d')) as ->; [|done].
  apply list_find_Some. split_and!.
  - apply list_lookup_insert_eq. by eapply lookup_lt_Some.
  - done.
  - intros j y Hj Hlt. rewrite list_lookup_insert_ne in Hj by lia. eauto.
Qed.
(** An update that keeps the query true returns the updated document and
    stores it where the query finds it. *)
Lemma findOneAndUpdate_found (P : D → Prop) `{∀ d, Decision (P d)} (upd : D → D) s d :
  findOne P s = Some d → P (upd d) →
  ∃ s', findOneAndUpdate P upd s = (Some (upd d), s') ∧ findOne P s' = Some (upd d).
Proof.
  unfold findOne at 1, findOneAndUpdate. intros Hf HP.
  destruct (list_find P s) as [[i x]|] eqn:E; [|done].
  cbn in Hf. injection Hf as ->. eexists. split; [reflexivity|].
  by eapply findOne_insert_same.
Qed.

Lemma findOne_is_Some_of_elem (P : D → Prop) `{∀ d, Decision (P d)} s d :
  d ∈ s → P d → is_Some (findOne P s).
Proof.
  intros Hin HP. unfold findOne.
  destruct (list_find_elem_of P s d Hin HP) as [[i x] ->]. by eexists.
Qed.

(** A rewrite of a document that another query does not select, into a
    state it does not select either, is invisible to that query. *)
Lemma list_find_insert_other (Q : D → Prop) `{∀ d, Decision (Q d)} s i d d' :
  s !! i = Some d → ¬ Q d → ¬ Q d' → list_find Q (<[i := d']> s) = list_find Q s.
Proof.
  revert i. induction s as [|x s IH]; intros i Hl Hd Hd'; [done|].
  destruct i as [|i]; cbn in *.
  - injection Hl as ->. by rewrite !decide_False by done.
  - destruct (decide (Q x)); [done|]. f_equal. by apply IH.
Qed.

Lemma findOne_findOneAndUpdate_other (P Q : D → Prop)
    `{∀ d, Decision (P d)} `{∀ d, Decision (Q d)} (upd : D → D) s :
  (∀ d, P d → ¬ Q d ∧ ¬ Q (upd d)) →
  findOne Q (snd (findOneAndUpdate P upd s)) = findOne Q s.
Proof.
  intros Hsep. unfold findOne, findOneAndUpdate.
  destruct (list_find P s) as [[i d]|] eqn:E; [|done]. cbn.
  apply list_find_Some in E as (Hl & HP & _).
  destruct (Hsep d HP) as [Hd Hd'].
  by rewrite (list_find_insert_other Q s i d (upd d)).
Qed.

(** When no document satisfied a query, the one rewritten into a state
    that does is what the query finds. *)
Lemma findOne_insert_only (P Q : D → Prop)
    `{∀ d, Decision (P d)} `{∀ d, Decision (Q d)} s i d d' :
  list_find P s = Some (i, d) → findOne Q s = None → Q d' →
  findOne Q (<[i := d']> s) = Some d'.
Proof.
  intros (Hl & _ & _)%list_find_Some Hnone HQ.
  apply findOne_None in Hnone. rewrite Forall_lookup in Hnone.
  unfold findOne.
  assert (list_find Q (<[i:=d']> s) = Some (i, d')) as ->; [|done].
  apply list_find_Some. split_and!.
  - apply list_lookup_insert_eq. by eapply lookup_lt_Some.
  - done.
  - intros j y Hj Hlt. rewrite list_lookup_insert_ne in Hj by lia. eauto.
Qed.

End CollectionFacts.
End CollectionFacts.

(** ** Facts about lists searched by [list_find] *)

Module ListFacts.
Section ListFacts.
Context {A : Type} (P : A → Prop) `{∀ x, Decision (P x)}.

(** The shape of a list around the first element satisfying [P]. *)
Lemma list_find_split (l : list A) i x :
  list_find P l = Some (i, x) →
  ∃ l1 l2, l = l1 ++ x :: l2 ∧ length l1 = i ∧ Forall (λ y, ¬ P y) l1 ∧ P x.
Proof.
  intros (Hl & HP & Hleast)%list_find_Some.
  destruct (list_elem_of_split_length l i x Hl) as (l1 & l2 & -> & ->).
  exists l1, l2. split_and!; try done.
  apply Forall_lookup. intros j y Hj.
  apply (Hleast j y).
  - by apply lookup_app_l_Some.
  - by eapply lookup_lt_Some.
Qed.

End ListFacts.
End ListFacts.

(** ** Facts about the cart repository *)

Module CartFacts.
Import CartModel CartRepository.

Lemma recalculate_totals_ok (c : Cart) : totals_ok (recalculate c).
Proof.
  unfold totals_ok, recalculate; cbn.
  split.
  - apply (JsFacts.reduce_sum quantity).
  - apply (JsFacts.reduce_sum (λ it, price it * quantity it)).
Qed.

Lemma recalculate_id (c : Cart) : totals_ok c → recalculate c = c.
Proof.
  destruct c as [i u its a n act]. unfold totals_ok, recalculate, set_totals; cbn.
  intros [-> ->]. f_equal.
  - apply (JsFacts.reduce_sum (λ it, price it * quantity it)).
  - apply (JsFacts.reduce_sum quantity).
Qed.

Lemma findById_id (carts : list Cart) id c : findById carts id = Some c → _id c = id.
Proof. intros Hf. by apply CollectionFacts.findOne_Some_elem in Hf as [_ ?]. Qed.

Lemma findById_elem (carts : list Cart) id c : findById carts id = Some c → c ∈ carts.
Proof. intros Hf. by apply CollectionFacts.findOne_Some_elem in Hf as [? _]. Qed.

(** Saving a loaded document makes [findById] return the saved state. *)
Lemma findById_save (carts : list Cart) id c c' :
  findById carts id = Some c → _id c' = id → findById (save c' carts) id = Some c'.
Proof.
  unfold findById, save, Collection.findOne, Collection.findOneAndUpdate.
  intros Hf <-.
  destruct (list_find (λ d, _id d = _id c') carts) as [[i d]|] eqn:E; [|done].
  cbn. by eapply (CollectionFacts.findOne_insert_same (λ d, _id d = _id c')).
Qed.

(** Saving the state that is already stored changes nothing. *)
Lemma save_unchanged (carts : list Cart) id c :
  findById carts id = Some c → save c carts = carts.
Proof.
  intros Hf. pose proof (findById_id _ _ _ Hf) as Hid.
  unfold findById, save, Collection.findOne, Collection.findOneAndUpdate in *.
  rewrite Hid.
  destruct (list_find (λ d, _id d = id) carts) as [[i d]|] eqn:E; [|done].
  cbn in *. injection Hf as ->.
  apply list_find_Some in E as (Hl & _ & _). by apply list_insert_id.
Qed.

(** With unique identifiers every stored cart is the one its identifier
    finds. *)
Lemma findById_of_elem (carts : list Cart) c :
  NoDup (_id <$> carts) → c ∈ carts → findById carts (_id c) = Some c.
Proof.
  intros Hnd Hin.
  unfold findById, Collection.findOne.
  destruct (list_find (λ d, _id d = _id c) carts) as [[i d]|] eqn:E.
  - apply list_find_Some in E as (Hl & Hid & _).
    apply list_elem_of_lookup in Hin as [j Hj]. cbn.
    assert (i = j) as ->; [|congruence].
    eapply NoDup_lookup; [exact Hnd| |]; rewrite list_lookup_fmap.
    + by rewrite Hl.
    + rewrite Hj. cbn. by rewrite Hid.
  - apply list_find_None in E. rewrite Forall_forall in E. by destruct (E c Hin).
Qed.

End CartFacts.

(** ** Cart line items: totals and the add / update / remove rules *)

Module CartProperties.
Import CartModel CartRepository CartFacts.

Lemma findIndex_None (pid : string) (its : list CartItem) :
  findIndex (λ it, productId it = pid) its = None ↔ ¬ has_product pid its.
Proof.
  unfold findIndex, has_product.
  destruct (list_find (λ it, productId it = pid) its) as [[i x]|] eqn:E; cbn.
  - split; [done|]. intros Hn. exfalso. apply Hn.
    apply list_find_Some in E as (Hl & <- & _).
    apply list_elem_of_fmap_2. by eapply list_elem_of_lookup_2.
  - split; [|done]. intros _ (x & -> & Hx)%list_elem_of_fmap.
    apply list_find_None in E. rewrite Forall_forall in E. by apply (E x).
Qed.

Lemma findIndex_Some (pid : string) (its : list CartItem) :
  has_product pid its →
  ∃ i line, list_find (λ it, productId it = pid) its = Some (i, line)
            ∧ findIndex (λ it, productId it = pid) its = Some i.
Proof.
  intros Hp. unfold findIndex.
  destruct (list_find (λ it, productId it = pid) its) as [[i x]|] eqn:E.
  - by exists i, x.
  - exfalso. assert (findIndex (λ it, productId it = pid) its = None) as Hn.
    { unfold findIndex. by rewrite E. }
    by apply findIndex_None in Hn.
Qed.

(** Spec example: A(qty 2, price 10), B(qty 1, price 5) gives 3 items and
    amount 25; removing B gives 2 and 20. *)
Example totals_example :
  let a := mkCartItem "A" "a" 10 2 "t" 0 in
  let b := mkCartItem "B" "b" 5 1 "t" 0 in
  let cart := recalculate (mkCart "c" None [a; b] 0 0 true) in
  (totalItems cart, totalAmount cart) = (3, 25) ∧
  (let r := fst (removeItem [cart] "c" "B") in
   (totalItems <$> r, totalAmount <$> r) = (Some 2, Some 20)).
Proof. split; reflexivity. Qed.

(** C1. Every mutation of an existing cart (add item, update item
    quantity, remove item, clear) that yields a cart yields one whose
    totalItems is the sum of the quantities of its lines and whose
    totalAmount is the sum of price * quantity over its lines, and that
    cart is what the collection then holds.  The only mutation that yields
    no cart is a quantity update for a product that has no line; it leaves
    the collection as it was. *)
Theorem cart_totals_after_mutation (m : mutation) (carts : list Cart)
    (cartId : string) (cart : Cart) :
  findById carts cartId = Some cart →
  match mutate m carts cartId with
  | (Some c, carts') => totals_ok c ∧ findById carts' cartId = Some c
  | (None, carts') =>
      carts' = carts ∧
      ∃ pid q, m = UpdateItemQuantity pid q ∧ ¬ has_product pid (items cart)
  end.
Proof.
  intros Hf. pose proof (findById_id _ _ _ Hf) as Hid.
  destruct m as [item|pid q| pid|]; cbn [mutate].
  - unfold addItem. rewrite Hf. split; [apply recalculate_totals_ok|].
    by eapply findById_save.
  - unfold updateItemQuantity. rewrite Hf.
    destruct (findIndex (λ item, productId item = pid) (items cart)) as [i|] eqn:E.
    + split; [apply recalculate_totals_ok|]. by eapply findById_save.
    + split; [done|]. exists pid, q. split; [done|]. by apply findIndex_None.
  - unfold removeItem. rewrite Hf. split; [apply recalculate_totals_ok|].
    by eapply findById_save.
  - unfold clearCart. rewrite Hf. split; [by split|]. by eapply findById_save.
Qed.

Lemma cart_totals_after_mutation_witness :
  let cart := mkCart "c1" None [mkCartItem "p1" "Pen" 10 2 "t" 0] 20 2 true in
  match mutate (AddItem (mkCartItem "p2" "Ink" 5 1 "t" 1)) [cart] "c1" with
  | (Some c, carts') => totals_ok c ∧ findById carts' "c1" = Some c
  | (None, carts') =>
      carts' = [cart] ∧
      ∃ pid q, AddItem (mkCartItem "p2" "Ink" 5 1 "t" 1) = UpdateItemQuantity pid q
               ∧ ¬ has_product pid (items cart)
  end.
Proof.
  intros cart.
  apply (cart_totals_after_mutation (AddItem (mkCartItem "p2" "Ink" 5 1 "t" 1))
           [cart] "c1" cart).
  reflexivity.
Defined.



End CartProperties.

(** ** Quantity updates and removals through the repository and the HTTP
       interface *)

Module CartUpdateProperties.
Import CartModel CartRepository CartFacts CartProperties.

Lemma set_items_same (c : Cart) : set_items c (items c) = c.
Proof. by destruct c. Qed.

Lemma filter_other_products_id (pid : string) (its : list CartItem) :
  ¬ has_product pid its → filter (λ item, productId item ≠ pid) its = its.
Proof.
  unfold has_product. induction its as [|x its IH]; [done|].
  rewrite fmap_cons. intros Hn.
  rewrite filter_cons_True.
  - f_equal. apply IH. intros Hin. apply Hn. by apply list_elem_of_further.
  - intros Heq. apply Hn. rewrite <- Heq. apply list_elem_of_here.
Qed.

(** [removeItem] is the identity on a consistent cart without the product. *)
Lemma removeItem_absent_identity (carts : list Cart) (cartId pid : string) (cart : Cart) :
  findById carts cartId = Some cart → totals_ok cart → ¬ has_product pid (items cart) →
  removeItem carts cartId pid = (Some cart, carts).
Proof.
  intros Hf Hok Hn. unfold removeItem. rewrite Hf. cbn zeta.
  rewrite filter_other_products_id, set_items_same, recalculate_id by done.
  by erewrite save_unchanged.
Qed.

(** What [getOrCreateCart] returns: a stored cart, or a new empty cart
    appended to the collection. *)
Lemma getOrCreateCart_cases (newId : string) (carts : list Cart) (uid guestId : option string) :
  let '(cart, carts1) := getOrCreateCart newId carts uid guestId in
  (cart ∈ carts ∧ carts1 = carts) ∨
  (cart = mkCart newId (Js.nonempty uid) [] 0 0 true ∧ carts1 = carts ++ [cart]).
Proof.
  unfold getOrCreateCart, create.
  destruct (Js.nonempty uid) as [u|]; [|destruct (Js.nonempty guestId) as [g|]].
  - destruct (findByUserId carts u) as [c|] eqn:E; [|by right].
    left. by apply CollectionFacts.findOne_Some_elem in E as [? _].
  - destruct (findById carts g) as [c|] eqn:E; [|by right].
    left. split; [by eapply findById_elem|done].
  - by right.
Qed.

Lemma delete_first_line_gone (pid : string) (its : list CartItem) i line :
  list_find (λ it, productId it = pid) its = Some (i, line) →
  NoDup (productId <$> its) → ¬ has_product pid (delete i its).
Proof.
  intros (l1 & l2 & -> & <- & Hl1 & Hpid)%ListFacts.list_find_split Hnd.
  rewrite delete_middle. unfold has_product.
  rewrite fmap_app, fmap_cons, Hpid in Hnd.
  apply NoDup_app in Hnd as (_ & Hdisj & Hnd2).
  apply NoDup_cons in Hnd2 as [Hnot _].
  rewrite fmap_app. intros [Hin|Hin]%elem_of_app; [|done].
  apply (Hdisj pid Hin). apply list_elem_of_here.
Qed.

(** C7 (as amended). The repository's quantity update with a quantity of 0
    or less removes the first line of the product, recomputes the totals
    and stores the cart; when the product ids of the cart are distinct no
    line for the product remains.  The HTTP endpoint never reaches that
    branch: a request whose quantity is 0 or less is answered with 400 and
    the carts are left as they were. *)
Theorem updateItemQuantity_nonpositive (carts : list Cart) (cartId pid : string)
    (cart : Cart) (q : Z) :
  findById carts cartId = Some cart →
  has_product pid (items cart) →
  q ≤ 0 →
  (∃ c carts' i line,
      updateItemQuantity carts cartId pid q = (Some c, carts') ∧
      findById carts' cartId = Some c ∧
      list_find (λ it, productId it = pid) (items cart) = Some (i, line) ∧
      items c = delete i (items cart) ∧
      length (items c) = pred (length (items cart)) ∧
      totals_ok c ∧
      (NoDup (productId <$> items cart) → ¬ has_product pid (items c))) ∧
  (∀ newId products req,
      CartController.quantity req = Some q →
      CartController.updateCartItem newId carts products req
      = (Http.fail 400 "Valid product ID and quantity are required", carts)).
Proof.
  intros Hf Hp Hq. pose proof (findById_id _ _ _ Hf) as Hid. split.
  - destruct (findIndex_Some _ _ Hp) as (i & line & Hfind & Hidx).
    unfold updateItemQuantity. rewrite Hf, Hidx. cbn zeta.
    rewrite decide_True by done.
    eexists _, _, i, line. split; [reflexivity|]. split_and!.
    + by eapply findById_save.
    + done.
    + done.
    + cbn. rewrite length_delete; [lia|].
      apply list_find_Some in Hfind as (Hl & _ & _). by eexists.
    + apply recalculate_totals_ok.
    + cbn. by eapply delete_first_line_gone.
  - intros newId products req Hreq. unfold CartController.updateCartItem.
    assert (CartController.bad_quantity (CartController.quantity req) = true) as ->.
    { rewrite Hreq. cbn. rewrite (bool_decide_eq_true_2 (q ≤ 0)) by done.
      apply orb_true_r. }
    by rewrite orb_true_r.
Qed.

Lemma updateItemQuantity_nonpositive_witness :
  let cart := mkCart "c1" (Some "u1")
                [mkCartItem "p1" "Pen" 10 2 "t" 0; mkCartItem "p2" "Ink" 5 1 "t" 1]
                25 3 true in
  (∃ c carts' i line,
      updateItemQuantity [cart] "c1" "p2" 0 = (Some c, carts') ∧
      findById carts' "c1" = Some c ∧
      list_find (λ it, productId it = "p2"%string) (items cart) = Some (i, line) ∧
      items c = delete i (items cart) ∧
      length (items c) = pred (length (items cart)) ∧
      totals_ok c ∧
      (NoDup (productId <$> items cart) → ¬ has_product "p2" (items c))) ∧
  (∀ newId products req,
      CartController.quantity req = Some 0 →
      CartController.updateCartItem newId [cart] products req
      = (Http.fail 400 "Valid product ID and quantity are required", [cart])).
Proof.
  intros cart.
  apply (updateItemQuantity_nonpositive [cart] "c1" "p2" cart 0).
  - reflexivity.
  - unfold has_product. cbn. apply list_elem_of_further, list_elem_of_here.
  - lia.
Defined.

(** C7 as stated fails at the HTTP interface: a PUT with quantity 0 for a
    product that is in the caller's cart is answered with 400 and the line
    with its quantity stays in the stored cart. *)
Lemma updateCartItem_zero_quantity_keeps_line :
  let cart := mkCart "c1" (Some "u1") [mkCartItem "p1" "Pen" 10 2 "t" 0] 20 2 true in
  let products := [ProductModel.mkProduct "p1" "Pen" 10 50 "t"] in
  let req := CartController.mkRequest (Some "u1"%string) None "p1" (Some 0) in
  let '(resp, carts') := CartController.updateCartItem "c2" [cart] products req in
  Http.status resp = 400 ∧
  carts' = [cart] ∧
  (items <$> findByUserId carts' "u1") = Some [mkCartItem "p1" "Pen" 10 2 "t" 0].
Proof. cbn. split_and!; reflexivity. Qed.

(** C10. Removing a product that has no line in the caller's cart is
    answered with 200 and returns the cart as it was: line items,
    totalItems and totalAmount are those of the cart the request resolves
    to, and the stored carts are those left by resolving it.  The carts are
    taken with distinct identifiers and totals that agree with their
    lines, which every cart built by the repository has. *)
Theorem removeFromCart_absent_product (newId : string) (carts : list Cart)
    (req : CartController.Request) :
  CartController.productId req ≠ EmptyString →
  NoDup (_id <$> carts) →
  newId ∉ (_id <$> carts) →
  Forall totals_ok carts →
  ¬ has_product (CartController.productId req)
      (items (fst (CartController.getOrCreateCart newId carts req))) →
  CartController.removeFromCart newId carts req
  = (Http.ok 200 (Some (fst (CartController.getOrCreateCart newId carts req)))
       "Item removed from cart successfully",
     snd (CartController.getOrCreateCart newId carts req)).
Proof.
  intros Hpid Hnd Hfresh Hok Habsent.
  unfold CartController.removeFromCart.
  assert (Js.truthy (Some (CartController.productId req)) = true) as ->.
  { unfold Js.truthy, Js.nonempty. rewrite decide_False by done.
    apply bool_decide_eq_true_2. by eexists. }
  cbn [negb].
  unfold CartController.getOrCreateCart in *.
  pose proof (getOrCreateCart_cases newId carts (CartController.user req)
                (CartController.guest_id req)) as Hcases.
  destruct (getOrCreateCart newId carts (CartController.user req)
              (CartController.guest_id req)) as [cart carts1].
  cbn [fst snd] in *.
  assert (findById carts1 (_id cart) = Some cart ∧ totals_ok cart) as [Hf Hc].
  { destruct Hcases as [[Hin ->]|[-> ->]].
    - split; [by apply findById_of_elem|]. rewrite Forall_forall in Hok. by apply Hok.
    - split; [|by split]. apply findById_of_elem.
      + rewrite fmap_app. apply NoDup_app. split_and!; [done| |apply NoDup_singleton].
        intros x Hx. cbn. intros ->%list_elem_of_singleton. done.
      + apply elem_of_app. right. apply list_elem_of_here. }
  by rewrite (removeItem_absent_identity carts1 (_id cart) _ cart).
Qed.

Lemma removeFromCart_absent_product_witness :
  let cart := mkCart "c1" (Some "u1") [mkCartItem "p1" "Pen" 10 2 "t" 0] 20 2 true in
  let req := CartController.mkRequest (Some "u1"%string) None "p9" None in
  CartController.removeFromCart "c2" [cart] req
  = (Http.ok 200 (Some (fst (CartController.getOrCreateCart "c2" [cart] req)))
       "Item removed from cart successfully",
     snd (CartController.getOrCreateCart "c2" [cart] req)).
Proof.
  intros cart req.
  apply (removeFromCart_absent_product "c2" [cart] req).
  - done.
  - cbn. apply NoDup_singleton.
  - cbn. intros Hin%list_elem_of_singleton. done.
  - apply Forall_singleton. by split.
  - cbn. unfold has_product. cbn. intros Hin%list_elem_of_singleton. done.
Defined.

End CartUpdateProperties.

(** ** Merging a guest cart on login *)

Module CartMergeProperties.
Import CartModel CartRepository CartFacts CartProperties.

Lemma qty_of_app (pid : string) (l1 l2 : list CartItem) :
  qty_of pid (l1 ++ l2) = qty_of pid l1 + qty_of pid l2.
Proof. unfold qty_of. by rewrite filter_app, fmap_app, JsFacts.sumZ_app. Qed.

Lemma qty_of_cons (pid : string) (x : CartItem) (l : list CartItem) :
  qty_of pid (x :: l)
  = (if decide (productId x = pid) then quantity x else 0) + qty_of pid l.
Proof.
  unfold qty_of. rewrite filter_cons. destruct (decide (productId x = pid)); [|lia].
  by rewrite fmap_cons, JsFacts.sumZ_cons.
Qed.

Lemma qty_of_nil (pid : string) : qty_of pid [] = 0.
Proof. reflexivity. Qed.

(** The shape of [addLine]: either the first line of the product takes the
    extra quantity, or the item becomes the last line. *)
Lemma addLine_cases (its : list CartItem) (item : CartItem) :
  (∃ l1 x l2, its = l1 ++ x :: l2 ∧ productId x = productId item ∧
              addLine its item
              = l1 ++ set_quantity x (quantity x + quantity item) :: l2) ∨
  (¬ has_product (productId item) its ∧ addLine its item = its ++ [item]).
Proof.
  unfold addLine.
  destruct (findIndex (λ cartItem, productId cartItem = productId item) its)
    as [i|] eqn:E.
  - left. unfold findIndex in E.
    destruct (list_find (λ cartItem, productId cartItem = productId item) its)
      as [[i' x]|] eqn:Hfind; [|done].
    cbn in E. injection E as ->.
    apply ListFacts.list_find_split in Hfind as (l1 & l2 & -> & <- & _ & Hpid).
    exists l1, x, l2. split_and!; [done..|].
    by rewrite (alter_app_r_alt _ l1 (x :: l2) (length l1)), Nat.sub_diag by lia.
  - right. split; [|done]. by apply findIndex_None.
Qed.

Lemma addLine_qty_of (pid : string) (its : list CartItem) (item : CartItem) :
  qty_of pid (addLine its item)
  = qty_of pid its + (if decide (productId item = pid) then quantity item else 0).
Proof.
  destruct (addLine_cases its item) as [(l1 & x & l2 & -> & Hpid & ->)|[_ ->]].
  - rewrite !qty_of_app, !qty_of_cons. cbn. rewrite Hpid.
    destruct (decide (productId item = pid)); lia.
  - rewrite qty_of_app, qty_of_cons, qty_of_nil. lia.
Qed.

Lemma addLine_product_ids (its : list CartItem) (item : CartItem) :
  productId <$> addLine its item
  = if decide (has_product (productId item) its) then productId <$> its
    else (productId <$> its) ++ [productId item].
Proof.
  destruct (addLine_cases its item) as [(l1 & x & l2 & -> & Hpid & ->)|[Hn ->]].
  - rewrite decide_True.
    + by rewrite !fmap_app, !fmap_cons.
    + unfold has_product. rewrite fmap_app, fmap_cons, Hpid.
      apply elem_of_app. right. apply list_elem_of_here.
  - rewrite decide_False by done. by rewrite fmap_app.
Qed.

Lemma addLine_has_product (pid : string) (its : list CartItem) (item : CartItem) :
  has_product pid (addLine its item) ↔ has_product pid its ∨ pid = productId item.
Proof.
  unfold has_product at 1. rewrite addLine_product_ids.
  destruct (decide (has_product (productId item) its)) as [Hin|Hn].
  - split; [by left|]. intros [?| ->]; done.
  - rewrite elem_of_app, list_elem_of_singleton. done.
Qed.

Lemma addLine_NoDup (its : list CartItem) (item : CartItem) :
  NoDup (productId <$> its) → NoDup (productId <$> addLine its item).
Proof.
  intros Hnd. rewrite addLine_product_ids.
  destruct (decide (has_product (productId item) its)) as [Hin|Hn]; [done|].
  apply NoDup_app. split_and!; [done| |apply NoDup_singleton].
  intros x Hx ->%list_elem_of_singleton. done.
Qed.

(** The loop of [mergeGuestCart] over the guest's lines. *)
Lemma merge_loop_qty_of (pid : string) (guestItems userItems : list CartItem) :
  qty_of pid (fold_left addLine guestItems userItems)
  = qty_of pid userItems + qty_of pid guestItems.
Proof.
  revert userItems. induction guestItems as [|g gs IH]; intros userItems.
  - cbn [fold_left]. rewrite qty_of_nil. lia.
  - cbn [fold_left]. rewrite IH, addLine_qty_of, qty_of_cons. lia.
Qed.

Lemma merge_loop_has_product (pid : string) (guestItems userItems : list CartItem) :
  has_product pid (fold_left addLine guestItems userItems)
  ↔ has_product pid userItems ∨ has_product pid guestItems.
Proof.
  revert userItems. induction guestItems as [|g gs IH]; intros userItems.
  - cbn [fold_left]. unfold has_product at 3. rewrite fmap_nil, elem_of_nil. tauto.
  - cbn [fold_left]. rewrite IH, addLine_has_product.
    unfold has_product at 3 4. rewrite fmap_cons, elem_of_cons. tauto.
Qed.

Lemma merge_loop_NoDup (guestItems userItems : list CartItem) :
  NoDup (productId <$> userItems) →
  NoDup (productId <$> fold_left addLine guestItems userItems).
Proof.
  revert userItems. induction guestItems as [|g gs IH]; intros userItems Hnd; [done|].
  cbn [fold_left]. by apply IH, addLine_NoDup.
Qed.

Lemma findOneAndUpdate_by_id (carts : list Cart) (id : string) (upd : Cart → Cart) c :
  findById carts id = Some c → (∀ d, _id (upd d) = _id d) →
  ∃ carts',
    Collection.findOneAndUpdate (λ d, _id d = id) upd carts = (Some (upd c), carts') ∧
    findById carts' id = Some (upd c).
Proof.
  intros Hf Hupd. pose proof (findById_id _ _ _ Hf) as Hid.
  unfold findById, Collection.findOne, Collection.findOneAndUpdate in *.
  destruct (list_find (λ d, _id d = id) carts) as [[i d]|] eqn:E; [|done].
  cbn in Hf. injection Hf as ->. eexists. split; [reflexivity|].
  eapply (CollectionFacts.findOne_insert_same (λ d, _id d = id)); [exact E|].
  by rewrite Hupd.
Qed.

Lemma findById_save_other (carts : list Cart) (id : string) (c' : Cart) :
  _id c' ≠ id → findById (save c' carts) id = findById carts id.
Proof.
  intros Hne. unfold findById, save.
  apply (CollectionFacts.findOne_findOneAndUpdate_other
           (λ d, _id d = _id c') (λ d, _id d = id) (λ _, c') carts).
  intros d Hd. split; congruence.
Qed.

Lemma findById_update_other (carts : list Cart) (id id' : string) (upd : Cart → Cart) :
  id ≠ id' → (∀ d, _id (upd d) = _id d) →
  findById (snd (Collection.findOneAndUpdate (λ d, _id d = id) upd carts)) id'
  = findById carts id'.
Proof.
  intros Hne Hupd. unfold findById.
  apply (CollectionFacts.findOne_findOneAndUpdate_other
           (λ d, _id d = id) (λ d, _id d = id') upd carts).
  intros d Hd. rewrite Hupd. split; congruence.
Qed.

Lemma findById_is_Some_of_elem (carts : list Cart) (c : Cart) :
  c ∈ carts → is_Some (findById carts (_id c)).
Proof.
  intros Hin. unfold findById, Collection.findOne.
  destruct (list_find_elem_of (λ d, _id d = _id c) carts c Hin eq_refl) as [[i d] ->].
  by eexists.
Qed.

(** C4. Merging a guest cart for a user.  If the user has an active cart,
    the returned cart is that cart with the lines merged by product id:
    for every product its quantity is the user's plus the guest's, a
    product has a line exactly when it had one in either cart, distinct
    product ids stay distinct, the totals are recomputed, and the guest
    cart is stored with isActive = false.  If the user has no active cart,
    the guest cart is returned and stored with only its userId changed to
    the user, and (being active) it is the cart then found for the user. *)
Theorem mergeGuestCart_union_or_rekey (carts : list Cart) (guestCartId uid : string)
    (guestCart : Cart) :
  findById carts guestCartId = Some guestCart →
  match findByUserId carts uid with
  | Some userCart =>
      ∃ merged carts' guest',
        mergeGuestCart carts guestCartId uid = (Some merged, carts') ∧
        (∀ pid, qty_of pid (items merged)
                = qty_of pid (items userCart) + qty_of pid (items guestCart)) ∧
        (∀ pid, has_product pid (items merged)
                ↔ has_product pid (items userCart) ∨ has_product pid (items guestCart)) ∧
        (NoDup (productId <$> items userCart) → NoDup (productId <$> items merged)) ∧
        totals_ok merged ∧
        _id merged = _id userCart ∧ userId merged = Some uid ∧ isActive merged = true ∧
        findById carts' guestCartId = Some guest' ∧ isActive guest' = false ∧
        (_id userCart ≠ guestCartId →
           findById carts' (_id userCart) = Some merged ∧
           guest' = set_isActive guestCart false)
  | None =>
      ∃ carts',
        mergeGuestCart carts guestCartId uid
        = (Some (set_userId guestCart (Some uid)), carts') ∧
        findById carts' guestCartId = Some (set_userId guestCart (Some uid)) ∧
        (isActive guestCart = true →
           findByUserId carts' uid = Some (set_userId guestCart (Some uid)))
  end.
Proof.
  intros Hg. unfold mergeGuestCart. rewrite Hg.
  destruct (findByUserId carts uid) as [userCart|] eqn:Hu.
  - apply CollectionFacts.findOne_Some_elem in Hu as [Hin [Huid Hact]].
    set (merged := recalculate
           (set_items userCart (fold_left addLine (items guestCart) (items userCart)))).
    destruct (findById_is_Some_of_elem carts userCart Hin) as [c0 Hc0].
    assert (findById (save merged carts) (_id userCart) = Some merged) as Hsaved.
    { by eapply findById_save. }
    assert (∃ g1, findById (save merged carts) guestCartId = Some g1 ∧
                  (_id userCart ≠ guestCartId → g1 = guestCart)) as (g1 & Hg1 & Hg1eq).
    { destruct (decide (_id userCart = guestCartId)) as [<-|Hne].
      - exists merged. by split.
      - exists guestCart. split; [|done]. by rewrite findById_save_other. }
    destruct (findOneAndUpdate_by_id (save merged carts) guestCartId
                (λ c, set_isActive c false) g1 Hg1) as (carts' & Hupd & Hfound); [done|].
    exists merged, carts', (set_isActive g1 false).
    unfold deactivateCart. rewrite Hupd. cbn [snd].
    split_and!; try done.
    + intros pid. cbn. apply merge_loop_qty_of.
    + intros pid. cbn. apply merge_loop_has_product.
    + cbn. apply merge_loop_NoDup.
    + apply recalculate_totals_ok.
    + intros Hne. split; [|by rewrite Hg1eq].
      replace carts' with
        (snd (Collection.findOneAndUpdate (λ d, _id d = guestCartId)
                (λ c, set_isActive c false) (save merged carts)))
        by (by rewrite Hupd).
      by rewrite findById_update_other.
  - destruct (findOneAndUpdate_by_id carts guestCartId
                (λ c, set_userId c (Some uid)) guestCart Hg) as (carts' & Hupd & Hfound);
      [done|].
    exists carts'. split_and!; [done..|].
    intros Hact.
    unfold findById, Collection.findOne, Collection.findOneAndUpdate in Hg, Hupd.
    destruct (list_find (λ d, _id d = guestCartId) carts) as [[i d]|] eqn:E; [|done].
    cbn in Hg. injection Hg as ->. injection Hupd as <-.
    by eapply (CollectionFacts.findOne_insert_only (λ d, _id d = guestCartId)
                 (λ c, userId c = Some uid ∧ isActive c = true)).
Qed.

Lemma mergeGuestCart_union_or_rekey_witness :
  let guest := mkCart "g1" None
                 [mkCartItem "p1" "Pen" 10 1 "t" 0; mkCartItem "p3" "Cap" 7 2 "t" 1]
                 24 3 true in
  let mine := mkCart "c1" (Some "u1") [mkCartItem "p1" "Pen" 10 2 "t" 0] 20 2 true in
  match findByUserId [mine; guest] "u1" with
  | Some userCart =>
      ∃ merged carts' guest',
        mergeGuestCart [mine; guest] "g1" "u1" = (Some merged, carts') ∧
        (∀ pid, qty_of pid (items merged)
                = qty_of pid (items userCart) + qty_of pid (items guest)) ∧
        (∀ pid, has_product pid (items merged)
                ↔ has_product pid (items userCart) ∨ has_product pid (items guest)) ∧
        (NoDup (productId <$> items userCart) → NoDup (productId <$> items merged)) ∧
        totals_ok merged ∧
        _id merged = _id userCart ∧ userId merged = Some "u1"%string ∧
        isActive merged = true ∧
        findById carts' "g1" = Some guest' ∧ isActive guest' = false ∧
        (_id userCart ≠ "g1"%string →
           findById carts' (_id userCart) = Some merged ∧
           guest' = set_isActive guest false)
  | None =>
      ∃ carts',
        mergeGuestCart [mine; guest] "g1" "u1"
        = (Some (set_userId guest (Some "u1"%string)), carts') ∧
        findById carts' "g1" = Some (set_userId guest (Some "u1"%string)) ∧
        (isActive guest = true →
           findByUserId carts' "u1" = Some (set_userId guest (Some "u1"%string)))
  end.
Proof.
  intros guest mine.
  apply (mergeGuestCart_union_or_rekey [mine; guest] "g1" "u1" guest).
  reflexivity.
Defined.

(** A merge evaluated: p1 has 2 + 1, p3 is added, the guest cart is
    deactivated. *)
Example mergeGuestCart_example :
  let guest := mkCart "g1" None
                 [mkCartItem "p1" "Pen" 10 1 "t" 0; mkCartItem "p3" "Cap" 7 2 "t" 1]
                 24 3 true in
  let mine := mkCart "c1" (Some "u1") [mkCartItem "p1" "Pen" 10 2 "t" 0] 20 2 true in
  mergeGuestCart [mine; guest] "g1" "u1"
  = (Some (mkCart "c1" (Some "u1")
             [mkCartItem "p1" "Pen" 10 3 "t" 0; mkCartItem "p3" "Cap" 7 2 "t" 1]
             44 5 true),
     [mkCart "c1" (Some "u1")
        [mkCartItem "p1" "Pen" 10 3 "t" 0; mkCartItem "p3" "Cap" 7 2 "t" 1] 44 5 true;
      mkCart "g1" None
        [mkCartItem "p1" "Pen" 10 1 "t" 0; mkCartItem "p3" "Cap" 7 2 "t" 1] 24 3 false]).
Proof. reflexivity. Qed.

End CartMergeProperties.

(** ** Checkout and the order status *)

Module OrderProperties.
Import OrderModel OrderController.

(** The loop fails exactly when some line fails the stock check. *)
Lemma validateItems_decides (products : list ProductModel.Product)
    (cartItems : list CartModel.CartItem) (acc : list OrderItem) (amount n : Z) :
  match validateItems products cartItems acc amount n with
  | inl _ => ¬ Forall (line_in_stock products) cartItems
  | inr _ => Forall (line_in_stock products) cartItems
  end.
Proof.
  revert acc amount n. induction cartItems as [|x rest IH]; intros acc amount n.
  - cbn. constructor.
  - cbn [validateItems].
    destruct (ProductRepository.findById products (CartModel.productId x))
      as [product|] eqn:Hp.
    + destruct (decide (ProductModel.stock product < CartModel.quantity x)) as [Hlt|Hge].
      * intros Hall. apply Forall_cons in Hall as [(p' & Hp' & Hle) _].
        rewrite Hp in Hp'. injection Hp' as <-. lia.
      * specialize (IH
          (acc ++ [mkOrderItem (ProductModel._id product) (ProductModel.title product)
                     (ProductModel.price product) (CartModel.quantity x)
                     (ProductModel.thumbnail product)])
          (amount + ProductModel.price product * CartModel.quantity x)
          (n + CartModel.quantity x)).
        destruct (validateItems products rest _ _ _) as [msg|r].
        -- intros Hall. apply Forall_cons in Hall as [_ Hrest]. by apply IH.
        -- apply Forall_cons. split; [|done]. exists product. split; [done|lia].
    + intros Hall. apply Forall_cons in Hall as [(p' & Hp' & _) _]. congruence.
Qed.

(** The order lines and totals produced when every line passes. *)
Lemma validateItems_lines (products : list ProductModel.Product)
    (cartItems : list CartModel.CartItem) (acc : list OrderItem) (amount n : Z)
    (orderItems : list OrderItem) (amount' n' : Z) :
  validateItems products cartItems acc amount n = inr (orderItems, amount', n') →
  length orderItems = (length acc + length cartItems)%nat ∧
  n' = n + Js.sumZ (CartModel.quantity <$> cartItems).
Proof.
  revert acc amount n. induction cartItems as [|x rest IH]; intros acc amount n.
  - cbn. intros [= <- <- <-]. split; [lia|]. unfold Js.sumZ. cbn. lia.
  - cbn [validateItems].
    destruct (ProductRepository.findById products (CartModel.productId x)) as [p|]; [|done].
    destruct (decide (ProductModel.stock p < CartModel.quantity x)); [done|].
    intros [Hlen Hn]%IH. rewrite length_app in Hlen. cbn in Hlen.
    rewrite fmap_cons, JsFacts.sumZ_cons. cbn [length]. split; lia.
Qed.

Lemma nonempty_COD : Js.nonempty (Some "COD"%string) = Some "COD"%string.
Proof. reflexivity. Qed.

Lemma parse_COD : PaymentMethod.parse "COD" = Some PaymentMethod.COD.
Proof. reflexivity. Qed.

(** Either the checkout of a user with a non-empty cart is rejected with
    400 and nothing changes, or every line has passed the stock check. *)
Lemma createOrder_rejected_or_checked (gw : Stripe.Gateway) (newId newNumber : string)
    (carts : list CartModel.Cart) (products : list ProductModel.Product)
    (orders : list Order) (req : CreateOrderRequest) (uid : string)
    (cart : CartModel.Cart) :
  Js.nonempty (user req) = Some uid →
  CartRepository.findByUserId carts uid = Some cart →
  (∃ msg, createOrder gw newId newNumber carts products orders req
          = (reject 400 msg, carts, orders)) ∨
  Forall (line_in_stock products) (CartModel.items cart).
Proof.
  intros Hu Hc. unfold createOrder. rewrite Hu.
  destruct (body_shippingAddress req) as [addr|]; [|left; by eexists].
  destruct (Js.nonempty (body_paymentMethod req)) as [pmStr|]; [|left; by eexists].
  destruct (PaymentMethod.parse pmStr) as [pm|]; [|left; by eexists].
  pose proof (validateItems_decides products (CartModel.items cart) [] 0 0) as Hv.
  destruct pm, (Js.nonempty (successUrl req)), (Js.nonempty (cancelUrl req));
    try (left; by eexists);
    rewrite Hc;
    (destruct (bool_decide (length (CartModel.items cart) = 0%nat));
       [left; by eexists|]);
    (destruct (validateItems products (CartModel.items cart) [] 0 0) as [msg|r];
       [left; by eexists|by right]).
Qed.

(** C2. For a checkout by a user whose active cart is not empty: if some
    line asks for more than the catalog stock of its product, or its
    product does not exist, the answer is 400 and neither an order nor any
    cart changes; whenever the checkout creates an order (the orders
    change, or the answer is 201) every line has passed the stock check;
    and a cash-on-delivery checkout whose lines all pass does create the
    order, with one order line per cart line. *)
Theorem createOrder_stock_check (gw : Stripe.Gateway) (newId newNumber : string)
    (carts : list CartModel.Cart) (products : list ProductModel.Product)
    (orders : list Order) (req : CreateOrderRequest) (uid : string)
    (cart : CartModel.Cart) :
  Js.nonempty (user req) = Some uid →
  CartRepository.findByUserId carts uid = Some cart →
  CartModel.items cart ≠ [] →
  (¬ Forall (line_in_stock products) (CartModel.items cart) →
     ∃ msg, createOrder gw newId newNumber carts products orders req
            = (reject 400 msg, carts, orders)) ∧
  (∀ resp carts' orders',
     createOrder gw newId newNumber carts products orders req = (resp, carts', orders') →
     orders' ≠ orders ∨ status resp = 201 →
     Forall (line_in_stock products) (CartModel.items cart)) ∧
  (Forall (line_in_stock products) (CartModel.items cart) →
   is_Some (body_shippingAddress req) →
   body_paymentMethod req = Some "COD"%string →
   ∃ order carts',
     createOrder gw newId newNumber carts products orders req
     = (mkCreateOrderResponse 201 true (Some order) "Order created successfully" None,
        carts', orders ++ [order]) ∧
     userId order = uid ∧
     length (items order) = length (CartModel.items cart) ∧
     totalItems order = Js.sumZ (CartModel.quantity <$> CartModel.items cart) ∧
     orderStatus order = OrderStatus.PENDING ∧
     paymentStatus order = PaymentStatus.PENDING).
Proof.
  intros Hu Hc Hne.
  destruct (createOrder_rejected_or_checked gw newId newNumber carts products orders
              req uid cart Hu Hc) as [[msg Hrej]|Hall].
  - split_and!.
    + by eexists.
    + intros resp carts' orders'. rewrite Hrej. intros [= <- <- <-] [Hne'|Hst]; [done|].
      cbn in Hst. lia.
    + intros Hall [addr Haddr] Hpm. exfalso. revert Hrej.
      unfold createOrder. rewrite Hu, Haddr, Hpm, nonempty_COD, parse_COD. cbn iota.
      rewrite Hc, bool_decide_eq_false_2 by (by destruct (CartModel.items cart)).
      pose proof (validateItems_decides products (CartModel.items cart) [] 0 0) as Hv.
      destruct (validateItems products (CartModel.items cart) [] 0 0)
        as [m|[[its amount] n]]; [done|].
      unfold OrderRepository.create, reject.
      destruct (CartRepository.clearCart carts (CartModel._id cart)) as [c1 carts1].
      intros Heq. discriminate Heq.
  - split_and!; [by intros []|done|].
    intros _ [addr Haddr] Hpm.
    unfold createOrder. rewrite Hu, Haddr, Hpm, nonempty_COD, parse_COD. cbn iota.
    rewrite Hc, bool_decide_eq_false_2 by (by destruct (CartModel.items cart)).
    pose proof (validateItems_decides products (CartModel.items cart) [] 0 0) as Hv.
    destruct (validateItems products (CartModel.items cart) [] 0 0)
      as [m|[[its amount] n]] eqn:E; [done|].
    apply validateItems_lines in E as [Hlen Hn].
    cbn. destruct (CartRepository.clearCart carts (CartModel._id cart)) as [c1 carts1].
    eexists _, _. split; [reflexivity|]. cbn. split_and!; done || lia.
Qed.

Lemma createOrder_stock_check_witness :
  let cart := CartModel.mkCart "c1" (Some "u1")
                [CartModel.mkCartItem "p1" "Pen" 10 2 "t" 0;
                 CartModel.mkCartItem "p2" "Ink" 5 4 "t" 1] 40 6 true in
  let products := [ProductModel.mkProduct "p1" "Pen" 10 50 "t";
                   ProductModel.mkProduct "p2" "Ink" 5 3 "t"] in
  let addr := mkShippingAddress "1 Main St" "Springfield" "IL" "62701" "US" false in
  let req := mkCreateOrderRequest (Some "u1"%string) (Some addr) (Some "COD"%string)
               None None in
  let gw := Stripe.mkGateway (λ _ _ _ _ _ _, None) (λ _, None) in
  (¬ Forall (line_in_stock products) (CartModel.items cart) →
     ∃ msg, createOrder gw "o1" "ORD1" [cart] products [] req
            = (reject 400 msg, [cart], [])) ∧
  (∀ resp carts' orders',
     createOrder gw "o1" "ORD1" [cart] products [] req = (resp, carts', orders') →
     orders' ≠ [] ∨ status resp = 201 →
     Forall (line_in_stock products) (CartModel.items cart)) ∧
  (Forall (line_in_stock products) (CartModel.items cart) →
   is_Some (body_shippingAddress req) →
   body_paymentMethod req = Some "COD"%string →
   ∃ order carts',
     createOrder gw "o1" "ORD1" [cart] products [] req
     = (mkCreateOrderResponse 201 true (Some order) "Order created successfully" None,
        carts', [] ++ [order]) ∧
     userId order = "u1"%string ∧
     length (items order) = length (CartModel.items cart) ∧
     totalItems order = Js.sumZ (CartModel.quantity <$> CartModel.items cart) ∧
     orderStatus order = OrderStatus.PENDING ∧
     paymentStatus order = PaymentStatus.PENDING).
Proof.
  intros cart products addr req gw.
  apply (createOrder_stock_check gw "o1" "ORD1" [cart] products [] req "u1" cart).
  - reflexivity.
  - reflexivity.
  - done.
Defined.

(** A rejected checkout, evaluated: the second line asks for 4 of a
    product with 3 in stock. *)
Example createOrder_short_stock_example :
  let cart := CartModel.mkCart "c1" (Some "u1")
                [CartModel.mkCartItem "p1" "Pen" 10 2 "t" 0;
                 CartModel.mkCartItem "p2" "Ink" 5 4 "t" 1] 40 6 true in
  let products := [ProductModel.mkProduct "p1" "Pen" 10 50 "t";
                   ProductModel.mkProduct "p2" "Ink" 5 3 "t"] in
  let addr := mkShippingAddress "1 Main St" "Springfield" "IL" "62701" "US" false in
  let req := mkCreateOrderRequest (Some "u1"%string) (Some addr) (Some "COD"%string)
               None None in
  let gw := Stripe.mkGateway (λ _ _ _ _ _ _, None) (λ _, None) in
  createOrder gw "o1" "ORD1" [cart] products [] req
  = (reject 400 "Insufficient stock for product Ink. Available: 3", [cart], []).
Proof. vm_compute. reflexivity. Qed.

(** Spec example: an ONLINE checkout without success and cancel URLs is
    rejected with 400 and no order is stored. *)
Example createOrder_online_without_urls :
  let cart := CartModel.mkCart "c1" (Some "u1")
                [CartModel.mkCartItem "p1" "Pen" 10 2 "t" 0] 20 2 true in
  let products := [ProductModel.mkProduct "p1" "Pen" 10 50 "t"] in
  let addr := mkShippingAddress "1 Main St" "Springfield" "IL" "62701" "US" false in
  let req := mkCreateOrderRequest (Some "u1"%string) (Some addr) (Some "ONLINE"%string)
               None None in
  let gw := Stripe.mkGateway (λ _ _ _ _ _ _, None) (λ _, None) in
  createOrder gw "o1" "ORD1" [cart] products [] req
  = (reject 400 "Success URL and cancel URL are required for online payment",
     [cart], []).
Proof. vm_compute. reflexivity. Qed.

(** An ONLINE checkout that succeeds: the order is stored PENDING/PENDING
    with the session id, and the cart is emptied. *)
Example createOrder_online_example :
  let cart := CartModel.mkCart "c1" (Some "u1")
                [CartModel.mkCartItem "p1" "Pen" 10 2 "t" 0] 20 2 true in
  let products := [ProductModel.mkProduct "p1" "Pen" 12 50 "t"] in
  let addr := mkShippingAddress "1 Main St" "Springfield" "IL" "62701" "US" false in
  let req := mkCreateOrderRequest (Some "u1"%string) (Some addr) (Some "ONLINE"%string)
               (Some "https://shop.example/ok"%string)
               (Some "https://shop.example/cancel"%string) in
  let gw := Stripe.mkGateway
              (λ _ _ _ _ _ _, Some (Stripe.mkSession "cs_1" "https://pay.example/cs_1" "unpaid"))
              (λ _, None) in
  let order := mkOrder "o1" "u1" [mkOrderItem "p1" "Pen" 12 2 "t"] 24 2 addr
                 PaymentMethod.ONLINE PaymentStatus.PENDING OrderStatus.PENDING
                 (Some "cs_1"%string) None "ORD1" true in
  createOrder gw "o1" "ORD1" [cart] products [] req
  = (mkCreateOrderResponse 201 true (Some order) "Order created successfully"
       (Some ("cs_1"%string, "https://pay.example/cs_1"%string)),
     [CartModel.mkCart "c1" (Some "u1") [] 0 0 true], [order]).
Proof. vm_compute. reflexivity. Qed.

(** Every status name the admin route accepts is a non-empty string. *)
Lemma parse_status_nonempty (s : string) (st : OrderStatus.t) :
  OrderStatus.parse s = Some st → Js.nonempty (Some s) = Some s.
Proof.
  intros Hp. unfold Js.nonempty. destruct (decide (s = EmptyString)) as [->|]; [|done].
  by vm_compute in Hp.
Qed.

(** The guard of the user's route.  The user's cancellation never
    touches an order whose fulfillment status is SHIPPED or DELIVERED:
    the answer is not 200 (it is 400 for the owner), no refund is
    requested and the orders are left as they were. *)
Lemma user_cancellation_blocked_after_shipping (orders : list Order)
    (req : OrderRequest) (order : Order) :
  OrderRepository.findById orders (orderId req) = Some order →
  orderStatus order = OrderStatus.SHIPPED ∨ orderStatus order = OrderStatus.DELIVERED →
  ∃ resp,
    cancelOrder orders req = (resp, orders, None) ∧
    Http.status resp ≠ 200 ∧
    (Js.nonempty (caller req) = Some (userId order) → Http.status resp = 400).
Proof.
  intros Hf Hst. unfold cancelOrder.
  destruct (Js.nonempty (caller req)) as [uid|]; [|eexists; split_and!; done].
  unfold Js.nonempty at 1.
  destruct (decide (orderId req = EmptyString)) as [He|Hne];
    [eexists; split_and!; done|].
  rewrite Hf.
  destruct (decide (userId order ≠ uid)) as [Hother|Hown].
  - eexists. split_and!; [done|done|]. intros [= Heq]. by destruct Hother.
  - rewrite decide_True by done. eexists. split_and!; done.
Qed.

(** The admin's route has no such guard: for any of the five status
    names it stores that status on the order the request names, whatever
    the current status of the order is. *)
Lemma admin_update_stores_any_status (orders : list Order) (req : OrderRequest)
    (order : Order) (s : string) (status : OrderStatus.t) :
  OrderRepository.findById orders (orderId req) = Some order →
  body_status req = Some s →
  OrderStatus.parse s = Some status →
  orderId req ≠ EmptyString →
  ∃ orders',
    updateOrderStatus orders req
    = (Http.ok 200 (Some (set_orderStatus order status))
         "Order status updated successfully", orders') ∧
    OrderRepository.findById orders' (orderId req) = Some (set_orderStatus order status).
Proof.
  intros Hf Hs Hp Hid. unfold updateOrderStatus.
  unfold Js.nonempty at 1. rewrite decide_False by done.
  rewrite Hs, (parse_status_nonempty s status Hp), Hp.
  unfold OrderRepository.updateOrderStatus, OrderRepository.findById in *.
  destruct (CollectionFacts.findOneAndUpdate_found (λ o, _id o = orderId req)
              (λ o, set_orderStatus o status) orders order Hf) as (orders' & -> & Hfound).
  { apply CollectionFacts.findOne_Some_elem in Hf as [_ Hid']. exact Hid'. }
  by exists orders'.
Qed.

(** C3. The code breaks the claim on the admin route.  For a SHIPPED
    order, the owner's cancellation is refused with 400 and the order
    stays SHIPPED, but the admin status update with the status CANCELLED
    is answered with 200 and the order is stored CANCELLED. *)
Lemma admin_update_cancels_shipped_order :
  let addr := mkShippingAddress "1 Main St" "Springfield" "IL" "62701" "US" false in
  let order := mkOrder "o1" "u1" [mkOrderItem "p1" "Pen" 10 2 "t"] 20 2 addr
                 PaymentMethod.COD PaymentStatus.PENDING OrderStatus.SHIPPED
                 None None "ORD1" true in
  let req := mkOrderRequest (Some "admin1"%string) "o1" (Some "CANCELLED"%string) in
  let userReq := mkOrderRequest (Some "u1"%string) "o1" None in
  orderStatus order = OrderStatus.SHIPPED ∧
  Http.status (fst (updateOrderStatus [order] req)) = 200 ∧
  (orderStatus <$> OrderRepository.findById (snd (updateOrderStatus [order] req)) "o1")
  = Some OrderStatus.CANCELLED ∧
  Http.status (cancelOrder [order] userReq).1.1 = 400 ∧
  (cancelOrder [order] userReq).1.2 = [order].
Proof. split_and!; reflexivity. Qed.

End OrderProperties.

(** ** The payment callback *)

Module WebhookProperties.
Import OrderModel StripeWebhookController.

Lemma nonempty_idem (x : option string) (v : string) :
  Js.nonempty x = Some v → Js.nonempty (Some v) = Some v.
Proof.
  unfold Js.nonempty. destruct x as [w|]; [|done].
  destruct (decide (w = EmptyString)); [done|]. intros [= <-]. by rewrite decide_False.
Qed.

Lemma updatePaymentStatus_found (orders : list Order) (order : Order)
    (st : PaymentStatus.t) (sessionId : string) :
  order ∈ orders → Js.nonempty (Some sessionId) = Some sessionId →
  ∃ updated orders',
    OrderRepository.updatePaymentStatus orders (_id order) st (Some sessionId)
    = (Some updated, orders') ∧
    OrderRepository.findById orders' (_id order) = Some updated ∧
    paymentStatus updated = st ∧
    transactionId updated = Some sessionId.
Proof.
  intros Hin Hsid.
  destruct (CollectionFacts.findOne_is_Some_of_elem (λ o, _id o = _id order)
              orders order Hin eq_refl) as [d0 Hd0].
  unfold OrderRepository.updatePaymentStatus, OrderRepository.findById. rewrite Hsid.
  destruct (CollectionFacts.findOneAndUpdate_found (λ o, _id o = _id order)
              (λ o, set_transactionId (set_paymentStatus o st) (Some sessionId))
              orders d0 Hd0) as (orders' & -> & Hfound).
  { apply CollectionFacts.findOne_Some_elem in Hd0 as [_ Hid]. exact Hid. }
  by eexists _, orders'.
Qed.

(** The simplified event shape.  For a checkout-session-completed event
    that carries, at its top level, a session id and the order number of
    an existing active order under the key orderNum, and whose session the
    gateway returns, the handler stores on the order the payment status
    computed from the retrieved session: PAID exactly when its
    payment_status is 'paid', PENDING for any other value.  The status
    carried in the payload is not read: changing it changes nothing. *)
Theorem checkout_completed_status_from_gateway (gw : Stripe.Gateway)
    (orders : list Order) (event : Event) (sessionId num : string)
    (stripeSession : Stripe.Session) (order : Order) :
  type event = Some "checkout.session.completed"%string →
  Js.nonempty (Js.or_else (id event) (data_object_id event)) = Some sessionId →
  Js.nonempty (Js.or_else (orderNum event) (metadata_orderNum event)) = Some num →
  Stripe.retrieveCheckoutSession gw sessionId = Some stripeSession →
  OrderRepository.findByOrderNumber orders num = Some order →
  (∃ result orders' updated,
      processWebhookEvent gw orders event = (result, orders') ∧
      processed result = true ∧
      OrderRepository.findById orders' (_id order) = Some updated ∧
      (paymentStatus updated = PaymentStatus.PAID
       ↔ Stripe.payment_status stripeSession = "paid"%string) ∧
      (Stripe.payment_status stripeSession ≠ "paid"%string →
       paymentStatus updated = PaymentStatus.PENDING) ∧
      transactionId updated = Some sessionId) ∧
  (∀ s, processWebhookEvent gw orders (with_payload_status event s)
        = processWebhookEvent gw orders event).
Proof.
  intros Hty Hsid Hnum Hret Hord. split.
  - unfold processWebhookEvent. rewrite decide_True by done.
    unfold handleCheckoutSessionCompleted. rewrite Hsid, Hnum, Hret, Hord.
    apply CollectionFacts.findOne_Some_elem in Hord as [Hin _].
    destruct (updatePaymentStatus_found orders order
                (if decide (Stripe.payment_status stripeSession = "paid"%string)
                 then PaymentStatus.PAID else PaymentStatus.PENDING)
                sessionId Hin (nonempty_idem _ _ Hsid))
      as (updated & orders' & -> & Hfound & Hst & Htid).
    eexists _, orders', updated. split; [reflexivity|]. split_and!; try done.
    + rewrite Hst. by destruct (decide (Stripe.payment_status stripeSession = "paid"%string)).
    + intros Hne. rewrite Hst. by rewrite decide_False.
  - intros s. by destruct event.
Qed.

Lemma checkout_completed_status_from_gateway_witness :
  let addr := mkShippingAddress "1 Main St" "Springfield" "IL" "62701" "US" false in
  let order := mkOrder "o1" "u1" [mkOrderItem "p1" "Pen" 10 2 "t"] 20 2 addr
                 PaymentMethod.ONLINE PaymentStatus.PENDING OrderStatus.PENDING
                 (Some "cs_1"%string) None "ORD1" true in
  let session := Stripe.mkSession "cs_1" "https://pay.example/cs_1" "paid" in
  let gw := Stripe.mkGateway (λ _ _ _ _ _ _, None) (λ _, Some session) in
  let event := mkEvent (Some "checkout.session.completed"%string) (Some "cs_1"%string)
                 None (Some "ORD1"%string) None (Some "unpaid"%string) in
  (∃ result orders' updated,
      processWebhookEvent gw [order] event = (result, orders') ∧
      processed result = true ∧
      OrderRepository.findById orders' (_id order) = Some updated ∧
      (paymentStatus updated = PaymentStatus.PAID
       ↔ Stripe.payment_status session = "paid"%string) ∧
      (Stripe.payment_status session ≠ "paid"%string →
       paymentStatus updated = PaymentStatus.PENDING) ∧
      transactionId updated = Some "cs_1"%string) ∧
  (∀ s, processWebhookEvent gw [order] (with_payload_status event s)
        = processWebhookEvent gw [order] event).
Proof.
  intros addr order session gw event.
  apply (checkout_completed_status_from_gateway gw [order] event "cs_1" "ORD1"
           session order); reflexivity.
Defined.

(** An event as the gateway sends it has its session under data.object
    and no order number at its top level: whatever the gateway would
    answer and whatever orders exist, it is reported as not processed and
    no order is changed. *)
Lemma event_without_orderNum_not_processed (gw : Stripe.Gateway)
    (orders : list Order) (event : Event) :
  type event = Some "checkout.session.completed"%string →
  Js.nonempty (orderNum event) = None →
  Js.nonempty (metadata_orderNum event) = None →
  processWebhookEvent gw orders event
  = (mkResult false "Missing session ID or order ID", orders).
Proof.
  intros Hty Hn Hm. unfold processWebhookEvent. rewrite decide_True by done.
  unfold handleCheckoutSessionCompleted.
  assert (Js.nonempty (Js.or_else (orderNum event) (metadata_orderNum event)) = None)
    as ->.
  { unfold Js.or_else. by rewrite Hn. }
  by destruct (Js.nonempty (Js.or_else (id event) (data_object_id event))).
Qed.

(** C5. The code breaks the claim on the events the gateway sends.  The
    checkout writes the order number into the session metadata under the
    key orderNumber; the handler looks for orderNum at the top level of
    the event.  For a signed checkout-session-completed event whose
    session, under data.object, belongs to an existing PENDING order and
    is paid according to the gateway, the handler answers 200 with
    'Missing session ID or order ID' and the order stays PENDING. *)
Lemma gateway_event_leaves_paid_order_pending :
  let addr := mkShippingAddress "1 Main St" "Springfield" "IL" "62701" "US" false in
  let order := mkOrder "o1" "u1" [mkOrderItem "p1" "Pen" 10 2 "t"] 20 2 addr
                 PaymentMethod.ONLINE PaymentStatus.PENDING OrderStatus.PENDING
                 (Some "cs_1"%string) None "ORD1" true in
  let session := Stripe.mkSession "cs_1" "https://pay.example/cs_1" "paid" in
  let gw := Stripe.mkGateway (λ _ _ _ _ _ _, None) (λ _, Some session) in
  let event := mkEvent (Some "checkout.session.completed"%string) (Some "evt_1"%string)
                 (Some "cs_1"%string) None None (Some "paid"%string) in
  let verify : option Event → string → option Event := λ payload _, payload in
  let req := mkRequest (Some "t=1,v1=5257a869"%string) (Some event) in
  Stripe.retrieveCheckoutSession gw "cs_1" = Some session ∧
  Stripe.payment_status session = "paid"%string ∧
  OrderRepository.findByOrderNumber [order] "ORD1" = Some order ∧
  sessionId order = Some "cs_1"%string ∧
  handleWebhook gw verify [order] req
  = (mkResponse 200 true "Missing session ID or order ID" true, [order]) ∧
  (paymentStatus <$> OrderRepository.findById (handleWebhook gw verify [order] req).2 "o1")
  = Some PaymentStatus.PENDING.
Proof. split_and!; reflexivity. Qed.

(** C6. A checkout-session-completed event whose order number matches no
    active order (or which carries none) is not processed: the handler
    reports processed = false with a non-empty message, the orders are
    left as they were, and the HTTP answer is 200. *)
Theorem unknown_order_webhook_not_processed (gw : Stripe.Gateway)
    (verify : option Event → string → option Event)
    (orders : list Order) (req : Request) (event : Event) :
  resolveEvent verify req = inr event →
  type event = Some "checkout.session.completed"%string →
  (∀ num, Js.nonempty (Js.or_else (orderNum event) (metadata_orderNum event)) = Some num →
          OrderRepository.findByOrderNumber orders num = None) →
  ∃ msg,
    processWebhookEvent gw orders event = (mkResult false msg, orders) ∧
    msg ≠ EmptyString ∧
    handleWebhook gw verify orders req = (mkResponse 200 true msg true, orders).
Proof.
  intros Hres Hty Hnone.
  unfold handleWebhook. rewrite Hres.
  unfold processWebhookEvent. rewrite decide_True by done.
  unfold handleCheckoutSessionCompleted.
  destruct (Js.nonempty (Js.or_else (id event) (data_object_id event))) as [sid|];
    [|eexists; split_and!; done].
  destruct (Js.nonempty (Js.or_else (orderNum event) (metadata_orderNum event)))
    as [num|] eqn:Hnum; [|eexists; split_and!; done].
  destruct (Stripe.retrieveCheckoutSession gw sid) as [stripeSession|];
    [|eexists; split_and!; done].
  rewrite (Hnone num eq_refl). eexists; split_and!; done.
Qed.

Lemma unknown_order_webhook_not_processed_witness :
  let addr := mkShippingAddress "1 Main St" "Springfield" "IL" "62701" "US" false in
  let order := mkOrder "o1" "u1" [mkOrderItem "p1" "Pen" 10 2 "t"] 20 2 addr
                 PaymentMethod.ONLINE PaymentStatus.PENDING OrderStatus.PENDING
                 (Some "cs_1"%string) None "ORD1" true in
  let session := Stripe.mkSession "cs_9" "https://pay.example/cs_9" "paid" in
  let gw := Stripe.mkGateway (λ _ _ _ _ _ _, None) (λ _, Some session) in
  let event := mkEvent (Some "checkout.session.completed"%string) (Some "cs_9"%string)
                 None (Some "ORD404"%string) None (Some "paid"%string) in
  let req := mkRequest None (Some event) in
  ∃ msg,
    processWebhookEvent gw [order] event = (mkResult false msg, [order]) ∧
    msg ≠ EmptyString ∧
    handleWebhook gw (λ _ _, None) [order] req = (mkResponse 200 true msg true, [order]).
Proof.
  intros addr order session gw event req.
  apply (unknown_order_webhook_not_processed gw (λ _ _, None) [order] req event).
  - reflexivity.
  - reflexivity.
  - intros num [= <-]. reflexivity.
Defined.

End WebhookProperties.

(** ** Customer replies on a ticket *)

Module TicketProperties.
Import TicketModel TicketController.

(** C9. When the owner of a ticket posts a non-empty message, the message
    is appended at the end of the ticket's message list with the sender
    role USER; the stored status becomes OPEN if it was WAITING_CUSTOMER
    and is unchanged otherwise; every other ticket is left as it was. *)
Theorem addMessage_customer_reply (tickets : list ITicket) (req : Request)
    (ticket : ITicket) (uid msg : string) :
  req_user req = Some uid →
  Js.nonempty (body_message req) = Some msg →
  TicketRepository.findByTicketId tickets (param_ticketId req) = Some ticket →
  user ticket = uid →
  ∃ resp tickets' stored,
    addMessage tickets req = (resp, tickets') ∧
    Http.status resp = 200 ∧
    TicketRepository.findByTicketId tickets' (param_ticketId req) = Some stored ∧
    messages stored
    = messages ticket
      ++ [mkMessage uid UserRole.USER msg (default [] (body_attachments req)) (now req)] ∧
    (status ticket = TicketStatus.WAITING_CUSTOMER → status stored = TicketStatus.OPEN) ∧
    (status ticket ≠ TicketStatus.WAITING_CUSTOMER → status stored = status ticket) ∧
    (∀ tid, tid ≠ param_ticketId req →
            TicketRepository.findByTicketId tickets' tid
            = TicketRepository.findByTicketId tickets tid).
Proof.
  intros Hu Hm Hf Hown.
  pose proof (CollectionFacts.findOne_Some_elem _ _ _ Hf) as [_ Htid].
  unfold addMessage. rewrite Hu, Hm, Hf. rewrite decide_False by (by intros []).
  set (m := mkMessage uid UserRole.USER msg (default [] (body_attachments req)) (now req)).
  set (newStatus := if decide (status ticket = TicketStatus.WAITING_CUSTOMER)
                    then TicketStatus.OPEN else status ticket).
  unfold TicketRepository.addMessage, TicketRepository.updateStatus,
    TicketRepository.findByTicketId in *.
  set (push := λ t, mkTicket (ticketId t) (user t) (order t) (subject t) (category t)
                      (priority t) (status t) (messages t ++ [m]) (Some (createdAt m))
                      (isEscalated t)).
  set (setst := λ t, mkTicket (ticketId t) (user t) (order t) (subject t) (category t)
                       (priority t) newStatus (messages t) (lastResponseAt t)
                       (isEscalated t)).
  destruct (CollectionFacts.findOneAndUpdate_found
              (λ t, ticketId t = param_ticketId req) push tickets ticket Hf Htid)
    as (tickets1 & Hupd1 & Hf1).
  destruct (CollectionFacts.findOneAndUpdate_found
              (λ t, ticketId t = param_ticketId req) setst tickets1 (push ticket) Hf1 Htid)
    as (tickets2 & Hupd2 & Hf2).
  rewrite Hupd1, Hupd2.
  exists (Http.ok 200 (Some (push ticket)) "Message added successfully"),
    tickets2, (setst (push ticket)).
  split_and!; try done.
  - intros Hw. cbn. unfold newStatus. by rewrite decide_True.
  - intros Hw. cbn. unfold newStatus. by rewrite decide_False.
  - intros tid Hne.
    replace tickets2 with
      (snd (Collection.findOneAndUpdate (λ t, ticketId t = param_ticketId req)
              setst tickets1)) by (by rewrite Hupd2).
    replace tickets1 with
      (snd (Collection.findOneAndUpdate (λ t, ticketId t = param_ticketId req)
              push tickets)) by (by rewrite Hupd1).
    rewrite !(CollectionFacts.findOne_findOneAndUpdate_other
                (λ t, ticketId t = param_ticketId req) (λ t, ticketId t = tid)); [done|..];
      intros d Hd; cbn; split; congruence.
Qed.

Lemma addMessage_customer_reply_witness :
  let first := mkMessage "u1" UserRole.USER "Where is my parcel?" [] 100 in
  let ticket := mkTicket "TKT1" "u1" None "Parcel" TicketCategory.DELIVERY
                  TicketPriority.MEDIUM TicketStatus.WAITING_CUSTOMER [first]
                  (Some 100) false in
  let req := mkRequest (Some "u1"%string) "TKT1" (Some "Any news?"%string) None 200 in
  ∃ resp tickets' stored,
    addMessage [ticket] req = (resp, tickets') ∧
    Http.status resp = 200 ∧
    TicketRepository.findByTicketId tickets' (param_ticketId req) = Some stored ∧
    messages stored
    = messages ticket
      ++ [mkMessage "u1" UserRole.USER "Any news?" (default [] (body_attachments req))
            (now req)] ∧
    (status ticket = TicketStatus.WAITING_CUSTOMER → status stored = TicketStatus.OPEN) ∧
    (status ticket ≠ TicketStatus.WAITING_CUSTOMER → status stored = status ticket) ∧
    (∀ tid, tid ≠ param_ticketId req →
            TicketRepository.findByTicketId tickets' tid
            = TicketRepository.findByTicketId [ticket] tid).
Proof.
  intros first ticket req.
  apply (addMessage_customer_reply [ticket] req ticket "u1" "Any news?"); reflexivity.
Defined.

(** Spec example: a ticket created OPEN, set to WAITING_CUSTOMER by an
    admin, goes back to OPEN when the customer posts a message. *)
Example ticket_reopens_on_reply :
  let ticket := mkTicket "TKT1" "u1" None "Parcel" TicketCategory.DELIVERY
                  TicketPriority.MEDIUM TicketStatus.OPEN [] None false in
  let tickets1 := snd (updateTicketStatus [ticket] "TKT1" TicketStatus.WAITING_CUSTOMER) in
  let req := mkRequest (Some "u1"%string) "TKT1" (Some "Any news?"%string) None 200 in
  (status <$> TicketRepository.findByTicketId tickets1 "TKT1")
  = Some TicketStatus.WAITING_CUSTOMER ∧
  (status <$> TicketRepository.findByTicketId (snd (addMessage tickets1 req)) "TKT1")
  = Some TicketStatus.OPEN.
Proof. split; reflexivity. Qed.

End TicketProperties.

(** ** What every collection of carts built by the repository satisfies

    The carts handled by the controllers start from [create] and change
    only through the repository, so their totals agree with their lines
    and their identifiers stay those the database assigned. *)

Module CartInvariants.
Import CartModel CartRepository CartFacts.

Lemma Forall_findOneAndUpdate {D} (P Q : D → Prop) `{∀ d, Decision (Q d)}
    (upd : D → D) (s : list D) :
  Forall P s → (∀ d, P d → P (upd d)) →
  Forall P (snd (Collection.findOneAndUpdate Q upd s)).
Proof.
  intros Hall Hupd. unfold Collection.findOneAndUpdate.
  destruct (list_find Q s) as [[i d]|] eqn:E; [|done]. cbn.
  apply list_find_Some in E as (Hl & _ & _).
  apply Forall_insert; [done|]. apply Hupd.
  rewrite Forall_lookup in Hall. by eapply Hall.
Qed.

Lemma Forall_save (P : Cart → Prop) (c : Cart) (carts : list Cart) :
  Forall P carts → P c → Forall P (save c carts).
Proof.
  intros Hall Hc. unfold save. by apply Forall_findOneAndUpdate.
Qed.

Lemma ids_findOneAndUpdate (Q : Cart → Prop) `{∀ d, Decision (Q d)}
    (upd : Cart → Cart) (carts : list Cart) :
  (∀ d, Q d → _id (upd d) = _id d) →
  _id <$> snd (Collection.findOneAndUpdate Q upd carts) = _id <$> carts.
Proof.
  intros Hupd. unfold Collection.findOneAndUpdate.
  destruct (list_find Q carts) as [[i d]|] eqn:E; [|done]. cbn.
  apply list_find_Some in E as (Hl & HQ & _).
  rewrite list_fmap_insert, Hupd by done.
  apply list_insert_id. by rewrite list_lookup_fmap, Hl.
Qed.

Lemma ids_save (c : Cart) (carts : list Cart) :
  _id <$> save c carts = _id <$> carts.
Proof. unfold save. apply ids_findOneAndUpdate. by intros d ->. Qed.

(** The four mutations keep the totals of every stored cart in agreement
    with its lines, and keep the identifiers of the collection. *)
Lemma mutate_preserves (m : mutation) (carts : list Cart) (cartId : string) :
  Forall totals_ok carts →
  Forall totals_ok (snd (mutate m carts cartId)) ∧
  _id <$> snd (mutate m carts cartId) = _id <$> carts.
Proof.
  intros Hall.
  destruct m as [item|pid q|pid|]; cbn [mutate];
    unfold addItem, updateItemQuantity, removeItem, clearCart;
    destruct (findById carts cartId) as [cart|]; try done.
  - split; [apply Forall_save; [done|apply recalculate_totals_ok]|apply ids_save].
  - destruct (findIndex (λ item, productId item = pid) (items cart)); [|done].
    split; [apply Forall_save; [done|apply recalculate_totals_ok]|apply ids_save].
  - split; [apply Forall_save; [done|apply recalculate_totals_ok]|apply ids_save].
  - split; [apply Forall_save; [done|by split]|apply ids_save].
Qed.

Lemma mergeGuestCart_preserves (carts : list Cart) (guestCartId uid : string) :
  Forall totals_ok carts →
  Forall totals_ok (snd (mergeGuestCart carts guestCartId uid)) ∧
  _id <$> snd (mergeGuestCart carts guestCartId uid) = _id <$> carts.
Proof.
  intros Hall. unfold mergeGuestCart, deactivateCart.
  destruct (findById carts guestCartId) as [guestCart|]; [|done].
  destruct (findByUserId carts uid) as [userCart|].
  - cbn [snd]. split.
    + apply Forall_findOneAndUpdate; [|by intros []].
      apply Forall_save; [done|apply recalculate_totals_ok].
    + rewrite ids_findOneAndUpdate by done. apply ids_save.
  - split.
    + apply Forall_findOneAndUpdate; [done|by intros []].
    + by apply ids_findOneAndUpdate.
Qed.

Lemma getOrCreateCart_preserves (newId : string) (carts : list Cart)
    (uid guestId : option string) :
  Forall totals_ok carts → NoDup (_id <$> carts) → newId ∉ (_id <$> carts) →
  Forall totals_ok (snd (getOrCreateCart newId carts uid guestId)) ∧
  NoDup (_id <$> snd (getOrCreateCart newId carts uid guestId)).
Proof.
  intros Hall Hnd Hfresh.
  pose proof (CartUpdateProperties.getOrCreateCart_cases newId carts uid guestId) as Hc.
  destruct (getOrCreateCart newId carts uid guestId) as [cart carts1]. cbn [snd].
  destruct Hc as [[_ ->]|[-> ->]]; [done|]. split.
  - apply Forall_app. split; [done|]. apply Forall_singleton. by split.
  - rewrite fmap_app. apply NoDup_app. split_and!; [done| |apply NoDup_singleton].
    intros x Hx. cbn. by intros ->%list_elem_of_singleton.
Qed.

End CartInvariants.

(** ** Further properties of the cart repository *)

Module CartRepositoryProperties.
Import CartModel CartRepository CartFacts CartProperties.

Lemma set_items_recalculate (c : Cart) (l : list CartItem) :
  recalculate (set_items (recalculate c) l) = recalculate (set_items c l).
Proof. reflexivity. Qed.

(** Two saves of the same document are one save of the last state. *)
Lemma save_save (carts : list Cart) (c1 c2 : Cart) :
  _id c1 = _id c2 → save c2 (save c1 carts) = save c2 carts.
Proof.
  intros Hid. unfold save, Collection.findOneAndUpdate. rewrite <- Hid.
  destruct (list_find (λ c, _id c = _id c1) carts) as [[i d]|] eqn:E; cbn.
  - assert (list_find (λ c, _id c = _id c1) (<[i:=c1]> carts) = Some (i, c1)) as ->.
    { pose proof E as (Hl & _ & Hleast)%list_find_Some.
      apply list_find_Some. split_and!; [|done|].
      - apply list_lookup_insert_eq. by eapply lookup_lt_Some.
      - intros j y Hj Hlt. rewrite list_lookup_insert_ne in Hj by lia. eauto. }
    cbn. apply list_insert_insert_eq.
  - by rewrite E.
Qed.

Lemma alter_set_quantity_ids (f : CartItem → Z) (i : nat) (its : list CartItem) :
  productId <$> alter (λ it, set_quantity it (f it)) i its = productId <$> its.
Proof.
  rewrite (list_fmap_alter productId _ id); [|by apply Forall_forall].
  by apply list_alter_id.
Qed.


(** The lines produced by any mutation keep distinct product ids. *)
Lemma addLine_ids_NoDup (its : list CartItem) (item : CartItem) :
  NoDup (productId <$> its) → NoDup (productId <$> addLine its item).
Proof.
  intros Hnd. unfold addLine.
  destruct (findIndex (λ cartItem, productId cartItem = productId item) its)
    as [i|] eqn:E.
  - by rewrite alter_set_quantity_ids.
  - apply findIndex_None in E. rewrite fmap_app. apply NoDup_app.
    split_and!; [done| |apply NoDup_singleton].
    intros x Hx ->%list_elem_of_singleton. done.
Qed.



(** X2. Adding an item whose product has no line yet appends it as the
    last line, exactly as given, and leaves the existing lines as they
    were. *)
Theorem addItem_new_product_appends (carts : list Cart) (cartId : string)
    (cart : Cart) (item : CartItem) :
  findById carts cartId = Some cart →
  ¬ has_product (productId item) (items cart) →
  ∃ c carts',
    addItem carts cartId item = (Some c, carts') ∧
    findById carts' cartId = Some c ∧
    items c = items cart ++ [item] ∧
    totals_ok c.
Proof.
  intros Hf Hn. pose proof (findById_id _ _ _ Hf) as Hid.
  unfold addItem. rewrite Hf. cbn zeta. eexists _, _. split; [reflexivity|].
  split_and!.
  - by eapply findById_save.
  - cbn. unfold addLine. by rewrite (proj2 (findIndex_None _ _) Hn).
  - apply recalculate_totals_ok.
Qed.

Lemma addItem_new_product_appends_witness :
  let cart := mkCart "c1" None [mkCartItem "p1" "Pen" 10 2 "t" 0] 20 2 true in
  let item := mkCartItem "p2" "Ink" 5 1 "t" 1 in
  ∃ c carts',
    addItem [cart] "c1" item = (Some c, carts') ∧
    findById carts' "c1" = Some c ∧
    items c = items cart ++ [item] ∧
    totals_ok c.
Proof.
  intros cart item.
  apply (addItem_new_product_appends [cart] "c1" cart item).
  - reflexivity.
  - unfold has_product. cbn. by intros ?%list_elem_of_singleton.
Defined.

(** X3. Distinct product ids are an invariant of the cart: if no two
    lines of a cart share a product id, the same holds for the cart
    returned by any of the four mutations. *)
Theorem mutations_keep_product_ids_distinct (m : mutation) (carts : list Cart)
    (cartId : string) (cart c : Cart) (carts' : list Cart) :
  findById carts cartId = Some cart →
  NoDup (productId <$> items cart) →
  mutate m carts cartId = (Some c, carts') →
  NoDup (productId <$> items c).
Proof.
  intros Hf Hnd.
  destruct m as [item|pid q|pid|]; cbn [mutate];
    unfold addItem, updateItemQuantity, removeItem, clearCart; rewrite Hf.
  - intros [= <- <-]. cbn. by apply addLine_ids_NoDup.
  - destruct (findIndex (λ item, productId item = pid) (items cart)) as [i|]; [|done].
    intros [= <- <-]. cbn. destruct (decide (q ≤ 0)).
    + eapply sublist_NoDup; [exact Hnd|]. rewrite list_fmap_delete. apply sublist_delete.
    + by rewrite (alter_set_quantity_ids (λ _, q)).
  - intros [= <- <-]. cbn. eapply sublist_NoDup; [exact Hnd|].
    apply fmap_sublist, sublist_filter.
  - intros [= <- <-]. cbn. apply NoDup_nil_2.
Qed.

Lemma mutations_keep_product_ids_distinct_witness :
  let cart := mkCart "c1" None
                [mkCartItem "p1" "Pen" 10 2 "t" 0; mkCartItem "p2" "Ink" 5 1 "t" 1]
                25 3 true in
  let item := mkCartItem "p2" "Ink" 5 3 "t" 9 in
  NoDup (productId <$> items (recalculate (set_items cart (addLine (items cart) item)))).
Proof.
  intros cart item.
  apply (mutations_keep_product_ids_distinct (AddItem item) [cart] "c1" cart
           (recalculate (set_items cart (addLine (items cart) item)))
           (save (recalculate (set_items cart (addLine (items cart) item))) [cart])).
  - reflexivity.
  - cbn. apply NoDup_cons. split.
    + by intros ?%list_elem_of_singleton.
    + apply NoDup_singleton.
  - reflexivity.
Defined.

End CartRepositoryProperties.

(** ** How cart operations compose *)

Module CartCompositionProperties.
Import CartModel CartRepository CartFacts CartProperties.

Lemma qty_of_filter_other (pid p : string) (its : list CartItem) :
  p ≠ pid →
  qty_of p (filter (λ item, productId item ≠ pid) its) = qty_of p its.
Proof.
  intros Hne. unfold qty_of. f_equal. f_equal.
  rewrite list_filter_filter. apply list_filter_iff. intros x. split; [tauto|].
  intros Hx. split; [done|congruence].
Qed.

Lemma filter_removes_product (pid : string) (its : list CartItem) :
  ¬ has_product pid (filter (λ item, productId item ≠ pid) its).
Proof.
  unfold has_product. intros (x & -> & Hx)%list_elem_of_fmap.
  apply list_elem_of_filter in Hx as [Hne _]. done.
Qed.

(** X4. Removing a product removes every line of that product and keeps
    the other lines in their order; the quantity held for any other
    product is unchanged and the totals are recomputed. *)
Theorem removeItem_removes_every_line (carts : list Cart) (cartId pid : string)
    (cart : Cart) :
  findById carts cartId = Some cart →
  ∃ c carts',
    removeItem carts cartId pid = (Some c, carts') ∧
    findById carts' cartId = Some c ∧
    ¬ has_product pid (items c) ∧
    items c `sublist_of` items cart ∧
    (∀ p, p ≠ pid → qty_of p (items c) = qty_of p (items cart)) ∧
    totals_ok c.
Proof.
  intros Hf. pose proof (findById_id _ _ _ Hf) as Hid.
  unfold removeItem. rewrite Hf. cbn zeta. eexists _, _. split; [reflexivity|].
  split_and!.
  - by eapply findById_save.
  - cbn. apply filter_removes_product.
  - cbn. apply sublist_filter.
  - intros p Hne. cbn. by apply qty_of_filter_other.
  - apply recalculate_totals_ok.
Qed.

Lemma removeItem_removes_every_line_witness :
  let cart := mkCart "c1" None
                [mkCartItem "p1" "Pen" 10 2 "t" 0; mkCartItem "p2" "Ink" 5 1 "t" 1]
                25 3 true in
  ∃ c carts',
    removeItem [cart] "c1" "p1" = (Some c, carts') ∧
    findById carts' "c1" = Some c ∧
    ¬ has_product "p1" (items c) ∧
    items c `sublist_of` items cart ∧
    (∀ p, p ≠ "p1"%string → qty_of p (items c) = qty_of p (items cart)) ∧
    totals_ok c.
Proof.
  intros cart. apply (removeItem_removes_every_line [cart] "c1" "p1" cart). reflexivity.
Defined.

Lemma filter_after_append (pid : string) (its : list CartItem) (item : CartItem) :
  productId item = pid → ¬ has_product pid its →
  filter (λ it, productId it ≠ pid) (its ++ [item]) = its.
Proof.
  intros Hi Hn. rewrite filter_app, filter_cons_False, filter_nil, app_nil_r.
  - by apply CartUpdateProperties.filter_other_products_id.
  - intros Hne. by apply Hne.
Qed.

(** X5. Round trip: on a cart whose totals agree with its lines and which
    has no line for a product, adding an item of that product and then
    removing the product gives back the cart and the collection exactly
    as they were. *)
Theorem addItem_then_removeItem_round_trip (carts : list Cart) (cartId : string)
    (cart : Cart) (item : CartItem) :
  findById carts cartId = Some cart →
  totals_ok cart →
  ¬ has_product (productId item) (items cart) →
  removeItem (snd (addItem carts cartId item)) cartId (productId item)
  = (Some cart, carts).
Proof.
  intros Hf Hok Hn. pose proof (findById_id _ _ _ Hf) as Hid.
  unfold addItem. rewrite Hf. cbn [snd].
  set (c1 := recalculate (set_items cart (addLine (items cart) item))).
  assert (findById (save c1 carts) cartId = Some c1) as Hf1 by (by eapply findById_save).
  unfold removeItem. rewrite Hf1. cbn zeta.
  assert (items c1 = items cart ++ [item]) as ->.
  { cbn. unfold addLine. by rewrite (proj2 (findIndex_None _ _) Hn). }
  rewrite filter_after_append by done.
  assert (recalculate (set_items c1 (items cart)) = cart) as ->.
  { unfold c1. rewrite CartRepositoryProperties.set_items_recalculate.
    replace (set_items (set_items cart (addLine (items cart) item)) (items cart))
      with cart by (by destruct cart).
    by apply recalculate_id. }
  f_equal. rewrite CartRepositoryProperties.save_save by (by subst c1).
  by eapply save_unchanged.
Qed.

Lemma addItem_then_removeItem_round_trip_witness :
  let cart := mkCart "c1" None [mkCartItem "p1" "Pen" 10 2 "t" 0] 20 2 true in
  let item := mkCartItem "p2" "Ink" 5 3 "t" 9 in
  removeItem (snd (addItem [cart] "c1" item)) "c1" (productId item) = (Some cart, [cart]).
Proof.
  intros cart item.
  apply (addItem_then_removeItem_round_trip [cart] "c1" cart item).
  - reflexivity.
  - by split.
  - unfold has_product. cbn. by intros ?%list_elem_of_singleton.
Defined.

(** [addLine] on a list split at the first line of the item's product. *)
Lemma addLine_at (l1 l2 : list CartItem) (x item : CartItem) :
  Forall (λ z, productId z ≠ productId item) l1 →
  productId x = productId item →
  addLine (l1 ++ x :: l2) item
  = l1 ++ set_quantity x (quantity x + quantity item) :: l2.
Proof.
  intros Hl1 Hx. unfold addLine, findIndex.
  assert (list_find (λ cartItem, productId cartItem = productId item) (l1 ++ x :: l2)
          = Some (length l1, x)) as ->.
  { apply list_find_Some. split_and!.
    - by rewrite list_lookup_middle.
    - done.
    - intros j z Hj Hlt. rewrite lookup_app_l in Hj by done.
      rewrite Forall_lookup in Hl1. by eapply Hl1. }
  cbn. by rewrite (alter_app_r_alt _ l1 (x :: l2) (length l1)), Nat.sub_diag by lia.
Qed.

Lemma addLine_twice (its : list CartItem) (item : CartItem) (q1 q2 : Z) :
  addLine (addLine its (set_quantity item q1)) (set_quantity item q2)
  = addLine its (set_quantity item (q1 + q2)).
Proof.
  destruct (list_find (λ cartItem, productId cartItem = productId item) its)
    as [[i x]|] eqn:E.
  - apply ListFacts.list_find_split in E as (l1 & l2 & -> & _ & Hl1 & Hx).
    rewrite !addLine_at by done. cbn.
    do 2 f_equal. unfold set_quantity. cbn. f_equal. lia.
  - assert (¬ has_product (productId item) its) as Hn.
    { apply findIndex_None. unfold findIndex. by rewrite E. }
    apply list_find_None in E.
    unfold addLine at 2 3. cbn [productId set_quantity].
    rewrite (proj2 (findIndex_None _ _) Hn).
    rewrite (addLine_at its [] (set_quantity item q1) (set_quantity item q2)) by done.
    done.
Qed.

(** X6. Adding the same item twice, with quantities q1 and then q2, gives
    the same cart and the same collection as adding it once with the
    quantity q1 + q2: additions of one product accumulate in one line. *)
Theorem addItem_twice_accumulates (carts : list Cart) (cartId : string)
    (cart : Cart) (item : CartItem) (q1 q2 : Z) :
  findById carts cartId = Some cart →
  addItem (snd (addItem carts cartId (set_quantity item q1))) cartId (set_quantity item q2)
  = addItem carts cartId (set_quantity item (q1 + q2)).
Proof.
  intros Hf. pose proof (findById_id _ _ _ Hf) as Hid.
  unfold addItem at 2. rewrite Hf. cbn [snd].
  set (c1 := recalculate (set_items cart (addLine (items cart) (set_quantity item q1)))).
  assert (findById (save c1 carts) cartId = Some c1) as Hf1 by (by eapply findById_save).
  unfold addItem. rewrite Hf1, Hf. cbn zeta.
  assert (recalculate (set_items c1 (addLine (items c1) (set_quantity item q2)))
          = recalculate
              (set_items cart (addLine (items cart) (set_quantity item (q1 + q2)))))
    as ->.
  { unfold c1. rewrite CartRepositoryProperties.set_items_recalculate.
    cbn [items recalculate set_items set_totals]. by rewrite addLine_twice. }
  f_equal. by apply CartRepositoryProperties.save_save.
Qed.

Lemma addItem_twice_accumulates_witness :
  let cart := mkCart "c1" None [mkCartItem "p1" "Pen" 10 2 "t" 0] 20 2 true in
  let item := mkCartItem "p2" "Ink" 5 0 "t" 9 in
  addItem (snd (addItem [cart] "c1" (set_quantity item 1))) "c1" (set_quantity item 2)
  = addItem [cart] "c1" (set_quantity item (1 + 2)).
Proof.
  intros cart item.
  apply (addItem_twice_accumulates [cart] "c1" cart item 1 2). reflexivity.
Defined.

End CartCompositionProperties.

(** ** Further properties of the guest-cart merge *)

Module CartMergeExtraProperties.
Import CartModel CartRepository CartFacts CartProperties.

(** The shape of the merged lines: the lines of the current list, in
    place and changed at most in their quantity, followed by lines taken
    from the guest for products the current list did not have. *)
Lemma merge_loop_shape (guestItems cur : list CartItem) :
  ∃ kept added,
    fold_left addLine guestItems cur = kept ++ added ∧
    (λ it, set_quantity it 0) <$> kept = (λ it, set_quantity it 0) <$> cur ∧
    Forall (λ line, ¬ has_product (productId line) cur ∧
                    ∃ g, g ∈ guestItems ∧ set_quantity g 0 = set_quantity line 0) added.
Proof.
  revert cur. induction guestItems as [|g gs IH]; intros cur.
  - exists cur, []. cbn. by rewrite app_nil_r.
  - cbn [fold_left].
    destruct (IH (addLine cur g)) as (kept & added & Hfold & Hkept & Hadded).
    destruct (CartMergeProperties.addLine_cases cur g)
      as [(l1 & x & l2 & -> & Hpid & Hadd)|[Hn Hadd]].
    + exists kept, added. split_and!; [done| |].
      * rewrite Hkept, Hadd, !fmap_app, !fmap_cons. done.
      * eapply Forall_impl; [exact Hadded|]. intros line [Hno (g' & Hg' & Hs)]. split.
        -- intros Hin. apply Hno. unfold has_product in *.
           rewrite Hadd. by rewrite !fmap_app, !fmap_cons in *.
        -- exists g'. split; [by apply list_elem_of_further|done].
    + rewrite Hadd, fmap_app in Hkept.
      apply fmap_app_inv in Hkept as (k1 & k2 & Hk1 & Hk2 & ->).
      symmetry in Hk2. apply fmap_cons_inv in Hk2 as (y & k2' & Hy & Hnil & ->).
      symmetry in Hnil. apply fmap_nil_inv in Hnil as ->.
      exists k1, (y :: added). split_and!.
      * by rewrite Hfold, <- app_assoc.
      * done.
      * apply Forall_cons. split.
        -- split.
           ++ assert (productId y = productId g) as ->; [|done].
              by apply (f_equal productId) in Hy.
           ++ exists g. split; [apply list_elem_of_here|done].
        -- eapply Forall_impl; [exact Hadded|]. intros line [Hno (g' & Hg' & Hs)]. split.
           ++ intros Hin. apply Hno. rewrite Hadd. unfold has_product in *.
              rewrite fmap_app. apply elem_of_app. by left.
           ++ exists g'. split; [by apply list_elem_of_further|done].
Qed.

(** X7. When a guest cart is merged into the user's cart, the user's
    lines stay where they were with their own title, price, thumbnail and
    date (only quantities may grow), and every line added after them is a
    guest line, with the guest's snapshot, for a product the user's cart
    did not have. *)
Theorem mergeGuestCart_keeps_user_lines (carts : list Cart) (guestCartId uid : string)
    (guestCart userCart : Cart) :
  findById carts guestCartId = Some guestCart →
  findByUserId carts uid = Some userCart →
  ∃ merged carts' kept added,
    mergeGuestCart carts guestCartId uid = (Some merged, carts') ∧
    items merged = kept ++ added ∧
    (λ it, set_quantity it 0) <$> kept = (λ it, set_quantity it 0) <$> items userCart ∧
    Forall (λ line, ¬ has_product (productId line) (items userCart) ∧
                    ∃ g, g ∈ items guestCart ∧ set_quantity g 0 = set_quantity line 0)
      added.
Proof.
  intros Hg Hu. unfold mergeGuestCart. rewrite Hg, Hu.
  destruct (merge_loop_shape (items guestCart) (items userCart))
    as (kept & added & Hfold & Hkept & Hadded).
  eexists _, _, kept, added. split; [reflexivity|]. by split_and!.
Qed.

Lemma mergeGuestCart_keeps_user_lines_witness :
  let guest := mkCart "g1" None
                 [mkCartItem "p1" "Pen (old)" 9 1 "g" 5; mkCartItem "p3" "Cap" 7 2 "t" 6]
                 23 3 true in
  let mine := mkCart "c1" (Some "u1") [mkCartItem "p1" "Pen" 10 2 "t" 0] 20 2 true in
  ∃ merged carts' kept added,
    mergeGuestCart [mine; guest] "g1" "u1" = (Some merged, carts') ∧
    items merged = kept ++ added ∧
    (λ it, set_quantity it 0) <$> kept = (λ it, set_quantity it 0) <$> items mine ∧
    Forall (λ line, ¬ has_product (productId line) (items mine) ∧
                    ∃ g, g ∈ items guest ∧ set_quantity g 0 = set_quantity line 0)
      added.
Proof.
  intros guest mine.
  apply (mergeGuestCart_keeps_user_lines [mine; guest] "g1" "u1" guest mine); reflexivity.
Defined.

(** With distinct identifiers, saving a document rewrites the one stored
    under its identifier and nothing else. *)
Lemma Forall_save_distinct (P : Cart → Prop) (carts : list Cart) (c0 c : Cart) :
  NoDup (_id <$> carts) → c0 ∈ carts → _id c = _id c0 →
  P c → (∀ d, d ∈ carts → d ≠ c0 → P d) →
  Forall P (save c carts).
Proof.
  intros Hnd Hin Hid Hc Hrest.
  unfold save, Collection.findOneAndUpdate.
  destruct (list_find (λ d, _id d = _id c) carts) as [[i d]|] eqn:E; cbn.
  - apply list_find_Some in E as (Hl & Hd & _).
    apply Forall_lookup. intros j x Hj.
    destruct (decide (i = j)) as [<-|Hne].
    + rewrite list_lookup_insert_eq in Hj by (by eapply lookup_lt_Some).
      by injection Hj as <-.
    + rewrite list_lookup_insert_ne in Hj by done.
      apply Hrest; [by eapply list_elem_of_lookup_2|]. intros ->.
      apply Hne. eapply NoDup_lookup; [exact Hnd| |]; rewrite list_lookup_fmap.
      * by rewrite Hl.
      * rewrite Hj. cbn. congruence.
  - apply list_find_None in E. rewrite Forall_forall in E.
    exfalso. by apply (E c0 Hin).
Qed.

(** X8. If the cart named by the guest cookie is the user's own active
    cart (a replayed cookie after an earlier merge), the merge adds the
    cart to itself and then deactivates it: every quantity is doubled, the
    cart is stored inactive, and, when it was the user's only active
    cart, the user is left without an active cart. *)
Theorem mergeGuestCart_own_cart (carts : list Cart) (uid : string) (userCart : Cart) :
  NoDup (_id <$> carts) →
  findByUserId carts uid = Some userCart →
  (∀ c, c ∈ carts → userId c = Some uid → isActive c = true → c = userCart) →
  ∃ merged carts',
    mergeGuestCart carts (_id userCart) uid = (Some merged, carts') ∧
    (∀ pid, qty_of pid (items merged) = 2 * qty_of pid (items userCart)) ∧
    findById carts' (_id userCart) = Some (set_isActive merged false) ∧
    findByUserId carts' uid = None.
Proof.
  intros Hnd Hu Honly.
  pose proof (CollectionFacts.findOne_Some_elem _ _ _ Hu) as [Hin _].
  pose proof (findById_of_elem carts userCart Hnd Hin) as Hf.
  unfold mergeGuestCart. rewrite Hf, Hu.
  set (merged := recalculate
         (set_items userCart (fold_left addLine (items userCart) (items userCart)))).
  assert (findById (save merged carts) (_id userCart) = Some merged) as Hsaved
    by (by eapply findById_save).
  destruct (CartMergeProperties.findOneAndUpdate_by_id (save merged carts) (_id userCart)
              (λ c, set_isActive c false) merged Hsaved) as (carts' & Hupd & Hfound);
    [done|].
  exists merged, carts'. unfold deactivateCart. rewrite Hupd. cbn [snd].
  split_and!; [done| |done|].
  - intros pid. unfold merged. cbn [items recalculate set_items set_totals].
    rewrite CartMergeProperties.merge_loop_qty_of. lia.
  - assert (carts' = save (set_isActive merged false) carts) as ->.
    { rewrite <- (CartRepositoryProperties.save_save carts merged) by done.
      unfold save at 1.
      unfold findById, Collection.findOne in Hsaved.
      unfold Collection.findOneAndUpdate in *. cbn [_id set_isActive merged recalculate
        set_totals set_items] in *.
      destruct (list_find (λ d, _id d = _id userCart) (save merged carts))
        as [[i d]|]; [|done].
      cbn in Hsaved. injection Hsaved as ->. by injection Hupd as <-. }
    apply CollectionFacts.findOne_None.
    apply (Forall_save_distinct _ carts userCart); [done..| |].
    + cbn. by intros [_ ?].
    + intros d Hd Hne [Hu' Ha]. by apply Hne, Honly.
Qed.

Lemma mergeGuestCart_own_cart_witness :
  let mine := mkCart "c1" (Some "u1") [mkCartItem "p1" "Pen" 10 2 "t" 0] 20 2 true in
  ∃ merged carts',
    mergeGuestCart [mine] (_id mine) "u1" = (Some merged, carts') ∧
    (∀ pid, qty_of pid (items merged) = 2 * qty_of pid (items mine)) ∧
    findById carts' (_id mine) = Some (set_isActive merged false) ∧
    findByUserId carts' "u1" = None.
Proof.
  intros mine.
  apply (mergeGuestCart_own_cart [mine] "u1" mine).
  - cbn. apply NoDup_singleton.
  - reflexivity.
  - by intros c ->%list_elem_of_singleton _ _.
Defined.

End CartMergeExtraProperties.

(** ** Further properties of the cart endpoints *)

Module CartControllerProperties.
Import CartModel CartRepository CartFacts CartProperties.

Lemma truthy_nonempty (s : string) : s ≠ EmptyString → Js.truthy (Some s) = true.
Proof.
  intros Hs. unfold Js.truthy, Js.nonempty. rewrite decide_False by done.
  apply bool_decide_eq_true_2. by eexists.
Qed.

(** With distinct identifiers and a fresh one for a new document, the
    cart a request resolves to is the one stored under its identifier. *)
Lemma getOrCreateCart_stored (newId : string) (carts : list Cart)
    (uid guestId : option string) :
  NoDup (_id <$> carts) → newId ∉ (_id <$> carts) →
  findById (snd (getOrCreateCart newId carts uid guestId))
    (_id (fst (getOrCreateCart newId carts uid guestId)))
  = Some (fst (getOrCreateCart newId carts uid guestId)).
Proof.
  intros Hnd Hfresh.
  pose proof (CartUpdateProperties.getOrCreateCart_cases newId carts uid guestId) as Hc.
  destruct (getOrCreateCart newId carts uid guestId) as [cart carts1]. cbn [fst snd].
  destruct Hc as [[Hin ->]|[-> ->]]; apply findById_of_elem; try done.
  - rewrite fmap_app. apply NoDup_app. split_and!; [done| |apply NoDup_singleton].
    intros x Hx. cbn. by intros ->%list_elem_of_singleton.
  - apply elem_of_app. right. apply list_elem_of_here.
Qed.

(** X9. Adding to the cart through the HTTP interface does not look at
    the stock: for an existing product and a positive quantity the answer
    is 200, the quantity held for the product grows by the requested
    quantity, the quantities of the other products are unchanged, and the
    stored cart has totals that agree with its lines. *)
Theorem addToCart_adds_whatever_the_stock (newId : string) (now : Z)
    (carts : list Cart) (products : list ProductModel.Product)
    (req : CartController.Request) (product : ProductModel.Product) (q : Z) :
  default 1 (CartController.quantity req) = q →
  0 < q →
  CartController.productId req ≠ EmptyString →
  ProductRepository.findById products (CartController.productId req) = Some product →
  NoDup (_id <$> carts) →
  newId ∉ (_id <$> carts) →
  ∃ c carts',
    CartController.addToCart newId now carts products req
    = (Http.ok 200 (Some c) "Item added to cart successfully", carts') ∧
    findById carts' (_id (fst (CartController.getOrCreateCart newId carts req))) = Some c ∧
    qty_of (CartController.productId req) (items c)
    = qty_of (CartController.productId req)
        (items (fst (CartController.getOrCreateCart newId carts req))) + q ∧
    (∀ p, p ≠ CartController.productId req →
          qty_of p (items c)
          = qty_of p (items (fst (CartController.getOrCreateCart newId carts req)))) ∧
    totals_ok c.
Proof.
  intros Hq Hpos Hpid Hprod Hnd Hfresh.
  pose proof (CollectionFacts.findOne_Some_elem _ _ _ Hprod) as [_ Hprodid].
  unfold CartController.addToCart. rewrite Hq, truthy_nonempty by done.
  rewrite bool_decide_eq_false_2 by lia. cbn [negb orb]. rewrite Hprod.
  unfold CartController.getOrCreateCart.
  pose proof (getOrCreateCart_stored newId carts (CartController.user req)
                (CartController.guest_id req) Hnd Hfresh) as Hstored.
  destruct (getOrCreateCart newId carts (CartController.user req)
              (CartController.guest_id req)) as [cart carts1].
  cbn [fst snd] in *.
  unfold addItem. rewrite Hstored. cbn zeta.
  eexists _, _. split; [reflexivity|]. split_and!.
  - by eapply findById_save.
  - cbn [items recalculate set_items set_totals].
    rewrite CartMergeProperties.addLine_qty_of. cbn. by rewrite decide_True.
  - intros p Hne. cbn [items recalculate set_items set_totals].
    rewrite CartMergeProperties.addLine_qty_of. cbn.
    rewrite decide_False by congruence. lia.
  - apply recalculate_totals_ok.
Qed.

Lemma addToCart_adds_whatever_the_stock_witness :
  let cart := mkCart "c1" (Some "u1") [mkCartItem "p1" "Pen" 10 2 "t" 0] 20 2 true in
  let product := ProductModel.mkProduct "p1" "Pen" 10 1 "t" in
  let req := CartController.mkRequest (Some "u1"%string) None "p1" (Some 5) in
  ∃ c carts',
    CartController.addToCart "c2" 7 [cart] [product] req
    = (Http.ok 200 (Some c) "Item added to cart successfully", carts') ∧
    findById carts' (_id (fst (CartController.getOrCreateCart "c2" [cart] req))) = Some c ∧
    qty_of (CartController.productId req) (items c)
    = qty_of (CartController.productId req)
        (items (fst (CartController.getOrCreateCart "c2" [cart] req))) + 5 ∧
    (∀ p, p ≠ CartController.productId req →
          qty_of p (items c)
          = qty_of p (items (fst (CartController.getOrCreateCart "c2" [cart] req)))) ∧
    totals_ok c.
Proof.
  intros cart product req.
  apply (addToCart_adds_whatever_the_stock "c2" 7 [cart] [product] req product 5).
  - reflexivity.
  - lia.
  - done.
  - reflexivity.
  - cbn. apply NoDup_singleton.
  - cbn. by intros ?%list_elem_of_singleton.
Defined.

Lemma list_find_created (newId : string) (carts : list Cart) (c : Cart) :
  newId ∉ (_id <$> carts) → _id c = newId →
  list_find (λ d, _id d = newId) (carts ++ [c]) = Some (length carts, c).
Proof.
  intros Hfresh Hid. apply list_find_Some. split_and!.
  - by rewrite list_lookup_middle.
  - done.
  - intros j y Hj Hlt. rewrite lookup_app_l in Hj by done.
    intros Hy. apply Hfresh. rewrite <- Hy.
    apply list_elem_of_fmap_2. by eapply list_elem_of_lookup_2.
Qed.

Lemma findById_created (newId : string) (carts : list Cart) (c : Cart) :
  newId ∉ (_id <$> carts) → _id c = newId →
  findById (carts ++ [c]) newId = Some c.
Proof.
  intros Hfresh Hid. unfold findById, Collection.findOne.
  by rewrite (list_find_created newId carts c).
Qed.

Lemma save_created (newId : string) (carts : list Cart) (c c' : Cart) :
  newId ∉ (_id <$> carts) → _id c = newId → _id c' = newId →
  save c' (carts ++ [c]) = carts ++ [c'].
Proof.
  intros Hfresh Hid Hid'. unfold save, Collection.findOneAndUpdate. rewrite Hid'.
  rewrite (list_find_created newId carts c) by done. cbn.
  by rewrite (insert_app_r_alt carts [c] (length carts) c'), Nat.sub_diag by lia.
Qed.

(** X10. A caller without a user and without a guest cookie gets a new
    cart on every add: the cart is created, holds only the added line, and
    is appended to the collection. *)
Theorem addToCart_without_identity_creates_cart (newId : string) (now : Z)
    (carts : list Cart) (products : list ProductModel.Product)
    (req : CartController.Request) (product : ProductModel.Product) (q : Z) :
  Js.nonempty (CartController.user req) = None →
  Js.nonempty (CartController.guest_id req) = None →
  default 1 (CartController.quantity req) = q →
  0 < q →
  CartController.productId req ≠ EmptyString →
  ProductRepository.findById products (CartController.productId req) = Some product →
  newId ∉ (_id <$> carts) →
  CartController.addToCart newId now carts products req
  = (Http.ok 200
       (Some (mkCart newId None
                [mkCartItem (ProductModel._id product) (ProductModel.title product)
                   (ProductModel.price product) q (ProductModel.thumbnail product) now]
                (ProductModel.price product * q) q true))
       "Item added to cart successfully",
     carts ++ [mkCart newId None
                 [mkCartItem (ProductModel._id product) (ProductModel.title product)
                    (ProductModel.price product) q (ProductModel.thumbnail product) now]
                 (ProductModel.price product * q) q true]).
Proof.
  intros Hu Hg Hq Hpos Hpid Hprod Hfresh.
  unfold CartController.addToCart. rewrite Hq, truthy_nonempty by done.
  rewrite bool_decide_eq_false_2 by lia. cbn [negb orb]. rewrite Hprod.
  unfold CartController.getOrCreateCart, getOrCreateCart. rewrite Hu, Hg.
  unfold create. cbn [_id].
  unfold addItem. rewrite (findById_created newId carts) by done.
  cbn zeta. rewrite (save_created newId carts) by done.
  unfold recalculate, set_totals, set_items, addLine, findIndex. cbn.
  do 4 f_equal; lia.
Qed.

Lemma addToCart_without_identity_creates_cart_witness :
  let product := ProductModel.mkProduct "p1" "Pen" 10 1 "t" in
  let req := CartController.mkRequest None None "p1" None in
  CartController.addToCart "c2" 7 [] [product] req
  = (Http.ok 200
       (Some (mkCart "c2" None
                [mkCartItem (ProductModel._id product) (ProductModel.title product)
                   (ProductModel.price product) 1 (ProductModel.thumbnail product) 7]
                (ProductModel.price product * 1) 1 true))
       "Item added to cart successfully",
     [] ++ [mkCart "c2" None
              [mkCartItem (ProductModel._id product) (ProductModel.title product)
                 (ProductModel.price product) 1 (ProductModel.thumbnail product) 7]
              (ProductModel.price product * 1) 1 true]).
Proof.
  intros product req.
  apply (addToCart_without_identity_creates_cart "c2" 7 [] [product] req product 1).
  - reflexivity.
  - reflexivity.
  - reflexivity.
  - lia.
  - done.
  - reflexivity.
  - cbn. apply not_elem_of_nil.
Defined.



Lemma validateLine_available (products : list ProductModel.Product) (item : CartItem) :
  CartController.available (CartController.validateLine products item) = true
  ↔ OrderController.line_in_stock products item.
Proof.
  unfold CartController.validateLine, OrderController.line_in_stock.
  destruct (ProductRepository.findById products (productId item)) as [p|].
  - destruct (decide (ProductModel.stock p < quantity item)); cbn.
    + split; [done|]. intros (p' & [= <-] & Hle). lia.
    + split; [|done]. intros _. exists p. split; [done|lia].
  - cbn. split; [done|]. by intros (p' & Hp' & _).
Qed.

Lemma validateLines_available (products : list ProductModel.Product)
    (its : list CartItem) :
  forallb CartController.available (CartController.validateLine products <$> its) = true
  ↔ Forall (OrderController.line_in_stock products) its.
Proof.
  induction its as [|x l IH]; cbn.
  - split; [constructor|done].
  - rewrite andb_true_iff, Forall_cons, IH. by rewrite validateLine_available.
Qed.

(** X12. The cart validation endpoint and the checkout agree: it reports
    allItemsAvailable exactly when the stock check of the checkout would
    pass on the same cart lines, and it reports one result per cart line,
    in order. *)
Theorem validateCart_agrees_with_checkout (newId : string) (carts : list Cart)
    (products : list ProductModel.Product) (req : CartController.Request) :
  let cart := fst (CartController.getOrCreateCart newId carts req) in
  let resp := fst (CartController.validateCart newId carts products req) in
  (CartController.allItemsAvailable resp = true
   ↔ ∃ r, OrderController.validateItems products (items cart) [] 0 0 = inr r) ∧
  CartController.result_productId <$> CartController.validationResults resp
  = productId <$> items cart ∧
  CartController.validate_status resp = 200.
Proof.
  intros cart resp. subst cart resp. unfold CartController.validateCart.
  destruct (CartController.getOrCreateCart newId carts req) as [cart carts1].
  cbn [fst snd CartController.allItemsAvailable CartController.validationResults
       CartController.validate_status].
  split_and!; [| |done].
  - pose proof (OrderProperties.validateItems_decides products (items cart) [] 0 0) as Hv.
    rewrite validateLines_available.
    destruct (OrderController.validateItems products (items cart) [] 0 0) as [msg|r].
    + split; [done|]. by intros [r [=]].
    + split; [by eexists|done].
  - rewrite <- list_fmap_compose. apply list_fmap_ext. intros i x _. cbn.
    unfold CartController.validateLine.
    destruct (ProductRepository.findById products (productId x)) as [p|]; [|done].
    by destruct (decide (ProductModel.stock p < quantity x)).
Qed.

(** X13. First visit of a guest: the cart endpoint creates an empty cart
    and sets the guest cookie to the identifier of that cart, and a later
    request that carries the cookie (and no user) resolves to that same
    cart without creating another one. *)
Theorem getCart_issues_cookie_for_new_cart (newId newId' : string) (carts : list Cart)
    (req req' : CartController.Request) :
  Js.nonempty (CartController.user req) = None →
  Js.nonempty (CartController.guest_id req) = None →
  newId ≠ EmptyString →
  newId ∉ (_id <$> carts) →
  Js.nonempty (CartController.user req') = None →
  CartController.guest_id req' = Some newId →
  ∃ cart carts1,
    CartController.getCart newId carts req
    = (Http.ok 200 (Some cart) "Cart retrieved successfully", carts1, Some newId) ∧
    items cart = [] ∧
    carts1 = carts ++ [cart] ∧
    CartController.getOrCreateCart newId' carts1 req' = (cart, carts1).
Proof.
  intros Hu Hg Hne Hfresh Hu' Hg'.
  unfold CartController.getCart. rewrite Hu, Hg. unfold create. cbn [_id].
  eexists _, _. split; [reflexivity|]. split_and!; [done..|].
  unfold CartController.getOrCreateCart, getOrCreateCart. rewrite Hu', Hg'.
  unfold Js.nonempty. rewrite decide_False by done.
  by rewrite (findById_created newId carts).
Qed.

Lemma getCart_issues_cookie_for_new_cart_witness :
  let req := CartController.mkRequest None None "p1" None in
  let req' := CartController.mkRequest None (Some "c9"%string) "p1" None in
  ∃ cart carts1,
    CartController.getCart "c9" [] req
    = (Http.ok 200 (Some cart) "Cart retrieved successfully", carts1, Some "c9"%string) ∧
    items cart = [] ∧
    carts1 = [] ++ [cart] ∧
    CartController.getOrCreateCart "c10" carts1 req' = (cart, carts1).
Proof.
  intros req req'.
  apply (getCart_issues_cookie_for_new_cart "c9" "c10" [] req req').
  - reflexivity.
  - reflexivity.
  - done.
  - cbn. apply not_elem_of_nil.
  - reflexivity.
  - reflexivity.
Defined.

End CartControllerProperties.

(** ** Pagination of the order lists *)

Module PaginationProperties.
Import OrderModel OrderController.

(** For a non-negative start, [slice] is [take] after [drop]. *)
Lemma slice_take_drop {A} (l : list A) (start n : Z) :
  0 ≤ start → 0 ≤ n →
  Js.slice l start (start + n) = take (Z.to_nat n) (drop (Z.to_nat start) l).
Proof.
  intros Hs Hn. unfold Js.slice.
  rewrite !decide_False by lia.
  destruct (decide (Z.of_nat (length l) ≤ start)) as [Hge|Hlt].
  - rewrite !Z.min_r by lia. rewrite Z.sub_diag. cbn [Z.to_nat take].
    rewrite (drop_ge l (Z.to_nat start)) by lia. by rewrite take_nil.
  - rewrite (Z.min_l start) by lia.
    destruct (decide (start + n ≤ Z.of_nat (length l))) as [Hfit|Hover].
    + rewrite Z.min_l by lia. f_equal. lia.
    + rewrite Z.min_r by lia.
      rewrite !take_ge; [done| |]; rewrite length_drop; lia.
Qed.





(** X15. The list of a user's orders is built from the 10 newest active
    orders of that user at most, whatever page size is asked for.  The
    repository returns the user's active orders newest first, cut after
    10; the page is a run of consecutive orders of that list, in the same
    order, and it is the whole list for page 1 with a page size of 10 or
    more (the defaults).  The reported total is the number of the user's
    active orders capped at 10, and every order on the page is an active
    order of the caller. *)
Theorem getUserOrders_lists_ten_newest_at_most (orders : list Order)
    (user : option string) (queryPage queryLimit : option Z) (uid : string) :
  Js.nonempty user = Some uid →
  let newest :=
    take 10 (reverse (filter (λ o, userId o = uid ∧ isActive o = true) orders)) in
  ∃ data p,
    getUserOrders orders user queryPage queryLimit
    = mkPageResponse 200 true data (Some p) "Orders retrieved successfully" ∧
    totalRecords p
    = Z.min 10 (Z.of_nat (length (filter (λ o, userId o = uid ∧ isActive o = true) orders))) ∧
    (length data ≤ 10)%nat ∧
    Forall (λ o, userId o = uid ∧ isActive o = true ∧ o ∈ orders) data ∧
    (∃ before after, newest = before ++ data ++ after) ∧
    (Js.or_default queryPage 1 = 1 → 10 ≤ Js.or_default queryLimit 10 → data = newest).
Proof.
  intros Hu newest. unfold getUserOrders. rewrite Hu. cbn zeta.
  set (allOrders := OrderRepository.findByUserId orders uid 10 0).
  assert (allOrders = newest) as Hnewest.
  { unfold allOrders, OrderRepository.findByUserId, Collection.findNewestFirst.
    by rewrite drop_0. }
  assert (length allOrders
          = (length (filter (λ o, userId o = uid ∧ isActive o = true) orders) `min` 10)%nat)
    as Hlen.
  { rewrite Hnewest. unfold newest. rewrite length_take, length_reverse. lia. }
  assert (Forall (λ o, userId o = uid ∧ isActive o = true ∧ o ∈ orders) allOrders) as Hall.
  { rewrite Hnewest. unfold newest. apply Forall_forall. intros o Ho.
    assert (o ∈ reverse (filter (λ o, userId o = uid ∧ isActive o = true) orders)) as Hin.
    { eapply elem_of_sublist; [exact Ho|apply sublist_take]. }
    apply elem_of_reverse, list_elem_of_filter in Hin as [[? ?] ?]. done. }
  unfold paginate. eexists _, _. split; [reflexivity|]. cbn [totalRecords].
  set (page := Js.or_default queryPage 1).
  set (limit := Js.or_default queryLimit 10).
  assert (∃ before after,
            allOrders
            = before ++ Js.slice allOrders ((page - 1) * limit) ((page - 1) * limit + limit)
                ++ after) as Hrun.
  { unfold Js.slice.
    match goal with
    | |- context [take ?n (drop ?k allOrders)] =>
        exists (take k allOrders), (drop n (drop k allOrders))
    end.
    by rewrite take_drop, take_drop. }
  assert (sublist (Js.slice allOrders ((page - 1) * limit) ((page - 1) * limit + limit))
            allOrders) as Hsub.
  { unfold Js.slice. etrans; [apply sublist_take|apply sublist_drop]. }
  split_and!.
  - lia.
  - apply sublist_length in Hsub. lia.
  - eapply Forall_forall. intros o Ho. rewrite Forall_forall in Hall. apply Hall.
    by eapply elem_of_sublist.
  - by rewrite <- Hnewest.
  - intros Hpage Hlimit. rewrite <- Hnewest, Hpage.
    replace ((1 - 1) * limit) with 0 by lia.
    rewrite slice_take_drop by lia. rewrite drop_0. apply take_ge. lia.
Qed.

Lemma getUserOrders_lists_ten_newest_at_most_witness :
  let addr := mkShippingAddress "1 Main St" "Springfield" "IL" "62701" "US" false in
  let older := mkOrder "o1" "u1" [mkOrderItem "p1" "Pen" 10 2 "t"] 20 2 addr
                 PaymentMethod.COD PaymentStatus.PENDING OrderStatus.PENDING
                 None None "ORD1" true in
  let newer := mkOrder "o2" "u1" [mkOrderItem "p2" "Ink" 5 1 "t"] 5 1 addr
                 PaymentMethod.COD PaymentStatus.PENDING OrderStatus.PENDING
                 None None "ORD2" true in
  let orders := [older; newer] in
  let newest :=
    take 10 (reverse (filter (λ o, userId o = "u1"%string ∧ isActive o = true) orders)) in
  ∃ data p,
    getUserOrders orders (Some "u1"%string) None (Some 50)
    = mkPageResponse 200 true data (Some p) "Orders retrieved successfully" ∧
    totalRecords p
    = Z.min 10 (Z.of_nat (length (filter (λ o, userId o = "u1"%string ∧ isActive o = true)
                                    orders))) ∧
    (length data ≤ 10)%nat ∧
    Forall (λ o, userId o = "u1"%string ∧ isActive o = true ∧ o ∈ orders) data ∧
    (∃ before after, newest = before ++ data ++ after) ∧
    (Js.or_default None 1 = 1 → 10 ≤ Js.or_default (Some 50) 10 → data = newest).
Proof.
  intros addr older newer orders.
  apply (getUserOrders_lists_ten_newest_at_most orders (Some "u1"%string) None
           (Some 50) "u1").
  reflexivity.
Defined.

End PaginationProperties.

(** ** Further properties of checkout, cancellation and order lookups *)

Module OrderControllerProperties.
Import OrderModel OrderController.

(** X16. The checkout answers with one of 201, 400, 401 and 500.  With
    400 or 401 nothing is stored: carts and orders are left as they were
    and no order is returned.  With 500 (the gateway failed) the carts are
    left as they were and exactly one order has been added. *)
Theorem createOrder_rejections_change_nothing (gw : Stripe.Gateway)
    (newId newNumber : string) (carts : list CartModel.Cart)
    (products : list ProductModel.Product) (orders : list Order)
    (req : CreateOrderRequest) :
  let '(resp, carts', orders') :=
    createOrder gw newId newNumber carts products orders req in
  (status resp = 201 ∨ status resp = 400 ∨ status resp = 401 ∨ status resp = 500) ∧
  (status resp = 400 ∨ status resp = 401 →
     carts' = carts ∧ orders' = orders ∧ data resp = None) ∧
  (status resp = 500 →
     carts' = carts ∧ length orders' = S (length orders) ∧ data resp = None).
Proof.
  unfold createOrder, reject, OrderRepository.create, OrderRepository.deactivateOrder,
    OrderRepository.updateSessionId.
  repeat case_match; simplify_eq; cbn [status data];
    (split_and!; [lia|intros [?|?]; (done || lia)|intros ?; try lia]).
  all: split_and!; try done.
  all: match goal with
       | H : Collection.findOneAndUpdate ?P ?f ?s = (_, ?s') |- length ?s' = _ =>
           replace s' with (snd (Collection.findOneAndUpdate P f s)) by (by rewrite H);
           unfold Collection.findOneAndUpdate; case_match;
           [case_match; cbn; rewrite length_insert|cbn]; rewrite length_app; cbn; lia
       end.
Qed.

(** What the loop of the checkout returns: the lines it was given, then
    one snapshot per cart line, with the totals of what was added. *)
Lemma validateItems_snapshot (products : list ProductModel.Product)
    (cartItems : list CartModel.CartItem) (acc : list OrderItem) (amount n : Z)
    (orderItems : list OrderItem) (amount' n' : Z) :
  validateItems products cartItems acc amount n = inr (orderItems, amount', n') →
  ∃ new,
    orderItems = acc ++ new ∧
    Forall2 (snapshot_of products) cartItems new ∧
    amount' = amount + Js.sumZ ((λ oi, price oi * quantity oi) <$> new) ∧
    n' = n + Js.sumZ (quantity <$> new).
Proof.
  revert acc amount n. induction cartItems as [|x rest IH]; intros acc amount n.
  - cbn. intros [= <- <- <-]. exists []. rewrite app_nil_r.
    split_and!; [done|constructor|cbn; lia|cbn; lia].
  - cbn [validateItems].
    destruct (ProductRepository.findById products (CartModel.productId x))
      as [p|] eqn:Hp; [|done].
    destruct (decide (ProductModel.stock p < CartModel.quantity x)); [done|].
    intros (new & -> & Hall & -> & ->)%IH.
    eexists (_ :: new). rewrite <- app_assoc. split_and!.
    + done.
    + constructor; [|done]. by exists p.
    + rewrite fmap_cons, JsFacts.sumZ_cons. cbn. lia.
    + rewrite fmap_cons, JsFacts.sumZ_cons. cbn. lia.
Qed.

Lemma order_find_created (newId : string) (orders : list Order) (o : Order) :
  newId ∉ (_id <$> orders) → _id o = newId →
  list_find (λ d, _id d = newId) (orders ++ [o]) = Some (length orders, o).
Proof.
  intros Hfresh Hid. apply list_find_Some. split_and!.
  - by rewrite list_lookup_middle.
  - done.
  - intros j y Hj Hlt. rewrite lookup_app_l in Hj by done.
    intros Hy. apply Hfresh. rewrite <- Hy.
    apply list_elem_of_fmap_2. by eapply list_elem_of_lookup_2.
Qed.

(** An update by identifier of the order that was just created. *)
Lemma order_update_created (newId : string) (orders : list Order) (o : Order)
    (upd : Order → Order) :
  newId ∉ (_id <$> orders) → _id o = newId →
  Collection.findOneAndUpdate (λ d, _id d = newId) upd (orders ++ [o])
  = (Some (upd o), orders ++ [upd o]).
Proof.
  intros Hfresh Hid. unfold Collection.findOneAndUpdate.
  rewrite (order_find_created newId orders o) by done.
  by rewrite (insert_app_r_alt orders [o] (length orders)), Nat.sub_diag by lia.
Qed.

(** X17. A successful checkout (201) returns and stores an order owned
    by the caller, PENDING on both axes, whose lines are the snapshots of
    the cart lines, in order: the quantity of the cart line with the
    title, price and thumbnail the catalog has at that moment, not those
    kept in the cart.  Its totals agree with its lines, and an ONLINE
    order carries the session id. *)
Theorem createOrder_snapshots_catalog (gw : Stripe.Gateway)
    (newId newNumber : string) (carts : list CartModel.Cart)
    (products : list ProductModel.Product) (orders : list Order)
    (req : CreateOrderRequest) (uid : string) (cart : CartModel.Cart)
    (resp : CreateOrderResponse) (carts' : list CartModel.Cart) (orders' : list Order) :
  Js.nonempty (user req) = Some uid →
  CartRepository.findByUserId carts uid = Some cart →
  newId ∉ (_id <$> orders) →
  createOrder gw newId newNumber carts products orders req = (resp, carts', orders') →
  status resp = 201 →
  ∃ order,
    data resp = Some order ∧
    orders' = orders ++ [order] ∧
    _id order = newId ∧ orderNumber order = newNumber ∧ userId order = uid ∧
    Forall2 (snapshot_of products) (CartModel.items cart) (items order) ∧
    totalAmount order = Js.sumZ ((λ oi, price oi * quantity oi) <$> items order) ∧
    totalItems order = Js.sumZ (quantity <$> items order) ∧
    orderStatus order = OrderStatus.PENDING ∧
    paymentStatus order = PaymentStatus.PENDING ∧
    isActive order = true ∧
    (paymentMethod order = PaymentMethod.ONLINE → is_Some (sessionId order)).
Proof.
  intros Hu Hc Hfresh. unfold createOrder. rewrite Hu.
  destruct (body_shippingAddress req) as [addr|]; [|by intros [= <- <- <-] ?].
  destruct (Js.nonempty (body_paymentMethod req)) as [pmStr|];
    [|by intros [= <- <- <-] ?].
  destruct (PaymentMethod.parse pmStr) as [pm|]; [|by intros [= <- <- <-] ?].
  destruct pm, (Js.nonempty (successUrl req)), (Js.nonempty (cancelUrl req));
    try (by intros [= <- <- <-] ?);
    rewrite Hc;
    (destruct (bool_decide (length (CartModel.items cart) = 0%nat));
       [by intros [= <- <- <-] ?|]);
    (destruct (validateItems products (CartModel.items cart) [] 0 0)
       as [msg|[[its amount] n]] eqn:E; [by intros [= <- <- <-] ?|]);
    apply validateItems_snapshot in E as (new & -> & Hsnap & -> & ->);
    unfold OrderRepository.create.
  (* ONLINE with both URLs *)
  { destruct (Stripe.createCheckoutSession gw _ _ _ _ _ _) as [session|].
    - unfold OrderRepository.updateSessionId.
      rewrite (order_update_created newId orders) by done.
      destruct (CartRepository.clearCart carts (CartModel._id cart)) as [c1 carts1].
      intros [= <- <- <-] _. eexists. split; [reflexivity|].
      cbn. split_and!; done.
    - unfold OrderRepository.deactivateOrder.
      rewrite (order_update_created newId orders) by done.
      by intros [= <- <- <-] ?. }
  (* COD, whatever the URLs *)
  all: destruct (CartRepository.clearCart carts (CartModel._id cart)) as [c1 carts1];
    intros [= <- <- <-] _; eexists; (split; [reflexivity|]);
    cbn; split_and!; done.
Qed.

Lemma createOrder_snapshots_catalog_witness :
  let cart := CartModel.mkCart "c1" (Some "u1")
                [CartModel.mkCartItem "p1" "Pen" 10 2 "t" 0] 20 2 true in
  let products := [ProductModel.mkProduct "p1" "Pen, blue" 12 50 "t2"] in
  let addr := mkShippingAddress "1 Main St" "Springfield" "IL" "62701" "US" false in
  let req := mkCreateOrderRequest (Some "u1"%string) (Some addr) (Some "COD"%string)
               None None in
  let gw := Stripe.mkGateway (λ _ _ _ _ _ _, None) (λ _, None) in
  let r := createOrder gw "o1" "ORD1" [cart] products [] req in
  ∃ order,
    data (fst (fst r)) = Some order ∧
    snd r = [] ++ [order] ∧
    _id order = "o1"%string ∧ orderNumber order = "ORD1"%string ∧
    userId order = "u1"%string ∧
    Forall2 (snapshot_of products) (CartModel.items cart) (items order) ∧
    totalAmount order = Js.sumZ ((λ oi, price oi * quantity oi) <$> items order) ∧
    totalItems order = Js.sumZ (quantity <$> items order) ∧
    orderStatus order = OrderStatus.PENDING ∧
    paymentStatus order = PaymentStatus.PENDING ∧
    isActive order = true ∧
    (paymentMethod order = PaymentMethod.ONLINE → is_Some (sessionId order)).
Proof.
  intros cart products addr req gw r.
  apply (createOrder_snapshots_catalog gw "o1" "ORD1" [cart] products [] req "u1" cart
           (fst (fst r)) (snd (fst r)) (snd r)).
  - reflexivity.
  - reflexivity.
  - cbn. apply not_elem_of_nil.
  - reflexivity.
  - reflexivity.
Defined.

(** X18. A successful checkout empties the caller's cart, for ONLINE
    payment as well (before the buyer has paid): the cart stored under the
    identifier of the caller's cart has no lines and both totals at 0. *)
Theorem createOrder_clears_cart (gw : Stripe.Gateway)
    (newId newNumber : string) (carts : list CartModel.Cart)
    (products : list ProductModel.Product) (orders : list Order)
    (req : CreateOrderRequest) (uid : string) (cart : CartModel.Cart)
    (resp : CreateOrderResponse) (carts' : list CartModel.Cart) (orders' : list Order) :
  Js.nonempty (user req) = Some uid →
  CartRepository.findByUserId carts uid = Some cart →
  createOrder gw newId newNumber carts products orders req = (resp, carts', orders') →
  status resp = 201 →
  ∃ c,
    CartRepository.findById carts' (CartModel._id cart) = Some c ∧
    CartModel.items c = [] ∧
    CartModel.totalItems c = 0 ∧
    CartModel.totalAmount c = 0.
Proof.
  intros Hu Hc.
  assert (∃ c, CartRepository.findById
                 (snd (CartRepository.clearCart carts (CartModel._id cart)))
                 (CartModel._id cart) = Some c ∧
               CartModel.items c = [] ∧ CartModel.totalItems c = 0 ∧
               CartModel.totalAmount c = 0) as Hclear.
  { apply CollectionFacts.findOne_Some_elem in Hc as [Hin _].
    destruct (CartMergeProperties.findById_is_Some_of_elem carts cart Hin) as [c0 Hc0].
    unfold CartRepository.clearCart. rewrite Hc0. cbn [snd]. eexists. split.
    - eapply CartFacts.findById_save; [exact Hc0|].
      cbn. by eapply CartFacts.findById_id.
    - done. }
  unfold createOrder. rewrite Hu.
  destruct (body_shippingAddress req) as [addr|]; [|by intros [= <- <- <-] ?].
  destruct (Js.nonempty (body_paymentMethod req)) as [pmStr|];
    [|by intros [= <- <- <-] ?].
  destruct (PaymentMethod.parse pmStr) as [pm|]; [|by intros [= <- <- <-] ?].
  destruct pm, (Js.nonempty (successUrl req)), (Js.nonempty (cancelUrl req));
    try (by intros [= <- <- <-] ?);
    rewrite Hc;
    (destruct (bool_decide (length (CartModel.items cart) = 0%nat));
       [by intros [= <- <- <-] ?|]);
    (destruct (validateItems products (CartModel.items cart) [] 0 0)
       as [msg|[[its amount] n]]; [by intros [= <- <- <-] ?|]);
    unfold OrderRepository.create.
  { destruct (Stripe.createCheckoutSession gw _ _ _ _ _ _) as [session|].
    - destruct (OrderRepository.updateSessionId _ _ _) as [u orders2].
      destruct (CartRepository.clearCart carts (CartModel._id cart)) as [c1 carts1].
      by intros [= <- <- <-] _.
    - destruct (OrderRepository.deactivateOrder _ _) as [b orders2].
      by intros [= <- <- <-] ?. }
  all: destruct (CartRepository.clearCart carts (CartModel._id cart)) as [c1 carts1];
    by intros [= <- <- <-] _.
Qed.

Lemma createOrder_clears_cart_witness :
  let cart := CartModel.mkCart "c1" (Some "u1")
                [CartModel.mkCartItem "p1" "Pen" 10 2 "t" 0] 20 2 true in
  let products := [ProductModel.mkProduct "p1" "Pen" 12 50 "t"] in
  let addr := mkShippingAddress "1 Main St" "Springfield" "IL" "62701" "US" false in
  let req := mkCreateOrderRequest (Some "u1"%string) (Some addr) (Some "ONLINE"%string)
               (Some "https://shop.example/ok"%string)
               (Some "https://shop.example/cancel"%string) in
  let gw := Stripe.mkGateway
              (λ _ _ _ _ _ _, Some (Stripe.mkSession "cs_1" "https://pay.example/cs_1" "unpaid"))
              (λ _, None) in
  let r := createOrder gw "o1" "ORD1" [cart] products [] req in
  ∃ c,
    CartRepository.findById (snd (fst r)) (CartModel._id cart) = Some c ∧
    CartModel.items c = [] ∧
    CartModel.totalItems c = 0 ∧
    CartModel.totalAmount c = 0.
Proof.
  intros cart products addr req gw r.
  apply (createOrder_clears_cart gw "o1" "ORD1" [cart] products [] req "u1" cart
           (fst (fst r)) (snd (fst r)) (snd r)).
  - reflexivity.
  - reflexivity.
  - reflexivity.
  - reflexivity.
Defined.

(** X19. When the gateway refuses the checkout session of an ONLINE
    checkout whose lines all pass the stock check, the answer is 500, the
    cart keeps its lines, and the order that was created stays in the
    collection but inactive, so it is no longer found by its order
    number. *)
Theorem createOrder_gateway_failure (gw : Stripe.Gateway)
    (newId newNumber : string) (carts : list CartModel.Cart)
    (products : list ProductModel.Product) (orders : list Order)
    (req : CreateOrderRequest) (uid : string) (cart : CartModel.Cart)
    (addr : ShippingAddress) (sUrl cUrl : string) :
  Js.nonempty (user req) = Some uid →
  body_shippingAddress req = Some addr →
  body_paymentMethod req = Some "ONLINE"%string →
  Js.nonempty (successUrl req) = Some sUrl →
  Js.nonempty (cancelUrl req) = Some cUrl →
  CartRepository.findByUserId carts uid = Some cart →
  CartModel.items cart ≠ [] →
  Forall (line_in_stock products) (CartModel.items cart) →
  (∀ its, Stripe.createCheckoutSession gw its (successUrl req) (cancelUrl req)
            newId newNumber uid = None) →
  newId ∉ (_id <$> orders) →
  ∃ order,
    createOrder gw newId newNumber carts products orders req
    = (reject 500 "Failed to create checkout session. Please try again.",
       carts, orders ++ [order]) ∧
    _id order = newId ∧ orderNumber order = newNumber ∧ isActive order = false ∧
    OrderRepository.findByOrderNumber (orders ++ [order]) newNumber
    = OrderRepository.findByOrderNumber orders newNumber.
Proof.
  intros Hu Haddr Hpm Hs Hcu Hc Hne Hall Hgw Hfresh.
  unfold createOrder. rewrite Hu, Haddr, Hpm.
  assert (Js.nonempty (Some "ONLINE"%string) = Some "ONLINE"%string) as -> by reflexivity.
  assert (PaymentMethod.parse "ONLINE" = Some PaymentMethod.ONLINE) as -> by reflexivity.
  rewrite Hs, Hcu, Hc. cbn iota.
  rewrite bool_decide_eq_false_2 by (by destruct (CartModel.items cart)).
  pose proof (OrderProperties.validateItems_decides products (CartModel.items cart) [] 0 0)
    as Hv.
  destruct (validateItems products (CartModel.items cart) [] 0 0)
    as [m|[[its amount] n]]; [done|].
  unfold OrderRepository.create. cbn [_id orderNumber]. rewrite Hgw.
  unfold OrderRepository.deactivateOrder.
  rewrite (order_update_created newId orders) by done.
  eexists. split; [reflexivity|]. cbn [_id orderNumber isActive set_isActive].
  split_and!; [done..|].
  unfold OrderRepository.findByOrderNumber, Collection.findOne.
  destruct (list_find (λ o, orderNumber o = newNumber ∧ isActive o = true) orders)
    as [[i o]|] eqn:E.
  - by rewrite (list_find_app_l _ _ _ _ _ E).
  - rewrite list_find_app_r by done. cbn.
    rewrite decide_False; [done|]. by intros [_ ?].
Qed.

Lemma createOrder_gateway_failure_witness :
  let cart := CartModel.mkCart "c1" (Some "u1")
                [CartModel.mkCartItem "p1" "Pen" 10 2 "t" 0] 20 2 true in
  let products := [ProductModel.mkProduct "p1" "Pen" 12 50 "t"] in
  let addr := mkShippingAddress "1 Main St" "Springfield" "IL" "62701" "US" false in
  let req := mkCreateOrderRequest (Some "u1"%string) (Some addr) (Some "ONLINE"%string)
               (Some "https://shop.example/ok"%string)
               (Some "https://shop.example/cancel"%string) in
  let gw := Stripe.mkGateway (λ _ _ _ _ _ _, None) (λ _, None) in
  ∃ order,
    createOrder gw "o1" "ORD1" [cart] products [] req
    = (reject 500 "Failed to create checkout session. Please try again.",
       [cart], [] ++ [order]) ∧
    _id order = "o1"%string ∧ orderNumber order = "ORD1"%string ∧
    isActive order = false ∧
    OrderRepository.findByOrderNumber ([] ++ [order]) "ORD1"
    = OrderRepository.findByOrderNumber [] "ORD1".
Proof.
  intros cart products addr req gw.
  apply (createOrder_gateway_failure gw "o1" "ORD1" [cart] products [] req "u1" cart
           addr "https://shop.example/ok" "https://shop.example/cancel").
  - reflexivity.
  - reflexivity.
  - reflexivity.
  - reflexivity.
  - reflexivity.
  - reflexivity.
  - done.
  - apply Forall_singleton. eexists. split; [reflexivity|]. cbn. lia.
  - done.
  - cbn. apply not_elem_of_nil.
Defined.



(** X21. The two order lookups disclose an order only to its owner: an
    answer that carries an order has status 200, the caller is
    authenticated as the user the order belongs to, and the order is the
    stored one the request names; an answer without an order is an error
    (status 400 or more).  The lookup by order number finds active orders
    only; the lookup by identifier also finds inactive ones. *)
Theorem order_lookups_only_for_owner (orders : list Order) :
  (∀ req,
     match Http.data (getOrderById orders req) with
     | Some o =>
         Js.nonempty (caller req) = Some (userId o) ∧
         _id o = orderId req ∧ o ∈ orders ∧
         Http.status (getOrderById orders req) = 200
     | None => 400 ≤ Http.status (getOrderById orders req)
     end) ∧
  (∀ user number,
     match Http.data (getOrderByOrderNumber orders user number) with
     | Some o =>
         Js.nonempty user = Some (userId o) ∧
         orderNumber o = number ∧ isActive o = true ∧ o ∈ orders ∧
         Http.status (getOrderByOrderNumber orders user number) = 200
     | None => 400 ≤ Http.status (getOrderByOrderNumber orders user number)
     end).
Proof.
  split.
  - intros req. unfold getOrderById.
    destruct (Js.nonempty (caller req)) as [uid|]; [|by cbn; lia].
    destruct (Js.nonempty (Some (orderId req))) as [oid|] eqn:Hoid; [|by cbn; lia].
    assert (oid = orderId req) as ->.
    { unfold Js.nonempty in Hoid. by destruct (decide _); simplify_eq. }
    destruct (OrderRepository.findById orders (orderId req)) as [order|] eqn:Hf;
      [|by cbn; lia].
    destruct (decide (userId order ≠ uid)) as [|Hown]; [by cbn; lia|].
    cbn. apply dec_stable in Hown.
    apply CollectionFacts.findOne_Some_elem in Hf as [? ?]. by subst.
  - intros user number. unfold getOrderByOrderNumber.
    destruct (Js.nonempty user) as [uid|]; [|by cbn; lia].
    destruct (Js.nonempty (Some number)) as [num|] eqn:Hnum; [|by cbn; lia].
    assert (num = number) as ->.
    { unfold Js.nonempty in Hnum. by destruct (decide _); simplify_eq. }
    destruct (OrderRepository.findByOrderNumber orders number) as [order|] eqn:Hf;
      [|by cbn; lia].
    destruct (decide (userId order ≠ uid)) as [|Hown]; [by cbn; lia|].
    cbn. apply dec_stable in Hown.
    apply CollectionFacts.findOne_Some_elem in Hf as [? [? ?]]. by subst.
Qed.

(** An update of the first document a query selects, as a list update. *)
Lemma findOneAndUpdate_shape {D} (P : D → Prop) `{∀ d, Decision (P d)}
    (upd : D → D) (s : list D) :
  snd (Collection.findOneAndUpdate P upd s) = s ∨
  ∃ i d, s !! i = Some d ∧ P d ∧
         snd (Collection.findOneAndUpdate P upd s) = <[i := upd d]> s.
Proof.
  unfold Collection.findOneAndUpdate.
  destruct (list_find P s) as [[i d]|] eqn:E; [|by left].
  right. apply list_find_Some in E as (Hl & HP & _). by exists i, d.
Qed.

(** X22. The admin's status update and the user's cancellation change at
    most one stored order, the one the request names, and on that order
    only the fulfillment status: payment status, lines, totals, owner,
    session and activity flag are never touched. *)
Theorem order_status_changes_touch_one_field (orders : list Order) (req : OrderRequest) :
  (snd (updateOrderStatus orders req) = orders ∨
   ∃ i o st, orders !! i = Some o ∧ _id o = orderId req ∧
             snd (updateOrderStatus orders req) = <[i := set_orderStatus o st]> orders) ∧
  (snd (fst (cancelOrder orders req)) = orders ∨
   ∃ i o, orders !! i = Some o ∧ _id o = orderId req ∧
          snd (fst (cancelOrder orders req))
          = <[i := set_orderStatus o OrderStatus.CANCELLED]> orders).
Proof.
  split.
  - unfold updateOrderStatus.
    destruct (Js.nonempty (Some (orderId req))) as [oid|] eqn:Hoid; [|by left].
    assert (oid = orderId req) as ->.
    { unfold Js.nonempty in Hoid. by destruct (decide _); simplify_eq. }
    destruct (Js.nonempty (body_status req)) as [s|]; [|by left].
    destruct (OrderStatus.parse s) as [st|]; [|by left].
    unfold OrderRepository.updateOrderStatus.
    destruct (findOneAndUpdate_shape (λ o, _id o = orderId req)
                (λ o, set_orderStatus o st) orders) as [Hsame|(i & o & Hl & Hid & Hupd)].
    + left. destruct (Collection.findOneAndUpdate _ _ orders) as [[u|] orders1];
        exact Hsame.
    + right. exists i, o, st. split_and!; [done..|].
      destruct (Collection.findOneAndUpdate _ _ orders) as [[u|] orders1]; exact Hupd.
  - unfold cancelOrder.
    destruct (Js.nonempty (caller req)) as [uid|]; [|by left].
    destruct (Js.nonempty (Some (orderId req))) as [oid|] eqn:Hoid; [|by left].
    assert (oid = orderId req) as ->.
    { unfold Js.nonempty in Hoid. by destruct (decide _); simplify_eq. }
    destruct (OrderRepository.findById orders (orderId req)) as [order|]; [|by left].
    destruct (decide (userId order ≠ uid)); [by left|].
    destruct (decide (orderStatus order = OrderStatus.SHIPPED
                      ∨ orderStatus order = OrderStatus.DELIVERED)); [by left|].
    unfold OrderRepository.cancelOrder.
    destruct (findOneAndUpdate_shape (λ o, _id o = orderId req)
                (λ o, set_orderStatus o OrderStatus.CANCELLED) orders)
      as [Hsame|(i & o & Hl & Hid & Hupd)].
    + left. destruct (Collection.findOneAndUpdate _ _ orders) as [u orders1];
        exact Hsame.
    + right. exists i, o. split_and!; [done..|].
      destruct (Collection.findOneAndUpdate _ _ orders) as [u orders1]; exact Hupd.
Qed.

Lemma countStatus_cons (st : OrderStatus.t) (o : Order) (l : list Order) :
  OrderRepository.countStatus st (o :: l)
  = (if decide (orderStatus o = st) then 1 else 0) + OrderRepository.countStatus st l.
Proof. reflexivity. Qed.

(** X23. The order statistics of a user count each active order of the
    user in exactly one of the five status counters, so the counters add
    up to the total; the total is the number of the user's active orders;
    and the amount spent adds the totals of all of them, cancelled and
    unpaid orders included. *)
Theorem getOrderStats_counters_partition (orders : list Order) (uid : string) :
  let stats := OrderRepository.getOrderStats orders uid in
  let mine := filter (λ o, userId o = uid ∧ isActive o = true) orders in
  OrderRepository.totalOrders stats
  = OrderRepository.pendingOrders stats + OrderRepository.confirmedOrders stats
    + OrderRepository.shippedOrders stats + OrderRepository.deliveredOrders stats
    + OrderRepository.cancelledOrders stats ∧
  OrderRepository.totalOrders stats = Z.of_nat (length mine) ∧
  OrderRepository.totalSpent stats = Js.sumZ (totalAmount <$> mine).
Proof.
  intros stats mine. subst stats. unfold OrderRepository.getOrderStats. fold mine.
  clearbody mine.
  assert (Js.sumZ ((λ _, 1) <$> mine)
          = OrderRepository.countStatus OrderStatus.PENDING mine
            + OrderRepository.countStatus OrderStatus.CONFIRMED mine
            + OrderRepository.countStatus OrderStatus.SHIPPED mine
            + OrderRepository.countStatus OrderStatus.DELIVERED mine
            + OrderRepository.countStatus OrderStatus.CANCELLED mine ∧
          Js.sumZ ((λ _, 1) <$> mine) = Z.of_nat (length mine)) as [Hsum Hlen].
  { induction mine as [|o l [IH1 IH2]]; [done|].
    rewrite fmap_cons, JsFacts.sumZ_cons, !countStatus_cons. cbn [length].
    split; [|lia]. rewrite IH1.
    destruct (orderStatus o); repeat case_decide; try congruence; lia. }
  destruct mine as [|o l]; [done|]. cbn [OrderRepository.totalOrders
    OrderRepository.pendingOrders OrderRepository.confirmedOrders
    OrderRepository.shippedOrders OrderRepository.deliveredOrders
    OrderRepository.cancelledOrders OrderRepository.totalSpent].
  by split_and!.
Qed.

End OrderControllerProperties.

(** ** The webhook handler: what it trusts and what it writes *)

Module WebhookExtraProperties.
Import OrderModel StripeWebhookController.

(** The search after an in-place rewrite that does not change whether
    the rewritten document satisfies the query. *)
Lemma list_find_insert_preserved {D} (Q : D → Prop) `{∀ d, Decision (Q d)}
    (s : list D) (i : nat) (d e : D) :
  s !! i = Some d → (Q e ↔ Q d) →
  list_find Q (<[i := e]> s)
  = (λ jx, (jx.1, if decide (jx.1 = i) then e else jx.2)) <$> list_find Q s.
Proof.
  revert i. induction s as [|x s IH]; intros i Hl Hiff; [done|].
  destruct i as [|i]; cbn in *.
  - injection Hl as ->.
    destruct (decide (Q e)) as [He|He], (decide (Q d)) as [Hd|Hd];
      [done|tauto|tauto|].
    destruct (list_find Q s) as [[j y]|]; [|done]. cbn.
    by rewrite decide_False by lia.
  - destruct (decide (Q x)); [done|].
    etrans; [exact (f_equal (fmap (M := option) (prod_map S Datatypes.id)) (IH i Hl Hiff))|].
    destruct (list_find Q s) as [[j y]|]; [|done]. cbn.
    by destruct (decide (j = i)); [rewrite decide_True by lia|rewrite decide_False by lia].
Qed.

(** The payment update as a rewrite of one document: it keeps the
    identifier, the order number, the activity flag and the fulfillment
    status, and doing it twice is doing it once. *)
Lemma updatePaymentStatus_rewrite (ps : PaymentStatus.t) (tid : option string) :
  ∃ upd : Order → Order,
    (∀ orders oid,
       OrderRepository.updatePaymentStatus orders oid ps tid
       = Collection.findOneAndUpdate (λ o, _id o = oid) upd orders) ∧
    (∀ o, _id (upd o) = _id o ∧ orderNumber (upd o) = orderNumber o ∧
          isActive (upd o) = isActive o ∧ orderStatus (upd o) = orderStatus o ∧
          userId (upd o) = userId o ∧ items (upd o) = items o ∧
          totalAmount (upd o) = totalAmount o ∧
          upd (upd o) = upd o).
Proof.
  eexists. split; [intros orders oid; reflexivity|].
  intros o. cbn. by destruct (Js.nonempty tid).
Qed.

(** X24. A webhook request without a signature header, with an empty one
    or with the header 'test-signature' is never verified: the event is
    taken from the request body as it is, and any body that carries an
    event type is processed and answered with 200, whatever the
    verification of the gateway would say. *)
Theorem handleWebhook_without_signature_trusts_body (gw : Stripe.Gateway)
    (verify : option Event → string → option Event)
    (orders : list Order) (req : Request) (event : Event) :
  Js.nonempty (stripe_signature req) = None
  ∨ stripe_signature req = Some "test-signature"%string →
  body req = Some event →
  Js.truthy (type event) = true →
  handleWebhook gw verify orders req
  = (mkResponse 200 true (result_message (processWebhookEvent gw orders event).1) true,
     (processWebhookEvent gw orders event).2).
Proof.
  intros Hsig Hbody Htype.
  assert (resolveEvent verify req = inr event) as Hres.
  { unfold resolveEvent. rewrite Hbody, Htype.
    destruct Hsig as [->| ->]; [done|]. cbn.
    by rewrite decide_False by (by intros ?). }
  unfold handleWebhook. rewrite Hres.
  destruct (processWebhookEvent gw orders event) as [result orders1]. cbn.
  by destruct (processed result).
Qed.

Lemma handleWebhook_without_signature_trusts_body_witness :
  let addr := mkShippingAddress "1 Main St" "Springfield" "IL" "62701" "US" false in
  let order := mkOrder "o1" "u1" [mkOrderItem "p1" "Pen" 10 2 "t"] 20 2 addr
                 PaymentMethod.ONLINE PaymentStatus.PENDING OrderStatus.PENDING
                 (Some "cs_1"%string) None "ORD1" true in
  let gw := Stripe.mkGateway (λ _ _ _ _ _ _, None)
              (λ sid, Some (Stripe.mkSession sid "https://pay.example" "paid")) in
  let verify : option Event → string → option Event := λ _ _, None in
  let event := mkEvent (Some "checkout.session.completed"%string) (Some "cs_1"%string)
                 None (Some "ORD1"%string) None None in
  let req := mkRequest None (Some event) in
  handleWebhook gw verify [order] req
  = (mkResponse 200 true (result_message (processWebhookEvent gw [order] event).1) true,
     (processWebhookEvent gw [order] event).2).
Proof.
  intros addr order gw verify event req.
  apply (handleWebhook_without_signature_trusts_body gw verify [order] req event).
  - left. reflexivity.
  - reflexivity.
  - reflexivity.
Defined.

(** What one run of the event processing writes. *)
Lemma processWebhookEvent_writes (gw : Stripe.Gateway) (orders : list Order)
    (event : Event) :
  (processWebhookEvent gw orders event).2 = orders ∨
  ∃ i o ps sid,
    orders !! i = Some o ∧
    (processWebhookEvent gw orders event).2
    = <[i := set_transactionId (set_paymentStatus o ps) (Some sid)]> orders.
Proof.
  unfold processWebhookEvent.
  destruct (decide (type event = Some "checkout.session.completed"%string)); [|by left].
  unfold handleCheckoutSessionCompleted.
  destruct (Js.nonempty (Js.or_else (id event) (data_object_id event)))
    as [sid|] eqn:Hsid; [|by left].
  destruct (Js.nonempty (Js.or_else (orderNum event) (metadata_orderNum event)))
    as [num|]; [|by left].
  destruct (Stripe.retrieveCheckoutSession gw sid) as [ss|]; [|by left].
  destruct (OrderRepository.findByOrderNumber orders num) as [order|]; [|by left].
  unfold OrderRepository.updatePaymentStatus.
  rewrite (WebhookProperties.nonempty_idem _ _ Hsid).
  unfold Collection.findOneAndUpdate.
  destruct (list_find _ orders) as [[i d]|] eqn:E; [|by left].
  right. apply list_find_Some in E as (Hl & _ & _).
  by eexists i, d, _, sid.
Qed.

(** X25. Whatever the request, the webhook handler answers 200 or 400,
    a 400 answer leaves the orders as they were, and a 200 answer has
    rewritten at most one order, on which only the payment status and the
    transaction id are set: the fulfillment status of no order is ever
    changed by a payment notification, and no order is added or removed. *)
Theorem handleWebhook_writes_payment_fields_only (gw : Stripe.Gateway)
    (verify : option Event → string → option Event)
    (orders : list Order) (req : Request) :
  let r := handleWebhook gw verify orders req in
  (status r.1 = 200 ∨ status r.1 = 400 ∧ r.2 = orders) ∧
  (r.2 = orders ∨
   ∃ i o ps sid, orders !! i = Some o ∧
     r.2 = <[i := set_transactionId (set_paymentStatus o ps) (Some sid)]> orders) ∧
  orderStatus <$> r.2 = orderStatus <$> orders ∧
  _id <$> r.2 = _id <$> orders.
Proof.
  intros r. subst r. unfold handleWebhook.
  destruct (resolveEvent verify req) as [msg|event]; [by split_and!; [right|left|..]|].
  pose proof (processWebhookEvent_writes gw orders event) as Hw.
  destruct (processWebhookEvent gw orders event) as [result orders1]. cbn in Hw.
  assert ((if processed result
           then (mkResponse 200 true (result_message result) true, orders1)
           else (mkResponse 200 true (result_message result) true, orders1))
          = (mkResponse 200 true (result_message result) true, orders1)) as ->
    by by destruct (processed result).
  cbn. split_and!; [by left|exact Hw|..].
  - destruct Hw as [->|(i & o & ps & sid & Hl & ->)]; [done|].
    rewrite list_fmap_insert. by rewrite list_insert_id by by rewrite list_lookup_fmap, Hl.
  - destruct Hw as [->|(i & o & ps & sid & Hl & ->)]; [done|].
    rewrite list_fmap_insert. by rewrite list_insert_id by by rewrite list_lookup_fmap, Hl.
Qed.

(** Processing the same event again, with the gateway answering the
    same, gives the same result and writes nothing new. *)
Lemma processWebhookEvent_replay (gw : Stripe.Gateway) (orders : list Order)
    (event : Event) :
  processWebhookEvent gw (processWebhookEvent gw orders event).2 event
  = processWebhookEvent gw orders event.
Proof.
  unfold processWebhookEvent.
  destruct (decide (type event = Some "checkout.session.completed"%string)); [|done].
  unfold handleCheckoutSessionCompleted.
  destruct (Js.nonempty (Js.or_else (id event) (data_object_id event)))
    as [sid|]; [|done].
  destruct (Js.nonempty (Js.or_else (orderNum event) (metadata_orderNum event)))
    as [num|]; [|done].
  destruct (Stripe.retrieveCheckoutSession gw sid) as [ss|]; [|done].
  destruct (OrderRepository.findByOrderNumber orders num) as [order|] eqn:Hf;
    [|by cbn [snd]; rewrite Hf].
  set (ps := if decide (Stripe.payment_status ss = "paid"%string)
             then PaymentStatus.PAID else PaymentStatus.PENDING).
  destruct (updatePaymentStatus_rewrite ps (Some sid)) as (upd & Hupd & Hpres).
  rewrite !Hupd. unfold Collection.findOneAndUpdate.
  destruct (list_find (λ o, _id o = _id order) orders) as [[i d]|] eqn:E.
  2:{ cbn [snd]. rewrite Hf. rewrite !Hupd. unfold Collection.findOneAndUpdate.
      by rewrite E. }
  cbn [snd].
  pose proof E as (Hl & Hid & _)%list_find_Some.
  destruct (Hpres d) as (Hid' & Hnum' & Hact' & _ & _ & _ & _ & Hidem).
  unfold OrderRepository.findByOrderNumber, Collection.findOne in Hf |- *.
  rewrite (list_find_insert_preserved _ orders i d (upd d) Hl)
    by by rewrite Hnum', Hact'.
  destruct (list_find _ orders) as [[j order']|] eqn:Hj; [|done].
  cbn in Hf. injection Hf as ->.
  cbn [fmap option_fmap option_map fst snd].
  set (found := if decide (j = i) then upd d else order).
  assert (_id found = _id order ∧ orderNumber found = orderNumber order) as [Hfid Hfnum].
  { subst found. destruct (decide (j = i)) as [->|]; [|done].
    apply list_find_Some in Hj as (Hl' & _ & _).
    assert (d = order) as -> by congruence. done. }
  rewrite !Hupd. unfold Collection.findOneAndUpdate. rewrite Hfid, Hfnum.
  rewrite (list_find_insert_preserved _ orders i d (upd d) Hl) by by rewrite Hid'.
  rewrite E. cbn. rewrite decide_True by done.
  by rewrite Hidem, list_insert_insert_eq.
Qed.

(** X26. Delivering the same webhook request a second time is harmless:
    when the gateway answers as it did the first time, the second run
    gives the same response and leaves the orders exactly as the first
    run left them. *)
Theorem handleWebhook_replay_idempotent (gw : Stripe.Gateway)
    (verify : option Event → string → option Event)
    (orders : list Order) (req : Request) :
  handleWebhook gw verify (handleWebhook gw verify orders req).2 req
  = handleWebhook gw verify orders req.
Proof.
  unfold handleWebhook.
  destruct (resolveEvent verify req) as [msg|event]; [done|].
  pose proof (processWebhookEvent_replay gw orders event) as Hr.
  destruct (processWebhookEvent gw orders event) as [result orders1]. cbn in Hr.
  assert (∀ o : list Order,
            (if processed result
             then (mkResponse 200 true (result_message result) true, o)
             else (mkResponse 200 true (result_message result) true, o))
            = (mkResponse 200 true (result_message result) true, o)) as Hif
    by by intros; destruct (processed result).
  rewrite !Hif. cbn. by rewrite Hr, Hif.
Qed.

End WebhookExtraProperties.

(** ** Tickets: what the operations keep and who may use them *)

Module TicketExtraProperties.
Import TicketModel TicketController.

(** An in-place rewrite relates the collection before and after
    pointwise by any reflexive relation the rewrite respects. *)
Lemma findOneAndUpdate_pointwise {D} (R : D → D → Prop) (P : D → Prop)
    `{∀ d, Decision (P d)} (upd : D → D) (s : list D) :
  (∀ d, R d d) → (∀ d, R d (upd d)) →
  Forall2 R s (Collection.findOneAndUpdate P upd s).2.
Proof.
  intros Hrefl Hupd. unfold Collection.findOneAndUpdate.
  destruct (list_find P s) as [[i d]|] eqn:E; cbn.
  - apply list_find_Some in E as (Hl & _ & _).
    rewrite <- (list_insert_id s i d Hl) at 1.
    apply Forall2_insert; [|done]. by apply Forall_Forall2_diag, Forall_forall.
  - by apply Forall_Forall2_diag, Forall_forall.
Qed.

(** X27. No ticket operation loses anything of a conversation: after a
    customer reply, an admin status, priority or escalation update, or a
    close, the collection holds the same tickets in the same places, each
    with the same ticket id and owner, with its earlier messages as a
    prefix of its messages, and still escalated if it was. *)
Theorem ticket_operations_keep_conversations (tickets : list ITicket) :
  let keeps := λ tickets' : list ITicket,
    Forall2 (λ t t', ticketId t' = ticketId t ∧ user t' = user t ∧
                     messages t `prefix_of` messages t' ∧
                     (isEscalated t = true → isEscalated t' = true))
      tickets tickets' in
  (∀ req, keeps (addMessage tickets req).2) ∧
  (∀ tid s, keeps (updateTicketStatus tickets tid s).2) ∧
  (∀ tid p, keeps (updateTicketPriority tickets tid p).2) ∧
  (∀ tid, keeps (escalateTicket tickets tid).2) ∧
  (∀ req, keeps (closeTicket tickets req).2).
Proof.
  set (R := λ t t' : ITicket,
         ticketId t' = ticketId t ∧ user t' = user t ∧
         messages t `prefix_of` messages t' ∧
         (isEscalated t = true → isEscalated t' = true)).
  assert (∀ t, R t t) as Hrefl by (by intros t; unfold R).
  assert (∀ ts, Forall2 R ts ts) as Hsame
    by (by intros ts; apply Forall_Forall2_diag, Forall_forall).
  assert (∀ ts1 ts2 ts3, Forall2 R ts1 ts2 → Forall2 R ts2 ts3 → Forall2 R ts1 ts3)
    as Htrans.
  { intros ts1 ts2 ts3. apply Forall2_trans.
    intros t1 t2 t3 (? & ? & ? & ?) (? & ? & ? & ?). unfold R.
    split_and!; [congruence|congruence|by etrans|auto]. }
  cbn zeta. fold R. split_and!.
  - intros req. unfold addMessage.
    destruct (req_user req) as [uid|]; [|apply Hsame].
    destruct (Js.nonempty (body_message req)) as [msg|]; [|apply Hsame].
    destruct (TicketRepository.findByTicketId tickets (param_ticketId req))
      as [ticket|]; [|apply Hsame].
    destruct (decide (user ticket ≠ uid)); [apply Hsame|].
    pose proof (findOneAndUpdate_pointwise R (λ t, ticketId t = param_ticketId req)
                  (λ t, mkTicket (ticketId t) (user t) (order t) (subject t) (category t)
                          (priority t) (status t)
                          (messages t ++ [mkMessage uid UserRole.USER msg
                                            (default [] (body_attachments req)) (now req)])
                          (Some (now req)) (isEscalated t)) tickets Hrefl) as H1.
    unfold TicketRepository.addMessage. cbn [createdAt].
    destruct (Collection.findOneAndUpdate _ _ tickets) as [u1 tickets1].
    unfold TicketRepository.updateStatus.
    match goal with
    | |- context [Collection.findOneAndUpdate ?P ?upd tickets1] =>
        pose proof (findOneAndUpdate_pointwise R P upd tickets1 Hrefl) as H2;
        destruct (Collection.findOneAndUpdate P upd tickets1) as [u2 tickets2]
    end.
    cbn in *. eapply Htrans; [apply H1|apply H2].
    + intros ?. unfold R. cbn. split_and!; [done|done|by apply prefix_app_r|done].
    + by intros ?.
  - intros tid s. unfold updateTicketStatus.
    destruct (TicketRepository.findByTicketId tickets tid); [|apply Hsame].
    unfold TicketRepository.updateStatus.
    match goal with
    | |- context [Collection.findOneAndUpdate ?P ?upd tickets] =>
        pose proof (findOneAndUpdate_pointwise R P upd tickets Hrefl) as H1;
        destruct (Collection.findOneAndUpdate P upd tickets) as [u1 tickets1]
    end.
    cbn in *. apply H1. by intros ?.
  - intros tid p. unfold updateTicketPriority.
    destruct (p ≫= TicketPriority.parse); [|apply Hsame].
    destruct (TicketRepository.findByTicketId tickets tid); [|apply Hsame].
    unfold TicketRepository.updatePriority.
    match goal with
    | |- context [Collection.findOneAndUpdate ?P ?upd tickets] =>
        pose proof (findOneAndUpdate_pointwise R P upd tickets Hrefl) as H1;
        destruct (Collection.findOneAndUpdate P upd tickets) as [u1 tickets1]
    end.
    cbn in *. apply H1. by intros ?.
  - intros tid. unfold escalateTicket.
    destruct (TicketRepository.findByTicketId tickets tid); [|apply Hsame].
    unfold TicketRepository.escalate.
    match goal with
    | |- context [Collection.findOneAndUpdate ?P ?upd tickets] =>
        pose proof (findOneAndUpdate_pointwise R P upd tickets Hrefl) as H1;
        destruct (Collection.findOneAndUpdate P upd tickets) as [u1 tickets1]
    end.
    cbn in *. apply H1. by intros ?.
  - intros req. unfold closeTicket.
    destruct (req_user req) as [uid|]; [|apply Hsame].
    destruct (TicketRepository.findByTicketId tickets (param_ticketId req))
      as [ticket|]; [|apply Hsame].
    destruct (decide (user ticket ≠ uid)); [apply Hsame|].
    unfold TicketRepository.updateStatus.
    match goal with
    | |- context [Collection.findOneAndUpdate ?P ?upd tickets] =>
        pose proof (findOneAndUpdate_pointwise R P upd tickets Hrefl) as H1;
        destruct (Collection.findOneAndUpdate P upd tickets) as [u1 tickets1]
    end.
    cbn in *. apply H1. by intros ?.
Qed.

(** X28. Closing does not lock a ticket.  When its owner closes a ticket
    the stored status becomes CLOSED whatever it was; a reply the owner
    posts afterwards is still accepted with 200 and appended to the
    conversation, and the ticket stays CLOSED: only a ticket that waits
    for the customer is reopened by a reply. *)
Theorem closeTicket_then_reply_stays_closed (tickets : list ITicket) (req : Request)
    (ticket : ITicket) (uid msg : string) :
  req_user req = Some uid →
  Js.nonempty (body_message req) = Some msg →
  TicketRepository.findByTicketId tickets (param_ticketId req) = Some ticket →
  user ticket = uid →
  ∃ closed stored,
    Http.status (closeTicket tickets req).1 = 200 ∧
    TicketRepository.findByTicketId (closeTicket tickets req).2 (param_ticketId req)
    = Some closed ∧
    status closed = TicketStatus.CLOSED ∧ messages closed = messages ticket ∧
    Http.status (addMessage (closeTicket tickets req).2 req).1 = 200 ∧
    TicketRepository.findByTicketId (addMessage (closeTicket tickets req).2 req).2
      (param_ticketId req) = Some stored ∧
    status stored = TicketStatus.CLOSED ∧
    messages stored
    = messages ticket
      ++ [mkMessage uid UserRole.USER msg (default [] (body_attachments req)) (now req)].
Proof.
  intros Hu Hm Hf Hown.
  pose proof (CollectionFacts.findOne_Some_elem _ _ _ Hf) as [_ Htid].
  unfold closeTicket. rewrite Hu, Hf. rewrite decide_False by (by intros []).
  unfold TicketRepository.updateStatus, TicketRepository.findByTicketId in *.
  destruct (CollectionFacts.findOneAndUpdate_found
              (λ t, ticketId t = param_ticketId req)
              (λ t, mkTicket (ticketId t) (user t) (order t) (subject t) (category t)
                      (priority t) TicketStatus.CLOSED (messages t) (lastResponseAt t)
                      (isEscalated t)) tickets ticket Hf Htid)
    as (tickets1 & -> & Hf1).
  cbn [fst snd].
  set (closed := mkTicket (ticketId ticket) (user ticket) (order ticket) (subject ticket)
                   (category ticket) (priority ticket) TicketStatus.CLOSED
                   (messages ticket) (lastResponseAt ticket) (isEscalated ticket)) in *.
  unfold addMessage. rewrite Hu, Hm.
  unfold TicketRepository.findByTicketId. rewrite Hf1.
  rewrite decide_False by (by intros []).
  rewrite decide_False by done.
  unfold TicketRepository.addMessage, TicketRepository.updateStatus.
  set (m := mkMessage uid UserRole.USER msg (default [] (body_attachments req)) (now req)).
  destruct (CollectionFacts.findOneAndUpdate_found
              (λ t, ticketId t = param_ticketId req)
              (λ t, mkTicket (ticketId t) (user t) (order t) (subject t) (category t)
                      (priority t) (status t) (messages t ++ [m]) (Some (createdAt m))
                      (isEscalated t)) tickets1 closed Hf1 Htid)
    as (tickets2 & -> & Hf2).
  destruct (CollectionFacts.findOneAndUpdate_found
              (λ t, ticketId t = param_ticketId req)
              (λ t, mkTicket (ticketId t) (user t) (order t) (subject t) (category t)
                      (priority t) (status closed) (messages t) (lastResponseAt t)
                      (isEscalated t)) tickets2 _ Hf2 Htid)
    as (tickets3 & -> & Hf3).
  eexists closed, _. split_and!; [done|done|done|done|done|exact Hf3|done|done].
Qed.

Lemma closeTicket_then_reply_stays_closed_witness :
  let first := mkMessage "u1" UserRole.USER "Where is my parcel?" [] 100 in
  let ticket := mkTicket "TKT1" "u1" None "Parcel" TicketCategory.DELIVERY
                  TicketPriority.MEDIUM TicketStatus.IN_PROGRESS [first]
                  (Some 100) false in
  let req := mkRequest (Some "u1"%string) "TKT1" (Some "It arrived, thanks"%string)
               None 200 in
  ∃ closed stored,
    Http.status (closeTicket [ticket] req).1 = 200 ∧
    TicketRepository.findByTicketId (closeTicket [ticket] req).2 (param_ticketId req)
    = Some closed ∧
    status closed = TicketStatus.CLOSED ∧ messages closed = messages ticket ∧
    Http.status (addMessage (closeTicket [ticket] req).2 req).1 = 200 ∧
    TicketRepository.findByTicketId (addMessage (closeTicket [ticket] req).2 req).2
      (param_ticketId req) = Some stored ∧
    status stored = TicketStatus.CLOSED ∧
    messages stored
    = messages ticket
      ++ [mkMessage "u1" UserRole.USER "It arrived, thanks"
            (default [] (body_attachments req)) (now req)].
Proof.
  intros first ticket req.
  apply (closeTicket_then_reply_stays_closed [ticket] req ticket "u1"
           "It arrived, thanks"); reflexivity.
Defined.

(** X29. The customer routes of a ticket serve its owner only.  Reading a
    ticket returns it with 200 only when the caller is the user the ticket
    belongs to, and answers with an error code and no ticket otherwise;
    replying and closing change the collection only when the caller owns
    the ticket the request names. *)
Theorem ticket_customer_routes_owner_only (tickets : list ITicket) (req : Request) :
  match (getTicketById tickets req).2 with
  | inr t =>
      req_user req = Some (user t) ∧ ticketId t = param_ticketId req ∧ t ∈ tickets ∧
      (getTicketById tickets req).1 = 200
  | inl _ => 400 ≤ (getTicketById tickets req).1
  end ∧
  ((addMessage tickets req).2 = tickets ∨
   ∃ t, TicketRepository.findByTicketId tickets (param_ticketId req) = Some t ∧
        req_user req = Some (user t)) ∧
  ((closeTicket tickets req).2 = tickets ∨
   ∃ t, TicketRepository.findByTicketId tickets (param_ticketId req) = Some t ∧
        req_user req = Some (user t)).
Proof.
  unfold getTicketById, addMessage, closeTicket.
  destruct (req_user req) as [uid|]; [|by split_and!; [cbn; lia|left..]].
  destruct (TicketRepository.findByTicketId tickets (param_ticketId req))
    as [ticket|] eqn:Hf.
  2:{ split_and!; [cbn; lia|left|by left].
      by destruct (Js.nonempty (body_message req)). }
  destruct (decide (user ticket ≠ uid)) as [|Hown].
  { split_and!; [cbn; lia|left|by left].
    by destruct (Js.nonempty (body_message req)). }
  apply dec_stable in Hown. subst uid.
  apply CollectionFacts.findOne_Some_elem in Hf as [Hin Htid].
  split_and!; [done|right|right]; by exists ticket.
Qed.

End TicketExtraProperties.

(** ** The cart a caller is given stays the caller's cart *)

Module CartIdentityProperties.
Import CartModel CartRepository.

Lemma findOne_app_created {D} (P : D → Prop) `{∀ d, Decision (P d)} (s : list D) (d : D) :
  Collection.findOne P s = None → P d → Collection.findOne P (s ++ [d]) = Some d.
Proof.
  intros Hnone HP. apply CollectionFacts.findOne_None in Hnone.
  rewrite Forall_lookup in Hnone. unfold Collection.findOne.
  assert (list_find P (s ++ [d]) = Some (length s, d)) as ->; [|done].
  apply list_find_Some. split_and!.
  - by rewrite list_lookup_middle.
  - done.
  - intros j y Hj Hlt. rewrite lookup_app_l in Hj by done. eauto.
Qed.

(** X30. The cart that getOrCreateCart hands out is the cart the caller
    gets back next time.  Whether the cart was found or just created, a
    second call by the same user, or by a guest who presents the
    identifier of the cart as the guest id, returns that same cart and
    stores nothing: no second cart is created, whatever identifier the
    database would have assigned. *)
Theorem getOrCreateCart_again_returns_same_cart (newId newId2 : string)
    (carts : list Cart) (uid guestId : option string) :
  newId ∉ (_id <$> carts) →
  newId ≠ EmptyString →
  getOrCreateCart newId2 (getOrCreateCart newId carts uid guestId).2 uid
    (Some (_id (getOrCreateCart newId carts uid guestId).1))
  = getOrCreateCart newId carts uid guestId.
Proof.
  intros Hfresh Hne. unfold getOrCreateCart at 2 3 4.
  destruct (Js.nonempty uid) as [u|] eqn:Hu.
  - destruct (findByUserId carts u) as [c|] eqn:Hc; cbn [fst snd].
    + unfold getOrCreateCart. by rewrite Hu, Hc.
    + unfold create. cbn [fst snd]. unfold getOrCreateCart. rewrite Hu.
      unfold findByUserId in *.
      by rewrite (findOne_app_created _ carts (mkCart newId (Some u) [] 0 0 true) Hc).
  - destruct (Js.nonempty guestId) as [g|] eqn:Hg.
    + destruct (findById carts g) as [c|] eqn:Hc; cbn [fst snd].
      * pose proof (CartFacts.findById_id _ _ _ Hc) as Hid.
        unfold getOrCreateCart. rewrite Hu, Hid.
        by rewrite (WebhookProperties.nonempty_idem _ _ Hg), Hc.
      * unfold create. cbn [fst snd _id]. unfold getOrCreateCart. rewrite Hu.
        unfold Js.nonempty at 1. rewrite decide_False by done.
        by rewrite (CartControllerProperties.findById_created newId carts).
    + unfold create. cbn [fst snd _id]. unfold getOrCreateCart. rewrite Hu.
      unfold Js.nonempty at 1. rewrite decide_False by done.
      by rewrite (CartControllerProperties.findById_created newId carts).
Qed.

Lemma getOrCreateCart_again_returns_same_cart_witness :
  let other := mkCart "c1" (Some "u1"%string)
                 [mkCartItem "p1" "Pen" 10 2 "t" 0] 20 2 true in
  getOrCreateCart "c3" (getOrCreateCart "c2" [other] None None).2 None
    (Some (_id (getOrCreateCart "c2" [other] None None).1))
  = getOrCreateCart "c2" [other] None None.
Proof.
  intros other.
  apply (getOrCreateCart_again_returns_same_cart "c2" "c3" [other] None None).
  - cbn. intros Hin%list_elem_of_singleton. discriminate Hin.
  - done.
Defined.

End CartIdentityProperties.
